(** * Equipment lending portal: availability ledger and borrow-request lifecycle

    A shallow embedding of the backend's business logic:

    - [EquipmentModel]: the Equipment schema of [models/Equipment.js], its
      validators and the document methods [decreaseAvailable] and
      [increaseAvailable];
    - [RequestModel]: the Request schema of [models/Request.js], its
      validators and the document methods [approve], [reject] and
      [markReturned];
    - [EquipmentController]: [addEquipment], [updateEquipment] and
      [deleteEquipment] of [controllers/equipmentController.js];
    - [RequestController]: [createRequest], [approveRequest], [rejectRequest]
      and [markReturned] of [controllers/requestController.js].

    The three MongoDB collections are finite maps from ObjectIds to documents.
    A handler is a function from the database (and the request's inputs) to
    the HTTP response it sends and the database it leaves behind; the handlers
    run one at a time.  Numbers are integers ([Z]); dates are the
    millisecond time values of JavaScript [Date] objects. *)

From stdpp Require Import gmap strings list fin_maps pretty.
From Stdlib Require Import ZArith Lia.

Local Open Scope Z_scope.

(** ** Identifiers, dates, thrown errors *)

(** A well-formed ObjectId. *)
Abbreviation ObjectId := positive.

(** The time value of a valid [Date]. *)
Abbreviation Time := Z.

(** A JavaScript [Date] object: [None] is the Invalid Date, whose time value is
    NaN. *)
Abbreviation JsDate := (option Z).

(** [a < b] on [Date] objects: false as soon as one side is NaN. *)
Definition date_lt (a b : JsDate) : bool :=
  match a, b with
  | Some x, Some y => bool_decide (x < y)
  | _, _ => false
  end.

(** [a <= b] on [Date] objects. *)
Definition date_le (a b : JsDate) : bool :=
  match a, b with
  | Some x, Some y => bool_decide (x ≤ y)
  | _, _ => false
  end.

(** Truthiness of a string-valued body field: [undefined] and [''] are falsy. *)
Definition truthy (s : option string) : bool :=
  match s with
  | Some s => negb (String.eqb s "")
  | None => false
  end.

(** The paths of the schemas whose validators can fail. *)
Inductive SchemaError :=
  | NameRequired | NameTooShort | NameTooLong
  | CategoryInvalid
  | DescriptionRequired | DescriptionTooLong
  | ConditionInvalid
  | QuantityBelowMinimum
  | AvailableNegative | AvailableExceedsQuantity
  | LocationRequired | LocationTooLong
  | StudentNameRequired | StudentEmailRequired | EquipmentNameRequired
  | ReturnDateNotAfterBorrowDate
  | NotesRequired | NotesTooLong
  | ApprovalNotesTooLong | RejectionReasonTooLong
  | ReturnedConditionInvalid | ReturnNotesTooLong.

(** What a model call can throw. *)
Inductive Thrown :=
  | ValidationError (errors : list SchemaError)
  | CastError
  | Error (msg : string).

(** The outcome of a call that either throws or returns. *)
Inductive Result (A : Type) :=
  | Throw (e : Thrown)
  | Return (a : A).
Arguments Throw {A} e.
Arguments Return {A} a.

(** Emits [err] when the validator [ok] fails. *)
Definition check (ok : bool) (err : SchemaError) : list SchemaError :=
  if ok then [] else [err].

(** [maxlength] validator of a string path. *)
Definition maxlength (n : nat) (s : string) : bool :=
  bool_decide (String.length s ≤ n)%nat.

(** [minlength] validator of a string path. *)
Definition minlength (n : nat) (s : string) : bool :=
  bool_decide (n ≤ String.length s)%nat.

(** [maxlength] on a path whose default is [null]: validators skip [null]. *)
Definition maxlength_opt (n : nat) (s : option string) : bool :=
  match s with
  | Some s => maxlength n s
  | None => true
  end.

(** The [trim] setter of a string path, on the ASCII white space and line
    terminators (tab, line feed, vertical tab, form feed, carriage return,
    space). *)
Definition is_space (c : Ascii.ascii) : bool :=
  let n := Ascii.nat_of_ascii c in
  bool_decide (9 ≤ n ≤ 13)%nat || bool_decide (n = 32)%nat.

Fixpoint trim_start (s : string) : string :=
  match s with
  | String c s' => if is_space c then trim_start s' else s
  | EmptyString => EmptyString
  end.

Definition trim (s : string) : string :=
  String.rev (trim_start (String.rev (trim_start s))).

(** The [enum] shared by [condition] and [returnedCondition]. *)
Definition conditions : list string := ["Excellent"; "Good"; "Fair"; "Poor"].

(** ** models/Equipment.js *)

Module EquipmentModel.

Record Equipment := mkEquipment {
  name : string;
  category : string;
  description : string;
  condition : string;
  quantity : Z;
  available : Z;
  location : string
}.

Definition categories : list string :=
  ["Sports"; "Lab"; "Camera"; "Musical"; "Computing"; "Tools"; "Other"].

(** The validator of [available]: [value <= this.quantity]. *)
Definition available_validator (this : Equipment) : bool :=
  bool_decide (available this ≤ quantity this).

(** Document validation, path by path as the schema declares them. *)
Definition validate (this : Equipment) : list SchemaError :=
  check (negb (String.eqb (name this) "")) NameRequired
  ++ check (minlength 3 (name this)) NameTooShort
  ++ check (maxlength 100 (name this)) NameTooLong
  ++ check (bool_decide (category this ∈ categories)) CategoryInvalid
  ++ check (negb (String.eqb (description this) "")) DescriptionRequired
  ++ check (maxlength 500 (description this)) DescriptionTooLong
  ++ check (bool_decide (condition this ∈ conditions)) ConditionInvalid
  ++ check (bool_decide (1 ≤ quantity this)) QuantityBelowMinimum
  ++ check (bool_decide (0 ≤ available this)) AvailableNegative
  ++ check (available_validator this) AvailableExceedsQuantity
  ++ check (negb (String.eqb (location this) "")) LocationRequired
  ++ check (maxlength 100 (location this)) LocationTooLong.

(** The setters of the schema, run when a document is built: [name] is
    trimmed. *)
Definition cast (this : Equipment) : Equipment :=
  mkEquipment (trim (name this)) (category this) (description this)
    (condition this) (quantity this) (available this) (location this).

(** [this.save()]: validates, then writes the document under its id. *)
Definition save (coll : gmap ObjectId Equipment) (id : ObjectId)
    (this : Equipment) : Result (gmap ObjectId Equipment) :=
  match validate this with
  | [] => Return (<[id := this]> coll)
  | errs => Throw (ValidationError errs)
  end.

(** [this.available = a]. *)
Definition set_available (this : Equipment) (a : Z) : Equipment :=
  mkEquipment (name this) (category this) (description this)
    (condition this) (quantity this) a (location this).

(** The virtual [borrowed]. *)
Definition borrowed (this : Equipment) : Z :=
  quantity this - available this.

Definition isAvailable (this : Equipment) : bool :=
  bool_decide (available this > 0).

(** [decreaseAvailable(count = 1)]. *)
Definition decreaseAvailable (coll : gmap ObjectId Equipment)
    (id : ObjectId) (this : Equipment) (count : option Z)
    : Result (gmap ObjectId Equipment) :=
  let count := default 1 count in
  if bool_decide (available this < count)
  then Throw (Error "Not enough available quantity")
  else save coll id (set_available this (available this - count)).

(** [increaseAvailable(count = 1)]. *)
Definition increaseAvailable (coll : gmap ObjectId Equipment)
    (id : ObjectId) (this : Equipment) (count : option Z)
    : Result (gmap ObjectId Equipment) :=
  let count := default 1 count in
  if bool_decide (available this + count > quantity this)
  then Throw (Error "Cannot return more than total quantity")
  else save coll id (set_available this (available this + count)).

(** [updateOne({ $inc: { available: d } })] on the document with this id. *)
Definition inc_available (coll : gmap ObjectId Equipment) (id : ObjectId)
    (d : Z) : gmap ObjectId Equipment :=
  alter (fun e => set_available e (available e + d)) id coll.

End EquipmentModel.

(** ** models/Request.js *)

Module RequestModel.

Inductive Status := pending | approved | rejected | returned.

#[global] Instance Status_eq_dec : EqDecision Status.
Proof. solve_decision. Defined.

(** The string a status is stored and printed as. *)
Definition status_name (s : Status) : string :=
  match s with
  | pending => "pending"
  | approved => "approved"
  | rejected => "rejected"
  | returned => "returned"
  end.

Record Request := mkRequest {
  studentId : ObjectId;
  studentName : string;
  studentEmail : string;
  equipmentId : ObjectId;
  equipmentName : string;
  quantity : Z;
  borrowFromDate : Time;
  borrowToDate : Time;
  requestedDate : Time;
  notes : string;
  status : Status;
  approvedBy : option ObjectId;
  approvedByName : option string;
  approvalDate : option Time;
  approvalNotes : option string;
  rejectionReason : option string;
  actualReturnDate : option Time;
  returnedCondition : option string;
  returnNotes : option string
}.

(** The validator of [borrowToDate]: [value > this.borrowFromDate]. *)
Definition borrowToDate_validator (this : Request) : bool :=
  bool_decide (borrowToDate this > borrowFromDate this).

(** The [enum] of [returnedCondition], which admits [null]. *)
Definition returnedCondition_validator (c : option string) : bool :=
  match c with
  | Some c => bool_decide (c ∈ conditions)
  | None => true
  end.

(** Document validation, path by path as the schema declares them. *)
Definition validate (this : Request) : list SchemaError :=
  check (negb (String.eqb (studentName this) "")) StudentNameRequired
  ++ check (negb (String.eqb (studentEmail this) "")) StudentEmailRequired
  ++ check (negb (String.eqb (equipmentName this) "")) EquipmentNameRequired
  ++ check (bool_decide (1 ≤ quantity this)) QuantityBelowMinimum
  ++ check (borrowToDate_validator this) ReturnDateNotAfterBorrowDate
  ++ check (negb (String.eqb (notes this) "")) NotesRequired
  ++ check (maxlength 500 (notes this)) NotesTooLong
  ++ check (maxlength_opt 300 (approvalNotes this)) ApprovalNotesTooLong
  ++ check (maxlength_opt 300 (rejectionReason this)) RejectionReasonTooLong
  ++ check (returnedCondition_validator (returnedCondition this))
       ReturnedConditionInvalid
  ++ check (maxlength_opt 300 (returnNotes this)) ReturnNotesTooLong.

(** [this.save()]: validates, then writes the document under its id. *)
Definition save (coll : gmap ObjectId Request) (id : ObjectId)
    (this : Request) : Result (gmap ObjectId Request) :=
  match validate this with
  | [] => Return (<[id := this]> coll)
  | errs => Throw (ValidationError errs)
  end.

(** The assignments of [approve(adminId, adminName, notes)]. *)
Definition approved_by (this : Request) (adminId : ObjectId)
    (adminName notes' : string) (now : Time) : Request :=
  mkRequest (studentId this) (studentName this) (studentEmail this)
    (equipmentId this) (equipmentName this) (quantity this)
    (borrowFromDate this) (borrowToDate this) (requestedDate this)
    (notes this)
    approved (Some adminId) (Some adminName) (Some now) (Some notes')
    (rejectionReason this) (actualReturnDate this)
    (returnedCondition this) (returnNotes this).

(** The assignments of [reject(reason)]. *)
Definition rejected_for (this : Request) (reason : string) : Request :=
  mkRequest (studentId this) (studentName this) (studentEmail this)
    (equipmentId this) (equipmentName this) (quantity this)
    (borrowFromDate this) (borrowToDate this) (requestedDate this)
    (notes this)
    rejected (approvedBy this) (approvedByName this) (approvalDate this)
    (approvalNotes this) (Some reason) (actualReturnDate this)
    (returnedCondition this) (returnNotes this).

(** The assignments of [markReturned(condition, notes)]. *)
Definition returned_in (this : Request) (condition notes' : string)
    (now : Time) : Request :=
  mkRequest (studentId this) (studentName this) (studentEmail this)
    (equipmentId this) (equipmentName this) (quantity this)
    (borrowFromDate this) (borrowToDate this) (requestedDate this)
    (notes this)
    returned (approvedBy this) (approvedByName this) (approvalDate this)
    (approvalNotes this) (rejectionReason this) (Some now)
    (Some condition) (Some notes').

(** [approve(adminId, adminName, notes = '')]; [now] is [new Date()]. *)
Definition approve (coll : gmap ObjectId Request) (id : ObjectId)
    (this : Request) (adminId : ObjectId) (adminName : string)
    (notes' : option string) (now : Time)
    : Result (gmap ObjectId Request) :=
  save coll id (approved_by this adminId adminName (default "" notes') now).

(** [reject(reason = '')]. *)
Definition reject (coll : gmap ObjectId Request) (id : ObjectId)
    (this : Request) (reason : option string)
    : Result (gmap ObjectId Request) :=
  save coll id (rejected_for this (default "" reason)).

(** [markReturned(condition = 'Good', notes = '')]; [now] is [new Date()]. *)
Definition markReturned (coll : gmap ObjectId Request) (id : ObjectId)
    (this : Request) (condition notes' : option string) (now : Time)
    : Result (gmap ObjectId Request) :=
  save coll id
    (returned_in this (default "Good" condition) (default "" notes') now).

End RequestModel.

(** ** models/User.js *)

Module UserModel.

Record User := mkUser {
  name : string;
  email : string;
  role : string
}.

End UserModel.

(** ** The database and the HTTP responses *)

Record Db := mkDb {
  equipments : gmap ObjectId EquipmentModel.Equipment;
  requests : gmap ObjectId RequestModel.Request;
  users : gmap ObjectId UserModel.User
}.

(** [res.status(code).json({ success, message, errors })]. *)
Record Response := mkResponse {
  code : Z;
  success : bool;
  message : string;
  errors : list SchemaError
}.

Definition ok (msg : string) : Response := mkResponse 200 true msg [].
Definition created (msg : string) : Response := mkResponse 201 true msg [].
Definition bad_request (msg : string) : Response := mkResponse 400 false msg [].
Definition not_found (msg : string) : Response := mkResponse 404 false msg [].
Definition server_error (msg : string) : Response := mkResponse 500 false msg [].

(** The instant a handler runs at: [now] is [new Date()], [today] is [now]
    after [setHours(0, 0, 0, 0)], the local midnight. *)
Record Clock := mkClock {
  now : Time;
  today : Time
}.

(** ** controllers/equipmentController.js *)

Module EquipmentController.
Import EquipmentModel.

(** The body of POST and PUT /api/equipment.  A string field is [None] when
    it is absent, a number field likewise.  The bodies covered are those
    that give [quantity] and [available] as JSON numbers: a body that gives
    them as strings has them compared as strings by [updateEquipment], and
    is not one of these. *)
Record Body := mkBody {
  b_name : option string;
  b_category : option string;
  b_description : option string;
  b_condition : option string;
  b_quantity : option Z;
  b_available : option Z;
  b_location : option string
}.

(** Truthiness of a number-valued body field: [undefined] and [0] are
    falsy. *)
Definition truthy_number (n : option Z) : bool :=
  match n with
  | Some n => bool_decide (n ≠ 0)
  | None => false
  end.

(** [Equipment.create(doc)]: a new document under a fresh id. *)
Definition create (coll : gmap ObjectId Equipment) (doc : Equipment)
    : Result (gmap ObjectId Equipment) :=
  save coll (fresh (dom coll)) (cast doc).

Definition addEquipment (db : Db) (body : Body) : Response * Db :=
  if negb (truthy (b_name body)) || negb (truthy (b_category body))
     || negb (truthy (b_description body))
     || negb (truthy (b_condition body))
     || negb (truthy_number (b_quantity body))
     || negb (truthy (b_location body))
  then (bad_request "Please provide all required fields", db)
  else
    match b_available body with
    | None => (bad_request "Please provide available quantity", db)
    | Some available =>
      let quantity := default 0 (b_quantity body) in
      if bool_decide (available > quantity)
      then (bad_request "Available quantity cannot exceed total quantity", db)
      else
        match create (equipments db)
                (mkEquipment (default "" (b_name body))
                   (default "" (b_category body))
                   (default "" (b_description body))
                   (default "" (b_condition body))
                   quantity available
                   (default "" (b_location body))) with
        | Return coll =>
          (created "Equipment added successfully",
           mkDb coll (requests db) (users db))
        | Throw _ => (server_error "Server error adding equipment", db)
        end
    end.

(** The update document of [findByIdAndUpdate]: a string field is set when
    it is truthy, a number field when it is not [undefined].  The update is
    cast through the schema, whose setter trims the [name]; no validator
    runs. *)
Definition apply_update (body : Body) (e : Equipment) : Equipment :=
  mkEquipment
    (if truthy (b_name body) then trim (default "" (b_name body))
     else name e)
    (if truthy (b_category body) then default "" (b_category body)
     else category e)
    (if truthy (b_description body) then default "" (b_description body)
     else description e)
    (if truthy (b_condition body) then default "" (b_condition body)
     else condition e)
    (default (quantity e) (b_quantity body))
    (default (available e) (b_available body))
    (if truthy (b_location body) then default "" (b_location body)
     else location e).

(** PUT /api/equipment/:id (handler).  On the bodies of [Body] the check
    [newAvailable > newQuantity] compares two numbers. *)
Definition updateEquipment (db : Db) (id : ObjectId) (body : Body)
    : Response * Db :=
  match equipments db !! id with
  | None => (not_found "Equipment not found", db)
  | Some equipment =>
    let newAvailable := default (available equipment) (b_available body) in
    let newQuantity := default (quantity equipment) (b_quantity body) in
    if bool_decide (newAvailable > newQuantity)
    then (bad_request "Available quantity cannot exceed total quantity", db)
    else
      (* runValidators: false *)
      (ok "Equipment updated successfully",
       mkDb (<[id := apply_update body equipment]> (equipments db))
         (requests db) (users db))
  end.

Definition deleteEquipment (db : Db) (id : ObjectId) : Response * Db :=
  match equipments db !! id with
  | None => (not_found "Equipment not found", db)
  | Some _ =>
    (ok "Equipment deleted successfully",
     mkDb (delete id (equipments db)) (requests db) (users db))
  end.

End EquipmentController.

(** ** controllers/requestController.js *)

Module RequestController.
Import RequestModel.

(** The [quantity] field of the body of POST /api/requests/create. *)
Inductive QuantityField :=
  | QuantityMissing                (* undefined *)
  | QuantityNotInteger             (* truthy, and not an integer Number *)
  | QuantityInteger (n : Z).       (* an integer Number; 0 is falsy *)

(** A date field of the body: absent (falsy), or a value that [new Date]
    turns into the given [Date] object. *)
Inductive DateField :=
  | DateMissing
  | DateGiven (d : JsDate).

Record CreateBody := mkCreateBody {
  c_studentId : option ObjectId;
  c_studentName : option string;
  c_studentEmail : option string;
  c_equipmentId : option ObjectId;
  c_equipmentName : option string;
  c_quantity : QuantityField;
  c_borrowFromDate : DateField;
  c_borrowToDate : DateField;
  c_notes : option string
}.

(** The filter of [Request.find] in [createRequest]: the request is for this
    equipment, its status is approved or pending, its [borrowFromDate] is
    [$lte] the candidate's [toDate] and its [borrowToDate] is [$gte] the
    candidate's [fromDate]. *)
Definition matches (equipmentId' : ObjectId) (fromDate toDate : Time)
    (r : Request) : Prop :=
  equipmentId r = equipmentId'
  ∧ status r ∈ [approved; pending]
  ∧ borrowFromDate r ≤ toDate
  ∧ borrowToDate r >= fromDate.

#[global] Instance matches_dec e f t r : Decision (matches e f t r).
Proof. unfold matches. apply _. Defined.

(** [Request.find({ equipmentId, status: ..., $or: [...] })]. *)
Definition overlappingRequests (coll : gmap ObjectId Request)
    (equipmentId' : ObjectId) (fromDate toDate : Time) : list Request :=
  filter (matches equipmentId' fromDate toDate) (map_to_list coll).*2.

(** [overlappingRequests.reduce((total, req) => total + req.quantity, 0)]. *)
Definition totalRequestedQuantity (overlapping : list Request) : Z :=
  foldl (fun total req => total + quantity req) 0 overlapping.

(** [Request.create(doc)]: a new document under a fresh id. *)
Definition create (coll : gmap ObjectId Request) (doc : Request)
    : Result (gmap ObjectId Request) :=
  save coll (fresh (dom coll)) doc.

(** Steps 4 and 5 of [createRequest]: create the request, answer; a
    ValidationError thrown by the model is answered with 400. *)
Definition create_request (clock : Clock) (db : Db) (body : CreateBody)
    (studentId' equipmentId' : ObjectId) (quantity' : Z)
    (fromDate toDate : Time) (notes' : string) : Response * Db :=
  match create (requests db)
          (mkRequest studentId' (default "" (c_studentName body))
             (default "" (c_studentEmail body)) equipmentId'
             (default "" (c_equipmentName body)) quantity'
             fromDate toDate (now clock) notes' pending
             None None None None None None None None) with
  | Return coll =>
    (created "Borrow request submitted successfully",
     mkDb (equipments db) coll (users db))
  | Throw (ValidationError errs) =>
    (mkResponse 400 false "Validation error" errs, db)
  | Throw _ => (server_error "Server error creating request", db)
  end.

(** Step 3 of [createRequest]: the quantity promised to overlapping
    requests.  The query casts its dates, and throws on an Invalid Date. *)
Definition check_overlapping_requests (clock : Clock) (db : Db)
    (body : CreateBody) (equipment : EquipmentModel.Equipment)
    (studentId' equipmentId' : ObjectId) (quantity' : Z)
    (fromDate toDate : JsDate) (notes' : string) : Response * Db :=
  match fromDate, toDate with
  | Some fromDate, Some toDate =>
    let total :=
      totalRequestedQuantity
        (overlappingRequests (requests db) equipmentId' fromDate toDate) in
    if bool_decide (total + quantity' > EquipmentModel.quantity equipment)
    then
      (bad_request
         ("Only " +:+ pretty (EquipmentModel.quantity equipment - total)
          +:+ " units available for these dates"), db)
    else
      create_request clock db body studentId' equipmentId' quantity'
        fromDate toDate notes'
  | _, _ => (server_error "Server error creating request", db)
  end.

(** Step 2 of [createRequest]: the equipment exists and is available. *)
Definition check_equipment (clock : Clock) (db : Db) (body : CreateBody)
    (studentId' equipmentId' : ObjectId) (quantity' : Z)
    (fromDate toDate : JsDate) (notes' : string) : Response * Db :=
  match equipments db !! equipmentId' with
  | None => (not_found "Equipment not found", db)
  | Some equipment =>
    if bool_decide (EquipmentModel.available equipment ≤ 0)
    then (bad_request "Equipment is not available for borrowing", db)
    else if bool_decide (quantity' > EquipmentModel.available equipment)
    then
      (bad_request
         ("Only " +:+ pretty (EquipmentModel.available equipment)
          +:+ " units available for borrowing"), db)
    else
      check_overlapping_requests clock db body equipment studentId'
        equipmentId' quantity' fromDate toDate notes'
  end.

(** [!quantity]: [undefined] and [0] are falsy. *)
Definition quantity_truthy (q : QuantityField) : bool :=
  match q with
  | QuantityMissing => false
  | QuantityNotInteger => true
  | QuantityInteger n => bool_decide (n ≠ 0)
  end.

(** [Number.isInteger(quantity)]. *)
Definition isInteger (q : QuantityField) : bool :=
  match q with
  | QuantityInteger _ => true
  | _ => false
  end.

(** The number an integer [quantity] is. *)
Definition quantity_value (q : QuantityField) : Z :=
  match q with
  | QuantityInteger n => n
  | _ => 0
  end.

Definition date_truthy (d : DateField) : bool :=
  match d with
  | DateMissing => false
  | DateGiven _ => true
  end.

(** [new Date(field)]. *)
Definition new_Date (d : DateField) : JsDate :=
  match d with
  | DateMissing => None
  | DateGiven d => d
  end.

(** POST /api/requests/create. *)
Definition createRequest (clock : Clock) (db : Db) (body : CreateBody)
    : Response * Db :=
  match c_studentId body, c_equipmentId body with
  | Some studentId', Some equipmentId' =>
    if negb (quantity_truthy (c_quantity body))
       || negb (date_truthy (c_borrowFromDate body))
       || negb (date_truthy (c_borrowToDate body))
       || negb (truthy (c_notes body))
    then (bad_request "Please provide all required fields", db)
    else if negb (isInteger (c_quantity body))
            || bool_decide (quantity_value (c_quantity body) < 1)
    then (bad_request "Quantity must be a positive whole number", db)
    else
      let fromDate := new_Date (c_borrowFromDate body) in
      let toDate := new_Date (c_borrowToDate body) in
      if date_lt fromDate (Some (today clock))
      then (bad_request "Borrow date cannot be in the past", db)
      else if date_le toDate fromDate
      then (bad_request "Return date must be after borrow date", db)
      else
        check_equipment clock db body studentId' equipmentId'
          (quantity_value (c_quantity body)) fromDate toDate
          (default "" (c_notes body))
  | _, _ => (bad_request "Please provide all required fields", db)
  end.

(** POST /api/requests/:requestId/approve; [adminId] is [req.user.userId],
    [approvalNotes] the body's field. *)
Definition approveRequest (clock : Clock) (db : Db) (requestId : ObjectId)
    (approvalNotes' : option string) (adminId : ObjectId) : Response * Db :=
  match requests db !! requestId with
  | None => (not_found "Request not found", db)
  | Some request =>
    if bool_decide (status request ≠ pending)
    then
      (bad_request
         ("Cannot approve a " +:+ status_name (status request)
          +:+ " request"), db)
    else
      let admin := users db !! adminId in
      let adminName :=
        match admin with
        | Some u =>
          if String.eqb (UserModel.name u) "" then "Admin"
          else UserModel.name u
        | None => "Admin"
        end in
      match equipments db !! equipmentId request with
      | None => (bad_request "Requested quantity no longer available", db)
      | Some equipment =>
        if bool_decide (EquipmentModel.available equipment < quantity request)
        then (bad_request "Requested quantity no longer available", db)
        else
          let db' :=
            mkDb (EquipmentModel.inc_available (equipments db)
                    (equipmentId request) (- quantity request))
              (requests db) (users db) in
          match approve (requests db') requestId request adminId adminName
                  (Some (default "" approvalNotes')) (now clock) with
          | Return coll =>
            (ok "Request approved successfully",
             mkDb (equipments db') coll (users db'))
          | Throw _ => (server_error "Server error approving request", db')
          end
      end
  end.

(** POST /api/requests/:requestId/reject; [reason] is the body's field. *)
Definition rejectRequest (db : Db) (requestId : ObjectId)
    (reason : option string) : Response * Db :=
  match requests db !! requestId with
  | None => (not_found "Request not found", db)
  | Some request =>
    if bool_decide (status request ≠ pending)
    then
      (bad_request
         ("Cannot reject a " +:+ status_name (status request)
          +:+ " request"), db)
    else
      match reject (requests db) requestId request
              (Some (default "" reason)) with
      | Return coll =>
        (ok "Request rejected successfully",
         mkDb (equipments db) coll (users db))
      | Throw _ => (server_error "Server error rejecting request", db)
      end
  end.

(** POST /api/requests/:requestId/return; [condition] and [returnNotes] are
    the body's fields. *)
Definition markReturned (clock : Clock) (db : Db) (requestId : ObjectId)
    (condition returnNotes' : option string) : Response * Db :=
  match requests db !! requestId with
  | None => (not_found "Request not found", db)
  | Some request =>
    if bool_decide (status request ≠ approved)
    then
      (bad_request "Only approved requests can be marked as returned", db)
    else
      let db' :=
        match equipments db !! equipmentId request with
        | Some _ =>
          mkDb (EquipmentModel.inc_available (equipments db)
                  (equipmentId request) (quantity request))
            (requests db) (users db)
        | None => db
        end in
      match RequestModel.markReturned (requests db') requestId request
              (Some (default "Good" condition))
              (Some (default "" returnNotes')) (now clock) with
      | Return coll =>
        (ok "Equipment marked as returned successfully",
         mkDb (equipments db') coll (users db'))
      | Throw _ =>
        (server_error "Server error marking equipment as returned", db')
      end
  end.

End RequestController.

(** ** The specification's vocabulary *)

Module Spec.
Import RequestModel.

(** Two ranges [[a,b]] and [[c,d]] overlap iff [a ≤ d] and [b ≥ c]. *)
Definition overlap (a b c d : Time) : Prop := a ≤ d ∧ b >= c.

(** A request that holds units of equipment [e] over a range that overlaps
    [[from,to]]: it is pending or approved. *)
Definition commits (e : ObjectId) (from to : Time) (r : Request) : Prop :=
  equipmentId r = e
  ∧ (status r = pending ∨ status r = approved)
  ∧ overlap (borrowFromDate r) (borrowToDate r) from to.

#[global] Instance commits_dec e from to r : Decision (commits e from to r).
Proof. unfold commits, overlap. apply _. Defined.

(** The committed quantity: the sum of [quantity] over all the requests
    that commit units of [e] for [[from,to]]. *)
Definition committed (coll : gmap ObjectId Request) (e : ObjectId)
    (from to : Time) : Z :=
  map_fold
    (fun _ r sum => if decide (commits e from to r) then sum + quantity r
                    else sum)
    0 coll.

(** The ledger invariant of an equipment item. *)
Definition invariant (e : EquipmentModel.Equipment) : Prop :=
  0 ≤ EquipmentModel.available e ≤ EquipmentModel.quantity e.

(** The invariant on every item of the collection. *)
Definition ledger_ok (coll : gmap ObjectId EquipmentModel.Equipment) : Prop :=
  ∀ id e, coll !! id = Some e → invariant e.

(** A message names a status when the status's name occurs in it. *)
Definition names_status (msg : string) (s : Status) : bool :=
  bool_decide (is_Some (String.index 0 (status_name s) msg)).

(** A request document that passes the schema's validation, as every
    document that [Request.create] or [save] has stored does. *)
Definition valid (r : Request) : Prop := validate r = [].

(** Every stored request is valid. *)
Definition requests_valid (coll : gmap ObjectId Request) : Prop :=
  ∀ id r, coll !! id = Some r → valid r.

End Spec.

(** The body of a creation request whose fields are all present, with an
    integer quantity and two valid dates. *)
Definition payload (student : ObjectId) (studentName' studentEmail' : option string)
    (equipment : ObjectId) (equipmentName' : option string) (q : Z)
    (from to : Time) (notes' : option string) : RequestController.CreateBody :=
  RequestController.mkCreateBody (Some student) studentName' studentEmail'
    (Some equipment) equipmentName' (RequestController.QuantityInteger q)
    (RequestController.DateGiven (Some from))
    (RequestController.DateGiven (Some to)) notes'.

(** The fields of a creation request other than its dates pass step 1: the
    identifiers and the notes are present, the quantity is an integer of at
    least 1. *)
Definition other_fields_valid (body : RequestController.CreateBody) : Prop :=
  is_Some (RequestController.c_studentId body)
  ∧ is_Some (RequestController.c_equipmentId body)
  ∧ (∃ q, RequestController.c_quantity body = RequestController.QuantityInteger q
          ∧ 1 ≤ q)
  ∧ truthy (RequestController.c_notes body) = true.

(** ** Scenario data *)

Module Scenario.
Import EquipmentModel RequestModel RequestController.

(** 1 November 2025, 09:30 UTC; the day began at midnight UTC. *)
Definition clock : Clock := mkClock 1761989400000 1761955200000.

Definition nov10 : Time := 1762732800000.
Definition nov12 : Time := 1762905600000.
Definition nov15 : Time := 1763164800000.
Definition nov20 : Time := 1763596800000.

Definition basketballs (quantity' available' : Z) : Equipment :=
  mkEquipment "Basketball" "Sports" "Match balls, size 7" "Good"
    quantity' available' "Gym store".

(** The identifiers of the equipment item, the student, the administrator
    and the request. *)
Definition item : ObjectId := 1%positive.
Definition student : ObjectId := 7%positive.
Definition admin : ObjectId := 9%positive.
Definition requestA : ObjectId := 1%positive.

Definition ann : UserModel.User :=
  UserModel.mkUser "Ann Lee" "ann@school.org" "student".
Definition root : UserModel.User :=
  UserModel.mkUser "Head Teacher" "head@school.org" "admin".


(** A request of the student for [q] units of the item. *)
Definition request_for (q : Z) (from to : Time) (s : Status) : Request :=
  mkRequest student "Ann Lee" "ann@school.org" item "Basketball" q from to
    (now clock) "Practice" s None None None None None None None None.

Definition body_for (q : Z) (from to : Time) : CreateBody :=
  payload student (Some "Ann Lee") (Some "ann@school.org") item
    (Some "Basketball") q from to (Some "Practice").

(** An inventory of one item, no request yet. *)
Definition db_stock (quantity' available' : Z) : Db :=
  mkDb {[ item := basketballs quantity' available' ]} ∅
    {[ student := ann; admin := root ]}.

(** The same, with request A for [q] units from 10 to 15 November. *)
Definition db_with (quantity' available' q : Z) (s : Status) : Db :=
  mkDb {[ item := basketballs quantity' available' ]}
    {[ requestA := request_for q nov10 nov15 s ]}
    {[ student := ann; admin := root ]}.



(** The body of a PUT that changes the total only, or the available count
    only. *)
Definition patch_quantity (q : Z) : EquipmentController.Body :=
  EquipmentController.mkBody None None None None (Some q) None None.
Definition patch_available (a : Z) : EquipmentController.Body :=
  EquipmentController.mkBody None None None None None (Some a) None.

(** Five units in stock; A asks for three and is approved; the total is
    then lowered to the two units left on the shelf. *)
Definition db_requested : Db :=
  (createRequest clock (db_stock 5 5) (body_for 3 nov10 nov15)).2.
Definition db_approved : Db :=
  (approveRequest clock db_requested requestA None admin).2.
Definition db_lowered : Db :=
  (EquipmentController.updateEquipment db_approved item
     (patch_quantity 2)).2.

End Scenario.


(** ** Aggregation over a collection *)

(** [$sum] of an expression over the documents of a collection. *)
Definition sum_with `{Countable K} {A} (f : A → Z) (coll : gmap K A) : Z :=
  map_fold (fun _ x sum => sum + f x) 0 coll.

(** [countDocuments(filter)]. *)
Definition count_with `{Countable K} {A} (filter : A → bool)
    (coll : gmap K A) : Z :=
  sum_with (fun x => if filter x then 1 else 0) coll.

(** ** models/Request.js: the virtuals *)

Module RequestVirtuals.
Import RequestModel.

(** [Math.ceil(a / b)] on integers, [b] not zero. *)
Definition ceil_div (a b : Z) : Z := - ((- a) / b).

Definition millisecondsPerDay : Z := 1000 * 60 * 60 * 24.

(** The virtual [isOverdue]; [now] is [new Date()]. *)
Definition isOverdue (this : Request) (now : Time) : bool :=
  if bool_decide (status this ≠ approved) then false
  else bool_decide (now > borrowToDate this).

(** The virtual [daysRequested]. *)
Definition daysRequested (this : Request) : Z :=
  ceil_div (borrowToDate this - borrowFromDate this) millisecondsPerDay.

End RequestVirtuals.

(** ** The specification's vocabulary, continued *)

Module Loans.
Import RequestModel.

(** The units of equipment [e] that approved requests hold. *)
Definition on_loan (coll : gmap ObjectId Request) (e : ObjectId) : Z :=
  sum_with
    (fun r => if decide (equipmentId r = e ∧ status r = approved)
              then quantity r else 0)
    coll.

(** The ledger agrees with the loans: what is not available of an item is
    what the approved requests hold of it. *)
Definition consistent (db : Db) : Prop :=
  ∀ e item, equipments db !! e = Some item →
    EquipmentModel.available item + on_loan (requests db) e
    = EquipmentModel.quantity item.

(** A request that holds units of [e] at the instant [t]. *)
Definition holds_at (e : ObjectId) (t : Time) (r : Request) : Prop :=
  equipmentId r = e
  ∧ (status r = pending ∨ status r = approved)
  ∧ borrowFromDate r ≤ t ≤ borrowToDate r.

#[global] Instance holds_at_dec e t r : Decision (holds_at e t r).
Proof. unfold holds_at. apply _. Defined.

(** The units of [e] promised at the instant [t]. *)
Definition load (coll : gmap ObjectId Request) (e : ObjectId) (t : Time) : Z :=
  sum_with (fun r => if decide (holds_at e t r) then quantity r else 0) coll.

(** No instant at which more units of an item are promised than it has. *)
Definition never_overbooked (db : Db) : Prop :=
  ∀ e item t, equipments db !! e = Some item →
    load (requests db) e t ≤ EquipmentModel.quantity item.

(** The edges of the lifecycle. *)
Definition transition (s s' : Status) : Prop :=
  (s = pending ∧ s' = approved)
  ∨ (s = pending ∧ s' = rejected)
  ∨ (s = approved ∧ s' = returned).

(** What a request is about: who asks for how much of what, and when. *)
Definition subject (r : Request)
    : ObjectId * string * string * ObjectId * string * Z * Time * Time * Time
      * string :=
  (studentId r, studentName r, studentEmail r, equipmentId r,
   equipmentName r, quantity r, borrowFromDate r, borrowToDate r,
   requestedDate r, notes r).

(** One step of a request's life: the same request, unchanged or moved along
    one edge. *)
Definition evolves (r r' : Request) : Prop :=
  subject r' = subject r ∧ (r' = r ∨ transition (status r) (status r')).

(** Every request of [coll] is still in [coll'], having evolved. *)
Definition requests_evolve (coll coll' : gmap ObjectId Request) : Prop :=
  ∀ id r, coll !! id = Some r → ∃ r', coll' !! id = Some r' ∧ evolves r r'.

End Loans.


(** ** The statistics handlers *)

Module Statistics.
Import EquipmentModel.

(** [x?.field || 0] on the first group of an aggregation. *)
Definition or_zero (x : option Z) : Z := default 0 x.

(** The [$group] stage with [_id: null] of [getEquipmentStats]: one group
    with the three sums, and no group at all on an empty collection. *)
Record Totals := mkTotals {
  g_totalQuantity : Z;
  g_totalAvailable : Z;
  g_totalBorrowed : Z
}.

Definition group_all (coll : gmap ObjectId Equipment) : option Totals :=
  if decide (coll = ∅) then None
  else Some (mkTotals (sum_with quantity coll) (sum_with available coll)
               (sum_with (fun e => quantity e - available e) coll)).

(** A row of [byCategory]. *)
Record CategoryRow := mkCategoryRow {
  count : Z;
  totalQuantity : Z;
  row_available : Z
}.

(** One document enters its category's group. *)
Definition add_to_row (e : Equipment) (row : option CategoryRow)
    : option CategoryRow :=
  Some (match row with
        | None => mkCategoryRow 1 (quantity e) (available e)
        | Some r =>
          mkCategoryRow (count r + 1) (totalQuantity r + quantity e)
            (row_available r + available e)
        end).

(** The [$group] stage with [_id: "$category"]: the rows by category (the
    [$sort] stage lists them by ascending category). *)
Definition byCategory (coll : gmap ObjectId Equipment)
    : gmap string CategoryRow :=
  map_fold (fun _ e rows => partial_alter (add_to_row e) (category e) rows)
    ∅ coll.

(** [data.stats] of [getEquipmentStats]. *)
Record EquipmentStats := mkEquipmentStats {
  s_totalItems : Z;
  s_totalQuantity : Z;
  s_totalAvailable : Z;
  s_totalBorrowed : Z
}.

(** GET /api/equipment/stats (handler). *)
Definition getEquipmentStats (db : Db)
    : Response * EquipmentStats * gmap string CategoryRow :=
  let totalEquipment := Z.of_nat (size (equipments db)) in
  let stats := group_all (equipments db) in
  (ok "Equipment statistics retrieved",
   mkEquipmentStats totalEquipment
     (or_zero (g_totalQuantity <$> stats))
     (or_zero (g_totalAvailable <$> stats))
     (or_zero (g_totalBorrowed <$> stats)),
   byCategory (equipments db)).

(** [requestCounts] of [getAdminStats]: a count per status, zero where the
    aggregation has no group. *)
Record RequestCounts := mkRequestCounts {
  n_pending : Z;
  n_approved : Z;
  n_rejected : Z;
  n_returned : Z
}.

Definition has_status (s : RequestModel.Status) (r : RequestModel.Request)
    : bool :=
  bool_decide (RequestModel.status r = s).

Definition has_role (role' : string) (u : UserModel.User) : bool :=
  String.eqb (UserModel.role u) role'.

(** [data.stats] of [getAdminStats]. *)
Record AdminStats := mkAdminStats {
  totalEquipment : Z;
  availableEquipment : Z;
  borrowedEquipment : Z;
  pendingRequests : Z;
  totalUsers : Z;
  adminUsers : Z;
  studentUsers : Z;
  staffUsers : Z;
  requestBreakdown : RequestCounts
}.

(** GET /api/requests/admin/stats (handler). *)
Definition getAdminStats (db : Db) : Response * AdminStats :=
  let equipmentStats := group_all (equipments db) in
  let requestCounts :=
    mkRequestCounts
      (count_with (has_status RequestModel.pending) (requests db))
      (count_with (has_status RequestModel.approved) (requests db))
      (count_with (has_status RequestModel.rejected) (requests db))
      (count_with (has_status RequestModel.returned) (requests db)) in
  (ok "Admin statistics retrieved",
   mkAdminStats (Z.of_nat (size (equipments db)))
     (or_zero (g_totalAvailable <$> equipmentStats))
     (or_zero (g_totalBorrowed <$> equipmentStats))
     (n_pending requestCounts)
     (Z.of_nat (size (users db)))
     (count_with (has_role "admin") (users db))
     (count_with (has_role "student") (users db))
     (count_with (has_role "staff") (users db))
     requestCounts).

End Statistics.

(** ** Listing: the filter and the pagination of the list handlers *)

Module Listing.

(** The value of a decimal digit. *)
Definition digit (c : Ascii.ascii) : option Z :=
  let n := Ascii.nat_of_ascii c in
  if bool_decide (48 ≤ n ≤ 57)%nat then Some (Z.of_nat n - 48) else None.

(** The number the longest prefix of digits denotes, after [acc]. *)
Fixpoint digits (s : string) (acc : Z) : Z :=
  match s with
  | String c s' =>
    match digit c with
    | Some d => digits s' (10 * acc + d)
    | None => acc
    end
  | EmptyString => acc
  end.

Definition starts_with_digit (s : string) : bool :=
  match s with
  | String c _ => bool_decide (is_Some (digit c))
  | EmptyString => false
  end.

(** [parseInt(s, 10)]: leading white space, a sign, then digits up to the
    first character that is none; [None] is NaN. *)
Definition parseInt (s : string) : option Z :=
  let s := trim_start s in
  let signed :=
    match s with
    | String c s' =>
      (* 45 is the minus sign, 43 the plus sign *)
      if bool_decide (Ascii.nat_of_ascii c = 45)%nat then (-1, s')
      else if bool_decide (Ascii.nat_of_ascii c = 43)%nat then (1, s')
      else (1, s)
    | EmptyString => (1, s)
    end in
  if starts_with_digit signed.2 then Some (signed.1 * digits signed.2 0)
  else None.

(** [parseInt(value, 10) || fallback], where an absent query parameter has
    the number [fallback] as its default. *)
Definition number_or (fallback : Z) (value : option string) : Z :=
  match value with
  | None => fallback
  | Some s =>
    match parseInt s with
    | Some n => if bool_decide (n = 0) then fallback else n
    | None => fallback
    end
  end.

(** The [pagination] object of an answer, and the [skip] of the query. *)
Record Pagination := mkPagination {
  page : Z;
  limit : Z;
  total : Z;
  pages : Z;
  skip : Z
}.

(** Section "pagination" of [getAllEquipment], [getUserRequests] and
    [getAllRequests]; [total'] is [countDocuments(filter)].  The numbers are
    the integers the digits denote; what [find] makes of [skip] and [limit]
    is the driver's and not part of this. *)
Definition paginate (page' limit' : option string) (total' : Z) : Pagination :=
  let pageNum := number_or 1 page' in
  let limitNum := Z.min (number_or 10 limit') 100 in
  mkPagination pageNum limitNum total'
    (RequestVirtuals.ceil_div total' limitNum)
    ((pageNum - 1) * limitNum).

(** The query of GET /api/equipment. *)
Record EquipmentQuery := mkEquipmentQuery {
  q_search : option string;
  q_category : option string;
  q_availability : option string;
  q_page : option string;
  q_limit : option string
}.

(** The query with another [availability]. *)
Definition with_availability (query : EquipmentQuery) (a : option string)
    : EquipmentQuery :=
  mkEquipmentQuery (q_search query) (q_category query) a (q_page query)
    (q_limit query).

Section Filter.
(** [{ $regex: pattern, $options: "i" }] on a string field, as the database
    evaluates it. *)
Variable regex_i : string → string → bool.

(** Section "build filter object" of [getAllEquipment], as a predicate on
    the documents. *)
Definition equipmentFilter (query : EquipmentQuery)
    (e : EquipmentModel.Equipment) : bool :=
  (if truthy (q_search query)
   then regex_i (default "" (q_search query)) (EquipmentModel.name e)
        || regex_i (default "" (q_search query))
             (EquipmentModel.description e)
   else true)
  && (if truthy (q_category query)
      then String.eqb (EquipmentModel.category e)
             (default "" (q_category query))
      else true)
  && (if bool_decide (q_availability query = Some "available")
      then bool_decide (EquipmentModel.available e > 0)
      else if bool_decide (q_availability query = Some "unavailable")
      then bool_decide (EquipmentModel.available e = 0)
      else true).

(** The [pagination] object of [getAllEquipment]. *)
Definition equipmentPagination (db : Db) (query : EquipmentQuery)
    : Pagination :=
  paginate (q_page query) (q_limit query)
    (count_with (equipmentFilter query) (equipments db)).

End Filter.

(** GET /api/equipment/:id (handler). *)
Definition getEquipmentById (db : Db) (id : ObjectId)
    : Response * option EquipmentModel.Equipment :=
  match equipments db !! id with
  | None => (not_found "Equipment not found", None)
  | Some equipment => (ok "Equipment retrieved successfully", Some equipment)
  end.

End Listing.

(** ** Parts of the handlers' answers *)

Module Answers.
Import RequestModel RequestController.

(** The name [approveRequest] gives the approver:
    [admin?.name || 'Admin']. *)
Definition adminName_of (db : Db) (adminId : ObjectId) : string :=
  match users db !! adminId with
  | Some u =>
    if String.eqb (UserModel.name u) "" then "Admin" else UserModel.name u
  | None => "Admin"
  end.

(** The document [createRequest] hands to [Request.create]. *)
Definition document_of (clock : Clock) (body : CreateBody)
    (student equipment : ObjectId) (q : Z) (from to : Time) : Request :=
  mkRequest student (default "" (c_studentName body))
    (default "" (c_studentEmail body)) equipment
    (default "" (c_equipmentName body)) q from to (now clock)
    (default "" (c_notes body)) pending
    None None None None None None None None.

End Answers.

(** ** middleware/authMiddleware.js *)

Module AuthMiddleware.

(** [s.split(separator)] for a separator of one character: the pieces
    between its occurrences, empty ones included. *)
Fixpoint split (separator : Ascii.ascii) (s : string) : list string :=
  match s with
  | EmptyString => [EmptyString]
  | String c rest =>
    if Ascii.eqb c separator then EmptyString :: split separator rest
    else
      match split separator rest with
      | piece :: pieces => String c piece :: pieces
      | [] => [String c EmptyString]
      end
  end.

Definition space : Ascii.ascii := Ascii.ascii_of_nat 32.

(** A string in which [separator] does not occur. *)
Fixpoint free_of (separator : Ascii.ascii) (s : string) : bool :=
  match s with
  | EmptyString => true
  | String c rest => negb (Ascii.eqb c separator) && free_of separator rest
  end.

(** What a token was signed with, and [req.user] once it is decoded. *)
Record Payload := mkPayload {
  userId : ObjectId;
  email : string;
  role : string
}.

(** [jwt.verify(token, process.env.JWT_SECRET)]: the payload, or one of the
    errors it throws. *)
Inductive Verified :=
  | Decoded (decoded : Payload)
  | TokenExpiredError
  | JsonWebTokenError.

(** What the middleware reads and writes of [req]. *)
Record Req := mkReq {
  authorization : option string;
  user : option Payload
}.

(** A middleware either calls [next()], with [req] as it leaves it, or
    answers. *)
Inductive Step :=
  | next (req : Req)
  | respond (res : Response).

Definition unauthorized (msg : string) : Response :=
  mkResponse 401 false msg [].
Definition forbidden (msg : string) : Response :=
  mkResponse 403 false msg [].

(** [req.headers.authorization?.split(' ')[1]]. *)
Definition token (req : Req) : option string :=
  header ← authorization req; split space header !! 1%nat.

Section Verify.
Variable verify : string → Verified.

Definition authenticate (req : Req) : Step :=
  if negb (truthy (token req))
  then respond (unauthorized "No token provided - Authentication required")
  else
    match verify (default "" (token req)) with
    | TokenExpiredError => respond (unauthorized "Token has expired")
    | JsonWebTokenError => respond (unauthorized "Invalid token")
    | Decoded decoded => next (mkReq (authorization req) (Some decoded))
    end.

Definition optionalAuth (req : Req) : Step :=
  if truthy (token req)
  then
    match verify (default "" (token req)) with
    | Decoded decoded => next (mkReq (authorization req) (Some decoded))
    | _ => next (mkReq (authorization req) None)
    end
  else next (mkReq (authorization req) None).

End Verify.

Definition authorize (allowedRoles : list string) (req : Req) : Step :=
  match user req with
  | None => respond (unauthorized "Authentication required")
  | Some u =>
    if negb (bool_decide (role u ∈ allowedRoles))
    then
      respond
        (forbidden
           ("Access denied - Required role: "
            +:+ String.concat " or " allowedRoles))
    else next req
  end.

Definition adminOnly (req : Req) : Step :=
  match user req with
  | None => respond (unauthorized "Authentication required")
  | Some u =>
    if bool_decide (role u ≠ "admin")
    then respond (forbidden "Access denied - Admin only")
    else next req
  end.

Definition studentOnly (req : Req) : Step :=
  match user req with
  | None => respond (unauthorized "Authentication required")
  | Some u =>
    if negb (bool_decide (role u ∈ ["student"; "staff"]))
    then respond (forbidden "Access denied - Student or Staff only")
    else next req
  end.

(** What a middleware decides: [None] when it calls [next()], the status
    code when it answers. *)
Definition decision (step : Step) : option Z :=
  match step with
  | next _ => None
  | respond res => Some (code res)
  end.

End AuthMiddleware.

(** ** routes/equipmentRoutes.js and routes/requestRoutes.js *)

Module Routes.
Import AuthMiddleware.

Inductive Method := GET | POST | PUT | DELETE.

(** A segment of a route's path: a literal, or a parameter [:name]. *)
Inductive Segment :=
  | Lit (s : string)
  | Param (name : string).

Inductive Guard := Authenticate | AdminOnly | StudentOnly.

Inductive Handler :=
  | GetAllEquipment | GetEquipmentById | AddEquipment | UpdateEquipment
  | DeleteEquipment | GetEquipmentStats
  | CreateRequest | GetUserRequests | GetAdminStats | GetAllRequests
  | ApproveRequest | RejectRequest | MarkReturned.

(** [router.METHOD(path, ...guards, handler)]. *)
Record Route := mkRoute {
  method : Method;
  pattern : list Segment;
  guards : list Guard;
  handler : Handler
}.

#[global] Instance Method_eq_dec : EqDecision Method.
Proof. solve_decision. Defined.
#[global] Instance Guard_eq_dec : EqDecision Guard.
Proof. solve_decision. Defined.
#[global] Instance Handler_eq_dec : EqDecision Handler.
Proof. solve_decision. Defined.

(** The routers, in the order the routes are registered. *)
Definition equipmentRoutes : list Route :=
  [ mkRoute GET [] [Authenticate] GetAllEquipment;
    mkRoute GET [Param "id"] [Authenticate] GetEquipmentById;
    mkRoute POST [] [Authenticate; AdminOnly] AddEquipment;
    mkRoute PUT [Param "id"] [Authenticate; AdminOnly] UpdateEquipment;
    mkRoute DELETE [Param "id"] [Authenticate; AdminOnly] DeleteEquipment;
    mkRoute GET [Lit "stats"] [Authenticate; AdminOnly] GetEquipmentStats ].

Definition requestRoutes : list Route :=
  [ mkRoute POST [Lit "create"] [Authenticate; StudentOnly] CreateRequest;
    mkRoute GET [Lit "user"; Param "userId"] [Authenticate] GetUserRequests;
    mkRoute GET [Lit "admin"; Lit "stats"] [Authenticate; AdminOnly]
      GetAdminStats;
    mkRoute GET [] [Authenticate; AdminOnly] GetAllRequests;
    mkRoute POST [Param "requestId"; Lit "approve"] [Authenticate; AdminOnly]
      ApproveRequest;
    mkRoute POST [Param "requestId"; Lit "reject"] [Authenticate; AdminOnly]
      RejectRequest;
    mkRoute POST [Param "requestId"; Lit "return"] [Authenticate; AdminOnly]
      MarkReturned ].

(** Express matches a path against a route segment by segment, literals
    without regard to case, a parameter against any segment that is not
    empty; the path is given as its segments, the mount point of the router
    taken off. *)
Definition lower (c : Ascii.ascii) : Ascii.ascii :=
  let n := Ascii.nat_of_ascii c in
  if (65 <=? n)%nat && (n <=? 90)%nat then Ascii.ascii_of_nat (n + 32) else c.

Fixpoint lowercase (s : string) : string :=
  match s with
  | EmptyString => EmptyString
  | String c rest => String (lower c) (lowercase rest)
  end.

Definition segment_matches (segment : Segment) (s : string) : bool :=
  match segment with
  | Lit l => String.eqb (lowercase l) (lowercase s)
  | Param _ => negb (String.eqb s "")
  end.

Fixpoint path_matches (pattern : list Segment) (path : list string) : bool :=
  match pattern, path with
  | [], [] => true
  | segment :: pattern, s :: path =>
    segment_matches segment s && path_matches pattern path
  | _, _ => false
  end.

(** The route that serves a request: the first one registered whose method
    and path match.  No handler of these routers calls [next()], so no later
    route is tried after it. *)
Definition dispatch (routes : list Route) (m : Method) (path : list string)
    : option Route :=
  List.find
    (fun route =>
       bool_decide (method route = m) && path_matches (pattern route) path)
    routes.

Section Verify.
Variable verify : string → Verified.

Definition guard (g : Guard) : Req → Step :=
  match g with
  | Authenticate => authenticate verify
  | AdminOnly => adminOnly
  | StudentOnly => studentOnly
  end.

(** A route's chain: each guard in turn, then the handler, unless a guard
    answers. *)
Fixpoint run (chain : list Guard) (handle : Req → Db → Response * Db)
    (req : Req) (db : Db) : Response * Db :=
  match chain with
  | [] => handle req db
  | g :: chain =>
    match guard g req with
    | respond res => (res, db)
    | next req => run chain handle req db
    end
  end.

End Verify.

(** [approveRequest] as the chain calls it: [adminId] is
    [req.user.userId], and reading it of a request without user throws. *)
Definition approveRequest_on (clock : Clock) (requestId : ObjectId)
    (approvalNotes' : option string) (req : Req) (db : Db) : Response * Db :=
  match user req with
  | Some u =>
    RequestController.approveRequest clock db requestId approvalNotes'
      (userId u)
  | None => (server_error "Server error approving request", db)
  end.

End Routes.

(** ** More scenario data *)

Module Samples.
Import Scenario.

(** The body of a POST /api/equipment: tripods, the name with blanks
    around it. *)
Definition tripods (quantity' available' : option Z)
    : EquipmentController.Body :=
  EquipmentController.mkBody (Some "  Tripod ") (Some "Camera")
    (Some "Aluminium tripod") (Some "Good") quantity' available'
    (Some "Media room").

(** The tripods as stored, next to the basketballs. *)
Definition tripod : ObjectId := 2%positive.
Definition stored_tripods (quantity' available' : Z)
    : EquipmentModel.Equipment :=
  EquipmentModel.mkEquipment "Tripod" "Camera" "Aluminium tripod" "Good"
    quantity' available' "Media room".

(** A [jwt.verify] that knows three tokens: the administrator's, the
    student's, and one that has expired. *)
Definition verify (token : string) : AuthMiddleware.Verified :=
  if String.eqb token "root-token"
  then AuthMiddleware.Decoded
         (AuthMiddleware.mkPayload admin "head@school.org" "admin")
  else if String.eqb token "ann-token"
  then AuthMiddleware.Decoded
         (AuthMiddleware.mkPayload student "ann@school.org" "student")
  else if String.eqb token "old-token" then AuthMiddleware.TokenExpiredError
  else AuthMiddleware.JsonWebTokenError.

(** A request that carries [token] as a bearer token. *)
Definition bearer (token : string) : AuthMiddleware.Req :=
  AuthMiddleware.mkReq (Some ("Bearer " +:+ token)) None.

(** POST /api/requests/1/approve without a body. *)
Definition approve_requestA : AuthMiddleware.Req → Db → Response * Db :=
  Routes.approveRequest_on clock requestA None.

(** A stand-in for the [$regex] match: the pattern occurs in the text. *)
Definition occurs_in (pattern text : string) : bool :=
  bool_decide (is_Some (String.index 0 pattern text)).

(** A query without any parameter. *)
Definition no_query : Listing.EquipmentQuery :=
  Listing.mkEquipmentQuery None None None None None.

End Samples.

(** * Properties *)

(** ** Creating a request: validation *)

Module CreateRequestProps.
Import RequestModel RequestController.

Section ValidPayload.
Variables (clock : Clock) (db : Db).
Variables (student equipment : ObjectId).
Variables (sname semail ename notes' : option string).
Variables (q : Z) (from to : Time).

Let body := payload student sname semail equipment ename q from to notes'.

(** A payload that passes step 1 goes on to the equipment checks. *)
Lemma createRequest_validated :
  1 ≤ q → today clock ≤ from → from < to → truthy notes' = true →
  createRequest clock db body
  = check_equipment clock db body student equipment q (Some from)
      (Some to) (default "" notes').
Proof.
  intros Hq Hfrom Hto Hnotes. unfold createRequest, body, payload. simpl.
  rewrite Hnotes. simpl.
  rewrite (bool_decide_eq_true_2 (q ≠ 0)) by lia.
  rewrite (bool_decide_eq_false_2 (q < 1)) by lia.
  rewrite (bool_decide_eq_false_2 (from < today clock)) by lia.
  rewrite (bool_decide_eq_false_2 (to ≤ from)) by lia.
  reflexivity.
Qed.

End ValidPayload.

(** An answer other than 201 leaves the database as it was. *)
Lemma createRequest_not_created clock db body :
  code (createRequest clock db body).1 ≠ 201 →
  (createRequest clock db body).2 = db.
Proof.
  unfold createRequest, check_equipment, check_overlapping_requests,
    create_request.
  repeat (case_match; simpl; try done).
Qed.

End CreateRequestProps.

(** ** Overlap accounting *)

Module OverlapProps.
Import RequestModel RequestController.

(** The query's filter selects the requests the specification counts. *)
Lemma matches_commits e from to r :
  matches e from to r ↔ Spec.commits e from to r.
Proof.
  unfold matches, Spec.commits, Spec.overlap.
  rewrite !elem_of_cons, elem_of_nil. split.
  - intros (He & [Hs|[Hs|[]]] & Ha & Hb); repeat split; auto.
  - intros (He & [Hs|Hs] & Ha & Hb); repeat split; auto.
Qed.

(** [reduce] from an arbitrary initial value. *)
Lemma reduce_from (l : list Request) (a : Z) :
  foldl (fun total req => total + quantity req) a l
  = a + totalRequestedQuantity l.
Proof.
  unfold totalRequestedQuantity. revert a.
  induction l as [|r l IH]; intros a; simpl; [lia|].
  rewrite (IH (a + quantity r)), (IH (0 + quantity r)). lia.
Qed.

Lemma totalRequestedQuantity_cons r l :
  totalRequestedQuantity (r :: l) = quantity r + totalRequestedQuantity l.
Proof.
  unfold totalRequestedQuantity at 1. simpl. rewrite reduce_from. lia.
Qed.

(** Summing the filtered documents of a list of entries is the
    specification's fold over these entries. *)
Lemma total_filter_foldr e from to (l : list (ObjectId * Request)) :
  totalRequestedQuantity (filter (matches e from to) l.*2)
  = foldr
      (uncurry (fun (_ : ObjectId) r sum =>
         if decide (Spec.commits e from to r) then sum + quantity r
         else sum))
      0 l.
Proof.
  induction l as [|[i r] l IH]; [done|].
  rewrite fmap_cons, filter_cons. cbn [snd foldr uncurry].
  destruct (decide (matches e from to r)) as [Hm|Hm];
    destruct (decide (Spec.commits e from to r)) as [Hc|Hc];
    try (apply matches_commits in Hm; done);
    try (apply matches_commits in Hc; done).
  - rewrite totalRequestedQuantity_cons, IH. lia.
  - exact IH.
Qed.

(** The total the handler computes is the committed quantity. *)
Lemma total_is_committed coll e from to :
  totalRequestedQuantity (overlappingRequests coll e from to)
  = Spec.committed coll e from to.
Proof.
  unfold overlappingRequests, Spec.committed.
  rewrite map_fold_foldr. apply total_filter_foldr.
Qed.

(** What step 4 answers is never the overlap check's rejection. *)
Lemma create_request_not_overlap_rejection clock db body s e q from to n msg :
  create_request clock db body s e q from to n
  ≠ (bad_request ("Only " +:+ msg), db).
Proof.
  unfold create_request. repeat case_match; intros [=].
Qed.

(** C2. A creation request that reaches the overlap check (its payload is
    valid, the equipment [e] exists and holds at least [q] available units)
    is accepted by that check, i.e. goes on to the creation of the record,
    iff [committed + q ≤ e.quantity], where [committed] sums the quantity of
    the pending and approved requests on [e] whose range [[a,b]] has
    [a ≤ to] and [b ≥ from]; otherwise it is answered 400 with
    [e.quantity − committed] as the number of units available for these
    dates, and nothing is stored. *)
Theorem createRequest_overlap_accounting clock db student equipment
    sname semail ename notes' q from to e :
  let body := payload student sname semail equipment ename q from to notes' in
  let committed := Spec.committed (requests db) equipment from to in
  1 ≤ q → today clock ≤ from → from < to → truthy notes' = true →
  equipments db !! equipment = Some e →
  q ≤ EquipmentModel.available e →
  (createRequest clock db body
   = create_request clock db body student equipment q from to
       (default "" notes')
   ↔ committed + q ≤ EquipmentModel.quantity e)
  ∧ (¬ committed + q ≤ EquipmentModel.quantity e →
     createRequest clock db body
     = (bad_request
          ("Only " +:+ pretty (EquipmentModel.quantity e - committed)
           +:+ " units available for these dates"), db)).
Proof.
  intros body committed Hq Hfrom Hto Hnotes He Havail.
  assert (Hstep : createRequest clock db body
    = if bool_decide (committed + q > EquipmentModel.quantity e)
      then (bad_request
              ("Only " +:+ pretty (EquipmentModel.quantity e - committed)
               +:+ " units available for these dates"), db)
      else create_request clock db body student equipment q from to
             (default "" notes')).
  { unfold body. rewrite CreateRequestProps.createRequest_validated by done.
    unfold check_equipment. rewrite He.
    rewrite (bool_decide_eq_false_2 (EquipmentModel.available e ≤ 0)) by lia.
    rewrite (bool_decide_eq_false_2 (q > EquipmentModel.available e)) by lia.
    unfold check_overlapping_requests. rewrite total_is_committed.
    reflexivity. }
  rewrite Hstep. case_bool_decide as Hc; split.
  - split; [|lia]. intros Heq. symmetry in Heq.
    by apply create_request_not_overlap_rejection in Heq.
  - done.
  - split; [lia|done].
  - lia.
Qed.

End OverlapProps.

Module OverlapWitness.
Import Scenario RequestController.

(** Scenario 1 of the specification: 5 units, A holds 3 of them from 10 to
    15 November, B asks for 3 from 12 to 20 November. *)
Lemma createRequest_overlap_accounting_witness :
  let db := db_with 5 5 3 RequestModel.pending in
  Spec.committed (requests db) item nov12 nov20 = 3
  ∧ createRequest clock db (body_for 3 nov12 nov20)
    = (bad_request "Only 2 units available for these dates", db)
  ∧ code (createRequest clock db (body_for 2 nov12 nov20)).1 = 201.
Proof.
  intros db.
  pose proof (OverlapProps.createRequest_overlap_accounting clock db student
    item (Some "Ann Lee") (Some "ann@school.org") (Some "Basketball")
    (Some "Practice") 3 nov12 nov20 (basketballs 5 5)) as Hthree.
  pose proof (OverlapProps.createRequest_overlap_accounting clock db student
    item (Some "Ann Lee") (Some "ann@school.org") (Some "Basketball")
    (Some "Practice") 2 nov12 nov20 (basketballs 5 5)) as Htwo.
  cbv zeta in Hthree, Htwo.
  destruct Hthree as [_ Hthree]; [vm_compute; done ..|].
  destruct Htwo as [Htwo _]; [vm_compute; done ..|].
  split; [by vm_compute|]. split.
  - unfold body_for. rewrite Hthree; by vm_compute.
  - unfold body_for. rewrite (proj2 Htwo); by vm_compute.
Defined.

End OverlapWitness.

(** ** Creating a request: dates and immediate availability *)

Module CreateRequestChecks.
Import RequestModel RequestController.

(** Closes a goal on a body that step 1 rejects: the response is the
    rejection, and the body's other fields are not valid. *)
Local Ltac invalid_fields :=
  simpl; repeat split; try done;
  intros (Hv1 & Hv2 & (q' & Hv3 & Hv4) & Hv5);
  destruct Hv1 as [? Hv1]; destruct Hv2 as [? Hv2];
  try congruence;
  match goal with
  | H1 : ?t = QuantityInteger ?a, H2 : ?t = QuantityInteger ?b |- _ =>
    assert (a = b) by congruence; subst; lia
  end.

(** C7. A creation request whose [borrowToDate] equals its [borrowFromDate],
    or whose [borrowFromDate] is earlier than today, is answered 400 and no
    request record is created; when the other fields are valid the message
    is the one of the date check that failed: "Borrow date cannot be in the
    past", else "Return date must be after borrow date". *)
Theorem createRequest_rejects_dates clock db body from to :
  c_borrowFromDate body = DateGiven (Some from) →
  c_borrowToDate body = DateGiven (Some to) →
  to = from ∨ from < today clock →
  code (createRequest clock db body).1 = 400
  ∧ success (createRequest clock db body).1 = false
  ∧ (createRequest clock db body).2 = db
  ∧ (other_fields_valid body →
     message (createRequest clock db body).1
     = if bool_decide (from < today clock)
       then "Borrow date cannot be in the past"
       else "Return date must be after borrow date").
Proof.
  intros Hfrom Hto Hbad. unfold createRequest. rewrite Hfrom, Hto. simpl.
  assert (Hdates : bool_decide (from < today clock) = false →
                   bool_decide (to ≤ from) = true).
  { intros Hpast%bool_decide_eq_false. apply bool_decide_eq_true. lia. }
  destruct (c_studentId body) as [s|] eqn:Hs; [|by invalid_fields].
  destruct (c_equipmentId body) as [e|] eqn:He; [|by invalid_fields].
  destruct (c_quantity body) as [| |q] eqn:Hq; simpl;
    [by invalid_fields| |].
  { destruct (truthy (c_notes body)) eqn:Hn; by invalid_fields. }
  destruct (truthy (c_notes body)) eqn:Hn; simpl;
    [|rewrite orb_true_r; by invalid_fields].
  rewrite orb_false_r.
  destruct (bool_decide (q ≠ 0)) eqn:Hq0; simpl;
    [|apply bool_decide_eq_false in Hq0; by invalid_fields].
  destruct (bool_decide (q < 1)) eqn:Hq1; simpl;
    [apply bool_decide_eq_true in Hq1; by invalid_fields|].
  destruct (bool_decide (from < today clock)) eqn:Hpast; simpl; [done|].
  by rewrite Hdates.
Qed.

(** C6. A creation request for [q] units of equipment [e] succeeds only if
    [e.available > 0] and [e.available ≥ q], whatever the overlap check
    finds.  With a valid payload, a quantity equal to [e.available] passes
    the immediate-availability check and goes on to the overlap check, and
    a quantity of [e.available + 1] fails it: 400, nothing stored. *)
Theorem createRequest_immediate_availability clock db student equipment
    sname semail ename notes' q from to e :
  let body := payload student sname semail equipment ename q from to notes' in
  equipments db !! equipment = Some e →
  (code (createRequest clock db body).1 = 201 →
   EquipmentModel.available e > 0 ∧ EquipmentModel.available e >= q)
  ∧ (1 ≤ q → today clock ≤ from → from < to → truthy notes' = true →
     (q = EquipmentModel.available e →
      createRequest clock db body
      = check_overlapping_requests clock db body e student equipment q
          (Some from) (Some to) (default "" notes'))
     ∧ (q = EquipmentModel.available e + 1 →
        createRequest clock db body
        = (bad_request
             (if bool_decide (EquipmentModel.available e ≤ 0)
              then "Equipment is not available for borrowing"
              else "Only " +:+ pretty (EquipmentModel.available e)
                   +:+ " units available for borrowing"), db))).
Proof.
  intros body He. split.
  - unfold createRequest, check_equipment, body, payload. simpl.
    rewrite He.
    repeat (case_match; simpl; try done). intros _.
    repeat case_bool_decide; lia.
  - intros Hq Hfrom Hto Hnotes. unfold body.
    rewrite CreateRequestProps.createRequest_validated by done.
    unfold check_equipment. rewrite He. split.
    + intros ->.
      rewrite (bool_decide_eq_false_2 (EquipmentModel.available e ≤ 0))
        by lia.
      by rewrite (bool_decide_eq_false_2 (_ > _)) by lia.
    + intros ->. case_bool_decide; [done|].
      by rewrite (bool_decide_eq_true_2 (_ > _)) by lia.
Qed.

End CreateRequestChecks.

Module CreateRequestWitness.
Import Scenario RequestController.

(** A request from 10 November to 10 November. *)
Lemma createRequest_rejects_dates_witness :
  let answer := createRequest clock (db_stock 5 5) (body_for 3 nov10 nov10) in
  code answer.1 = 400
  ∧ answer.2 = db_stock 5 5
  ∧ message answer.1 = "Return date must be after borrow date".
Proof.
  destruct (CreateRequestChecks.createRequest_rejects_dates clock
              (db_stock 5 5) (body_for 3 nov10 nov10) nov10 nov10
              eq_refl eq_refl (or_introl eq_refl))
    as (Hcode & _ & Hdb & Hmsg).
  split; [exact Hcode|]. split; [exact Hdb|].
  rewrite Hmsg; [by vm_compute|].
  split; [by eexists|]. split; [by eexists|].
  split; [exists 3; split; [reflexivity|lia]|reflexivity].
Defined.

(** 5 units available: asking for 5 reaches the overlap check, asking for 6
    does not. *)
Lemma createRequest_immediate_availability_witness :
  code (createRequest clock (db_stock 5 5) (body_for 5 nov10 nov15)).1 = 201
  ∧ createRequest clock (db_stock 5 5) (body_for 6 nov10 nov15)
    = (bad_request "Only 5 units available for borrowing", db_stock 5 5).
Proof.
  destruct (CreateRequestChecks.createRequest_immediate_availability clock
              (db_stock 5 5) student item (Some "Ann Lee")
              (Some "ann@school.org") (Some "Basketball") (Some "Practice")
              5 nov10 nov15 (basketballs 5 5) eq_refl) as [_ Hfive].
  destruct (CreateRequestChecks.createRequest_immediate_availability clock
              (db_stock 5 5) student item (Some "Ann Lee")
              (Some "ann@school.org") (Some "Basketball") (Some "Practice")
              6 nov10 nov15 (basketballs 5 5) eq_refl) as [_ Hsix].
  destruct Hfive as [Hfive _]; [by vm_compute ..|].
  destruct Hsix as [_ Hsix]; [by vm_compute ..|].
  split.
  - unfold body_for. rewrite Hfive; by vm_compute.
  - unfold body_for. rewrite Hsix; by vm_compute.
Defined.

End CreateRequestWitness.

(** ** Documents that pass validation *)

Module ValidationProps.
Import RequestModel.

Lemma check_nil ok err : check ok err = [] ↔ ok = true.
Proof. destruct ok; simpl; split; congruence. Qed.

(** A valid request, validator by validator. *)
Lemma valid_iff r :
  Spec.valid r ↔
    String.eqb (studentName r) "" = false
    ∧ String.eqb (studentEmail r) "" = false
    ∧ String.eqb (equipmentName r) "" = false
    ∧ 1 ≤ quantity r
    ∧ borrowToDate r > borrowFromDate r
    ∧ String.eqb (notes r) "" = false
    ∧ maxlength 500 (notes r) = true
    ∧ maxlength_opt 300 (approvalNotes r) = true
    ∧ maxlength_opt 300 (rejectionReason r) = true
    ∧ returnedCondition_validator (returnedCondition r) = true
    ∧ maxlength_opt 300 (returnNotes r) = true.
Proof.
  unfold Spec.valid, validate, borrowToDate_validator.
  rewrite !app_nil, !check_nil, !negb_true_iff, !bool_decide_eq_true.
  reflexivity.
Qed.


Lemma save_Return coll id r coll' :
  save coll id r = Return coll' → coll' = <[id := r]> coll.
Proof. unfold save. case_match; congruence. Qed.









(** *** Stored requests stay valid: [save] validates what it writes *)

Lemma save_requests_valid coll id r coll' :
  Spec.requests_valid coll → save coll id r = Return coll' →
  Spec.requests_valid coll'.
Proof.
  unfold save. intros Hv Hsave.
  destruct (validate r) eqn:Hr; [|done]. injection Hsave as <-.
  intros i x [[-> <-]|[_ Hx]]%lookup_insert_Some; [done|].
  by apply (Hv i).
Qed.

Lemma createRequest_requests_valid clock db body :
  Spec.requests_valid (requests db) →
  Spec.requests_valid (requests (RequestController.createRequest clock db
                                   body).2).
Proof.
  intros Hv.
  unfold RequestController.createRequest, RequestController.check_equipment,
    RequestController.check_overlapping_requests,
    RequestController.create_request, RequestController.create.
  repeat (case_match; simpl; try done); by eapply save_requests_valid.
Qed.

Lemma approveRequest_requests_valid clock db requestId approvalNotes' adminId :
  Spec.requests_valid (requests db) →
  Spec.requests_valid
    (requests (RequestController.approveRequest clock db requestId
                 approvalNotes' adminId).2).
Proof.
  intros Hv. unfold RequestController.approveRequest, approve.
  repeat (case_match; simpl; try done); by eapply save_requests_valid.
Qed.

Lemma rejectRequest_requests_valid db requestId reason :
  Spec.requests_valid (requests db) →
  Spec.requests_valid
    (requests (RequestController.rejectRequest db requestId reason).2).
Proof.
  intros Hv. unfold RequestController.rejectRequest, reject.
  repeat (case_match; simpl; try done); by eapply save_requests_valid.
Qed.

Lemma markReturned_requests_valid clock db requestId condition returnNotes' :
  Spec.requests_valid (requests db) →
  Spec.requests_valid
    (requests (RequestController.markReturned clock db requestId condition
                 returnNotes').2).
Proof.
  intros Hv. unfold RequestController.markReturned, markReturned.
  repeat (case_match; simpl; try done); subst; simpl in *;
    try done; by eapply save_requests_valid.
Qed.

End ValidationProps.

(** ** The request lifecycle *)

Module LifecycleProps.
Import RequestModel RequestController ValidationProps.

(** The rejections of [approveRequest] and [rejectRequest] name the status
    they found. *)
Lemma cannot_names_status verb s :
  verb = "approve" ∨ verb = "reject" →
  Spec.names_status
    ("Cannot " +:+ verb +:+ " a " +:+ status_name s +:+ " request") s = true.
Proof. intros [-> | ->]; by destruct s. Qed.

(** C3, as the handlers have it.  [approveRequest] and [rejectRequest]
    succeed only on a pending request, [markReturned] only on an approved
    one.  From any other status each of them answers 400 and leaves the
    request and the ledger (the whole database) as they were;
    [approveRequest] and [rejectRequest] answer "Cannot approve (reject) a
    <status> request", which names the current status; [markReturned]
    answers the fixed message "Only approved requests can be marked as
    returned", the same for every status: the status of a pending or a
    rejected request does not occur in it, and that of a returned request
    does only because the message ends in the word. *)
Theorem lifecycle_guards clock db requestId r approvalNotes' adminId reason
    condition returnNotes' :
  requests db !! requestId = Some r →
  (code (approveRequest clock db requestId approvalNotes' adminId).1 = 200 →
   status r = pending)
  ∧ (status r ≠ pending →
     approveRequest clock db requestId approvalNotes' adminId
     = (bad_request
          ("Cannot approve a " +:+ status_name (status r) +:+ " request"),
        db)
     ∧ Spec.names_status
         (message (approveRequest clock db requestId approvalNotes'
                     adminId).1) (status r) = true)
  ∧ (code (rejectRequest db requestId reason).1 = 200 → status r = pending)
  ∧ (status r ≠ pending →
     rejectRequest db requestId reason
     = (bad_request
          ("Cannot reject a " +:+ status_name (status r) +:+ " request"),
        db)
     ∧ Spec.names_status (message (rejectRequest db requestId reason).1)
         (status r) = true)
  ∧ (code (markReturned clock db requestId condition returnNotes').1 = 200 →
     status r = approved)
  ∧ (status r ≠ approved →
     markReturned clock db requestId condition returnNotes'
     = (bad_request "Only approved requests can be marked as returned", db)
     ∧ (status r = pending ∨ status r = rejected →
        Spec.names_status
          (message (markReturned clock db requestId condition
                      returnNotes').1) (status r) = false)
     ∧ (status r = returned →
        Spec.names_status
          (message (markReturned clock db requestId condition
                      returnNotes').1) (status r) = true)).
Proof.
  intros Hr. unfold approveRequest, rejectRequest, markReturned.
  rewrite Hr. split_and!.
  - case_bool_decide as Hs; [done|]. intros _. exact Hs.
  - intros Hs. rewrite bool_decide_eq_true_2 by done. simpl.
    split; [done|]. apply (cannot_names_status "approve"). by left.
  - case_bool_decide as Hs; [done|]. intros _. exact Hs.
  - intros Hs. rewrite bool_decide_eq_true_2 by done. simpl.
    split; [done|]. apply (cannot_names_status "reject"). by right.
  - case_bool_decide as Hs; [done|]. intros _. exact Hs.
  - intros Hs. rewrite bool_decide_eq_true_2 by done. simpl.
    split; [done|]. split.
    + by intros [-> | ->].
    + by intros ->.
Qed.





End LifecycleProps.

(** ** The ledger *)

Module LedgerProps.
Import EquipmentModel RequestModel RequestController ValidationProps.

(** Adding [d] then [-d] to an item's [available] gives the item back. *)
Lemma set_available_id e : set_available e (available e) = e.
Proof. by destruct e. Qed.

Lemma inc_available_lookup coll id d e :
  coll !! id = Some e →
  inc_available coll id d !! id = Some (set_available e (available e + d)).
Proof.
  intros He. unfold inc_available. by rewrite lookup_alter_eq, He.
Qed.

Lemma inc_available_cancel coll id d :
  inc_available (inc_available coll id (- d)) id d = coll.
Proof.
  unfold inc_available. rewrite alter_alter_eq. apply alter_id.
  intros e _. simpl. destruct e; simpl. unfold set_available; simpl.
  f_equal. lia.
Qed.

(** C4. When [approveRequest] on a pending request and then [markReturned]
    on the same request both succeed, with no other operation in between,
    the ledger is what it was before the approval: the item's [available]
    went down by the request's quantity and came back up by the same
    amount. *)
Theorem approve_then_return clock clock' db requestId r approvalNotes'
    adminId condition returnNotes' :
  requests db !! requestId = Some r →
  status r = pending →
  let approval := approveRequest clock db requestId approvalNotes' adminId in
  let return_ :=
    markReturned clock' approval.2 requestId condition returnNotes' in
  code approval.1 = 200 →
  code return_.1 = 200 →
  equipments return_.2 = equipments db
  ∧ ∃ e, equipments db !! equipmentId r = Some e
      ∧ equipments approval.2 !! equipmentId r
        = Some (set_available e (available e - quantity r))
      ∧ equipments return_.2 !! equipmentId r = Some e.
Proof.
  intros Hr Hs approval return_. unfold return_, approval.
  clear approval return_.
  unfold approveRequest. rewrite Hr, Hs. simpl.
  destruct (equipments db !! equipmentId r) as [e|] eqn:He; [|done].
  case_bool_decide as Hq; [done|].
  unfold approve.
  destruct (save _ _ _) as [?|coll] eqn:Hsave; [done|]. intros _.
  apply save_Return in Hsave. subst coll. simpl.
  unfold markReturned. simpl. rewrite lookup_insert_eq. simpl.
  rewrite (inc_available_lookup _ _ _ e He).
  unfold RequestModel.markReturned.
  destruct (save _ _ _) as [?|coll] eqn:Hsave; [done|]. intros _. simpl.
  rewrite inc_available_cancel. split; [done|].
  exists e. split; [done|]. split; [|done]. by do 2 f_equal.
Qed.

(** *** Operations that keep the invariant *)

Lemma validate_invariant e : EquipmentModel.validate e = [] → Spec.invariant e.
Proof.
  unfold EquipmentModel.validate, available_validator, Spec.invariant.
  rewrite !app_nil, !check_nil, !bool_decide_eq_true. tauto.
Qed.

Lemma save_ledger_ok coll id e coll' :
  Spec.ledger_ok coll → EquipmentModel.save coll id e = Return coll' →
  Spec.ledger_ok coll'.
Proof.
  unfold EquipmentModel.save. intros Hok Hsave.
  destruct (EquipmentModel.validate e) eqn:Hv; [|done]. injection Hsave as <-.
  intros i x [[-> <-]|[_ Hx]]%lookup_insert_Some.
  - by apply validate_invariant.
  - by apply (Hok i).
Qed.

Lemma decreaseAvailable_ledger_ok coll id e count coll' :
  Spec.ledger_ok coll → decreaseAvailable coll id e count = Return coll' →
  Spec.ledger_ok coll'.
Proof.
  unfold decreaseAvailable. intros Hok. case_bool_decide; [done|].
  by apply save_ledger_ok.
Qed.

Lemma increaseAvailable_ledger_ok coll id e count coll' :
  Spec.ledger_ok coll → increaseAvailable coll id e count = Return coll' →
  Spec.ledger_ok coll'.
Proof.
  unfold increaseAvailable. intros Hok. case_bool_decide; [done|].
  by apply save_ledger_ok.
Qed.

Lemma addEquipment_ledger_ok db body :
  Spec.ledger_ok (equipments db) →
  Spec.ledger_ok (equipments (EquipmentController.addEquipment db body).2).
Proof.
  intros Hok. unfold EquipmentController.addEquipment.
  repeat (case_match; simpl; try done).
  by eapply save_ledger_ok.
Qed.

Lemma deleteEquipment_ledger_ok db id :
  Spec.ledger_ok (equipments db) →
  Spec.ledger_ok (equipments (EquipmentController.deleteEquipment db id).2).
Proof.
  intros Hok. unfold EquipmentController.deleteEquipment.
  case_match; simpl; [|done].
  intros i x [_ Hx]%lookup_delete_Some. by apply (Hok i).
Qed.

Lemma createRequest_ledger clock db body :
  equipments (createRequest clock db body).2 = equipments db.
Proof.
  unfold createRequest, check_equipment, check_overlapping_requests,
    create_request.
  repeat (case_match; simpl; try done).
Qed.

Lemma rejectRequest_ledger db requestId reason :
  equipments (rejectRequest db requestId reason).2 = equipments db.
Proof.
  unfold rejectRequest. repeat (case_match; simpl; try done).
Qed.

(** An [$inc] that stays within the bounds keeps the invariant. *)
Lemma inc_available_ledger_ok coll id d e :
  Spec.ledger_ok coll → coll !! id = Some e →
  0 ≤ available e + d ≤ EquipmentModel.quantity e →
  Spec.ledger_ok (inc_available coll id d).
Proof.
  intros Hok He Hd i x. unfold inc_available.
  rewrite lookup_alter_Some. intros [[<- (y & Hy & ->)]|[_ Hx]].
  - assert (y = e) as -> by congruence. done.
  - by apply (Hok i).
Qed.

(** The approval's decrement keeps the invariant: the handler has checked
    [available ≥ quantity], and a request's quantity is not negative. *)
Lemma approveRequest_ledger_ok clock db requestId approvalNotes' adminId :
  Spec.ledger_ok (equipments db) →
  (∀ r, requests db !! requestId = Some r → 0 ≤ RequestModel.quantity r) →
  Spec.ledger_ok
    (equipments (approveRequest clock db requestId approvalNotes'
                   adminId).2).
Proof.
  intros Hok Hq. unfold approveRequest.
  destruct (requests db !! requestId) as [r|] eqn:Hr; [|done].
  specialize (Hq r eq_refl).
  case_bool_decide; [done|].
  destruct (equipments db !! equipmentId r) as [e|] eqn:He; [|done].
  case_bool_decide; [done|].
  assert (Spec.ledger_ok
            (inc_available (equipments db) (equipmentId r)
               (- RequestModel.quantity r))).
  { apply (inc_available_ledger_ok _ _ _ e); [done..|].
    specialize (Hok _ _ He). unfold Spec.invariant in Hok. lia. }
  by case_match.
Qed.

(** The return's increment keeps the invariant when the units fit. *)
Lemma markReturned_ledger_ok clock db requestId condition returnNotes' :
  Spec.ledger_ok (equipments db) →
  (∀ r e, requests db !! requestId = Some r →
          equipments db !! equipmentId r = Some e →
          0 ≤ RequestModel.quantity r
          ∧ available e + RequestModel.quantity r ≤ EquipmentModel.quantity e) →
  Spec.ledger_ok
    (equipments (markReturned clock db requestId condition
                   returnNotes').2).
Proof.
  intros Hok Hq. unfold markReturned.
  destruct (requests db !! requestId) as [r|] eqn:Hr; [|done].
  case_bool_decide; [done|].
  destruct (equipments db !! equipmentId r) as [e|] eqn:He.
  - specialize (Hq r e eq_refl He).
    assert (Spec.ledger_ok
              (inc_available (equipments db) (equipmentId r)
                 (RequestModel.quantity r))).
    { apply (inc_available_ledger_ok _ _ _ e); [done..|].
      specialize (Hok _ _ He). unfold Spec.invariant in Hok. lia. }
    by case_match.
  - by case_match.
Qed.

(** *** Updating an item *)

Lemma updateEquipment_unknown db id body :
  equipments db !! id = None →
  EquipmentController.updateEquipment db id body
  = (not_found "Equipment not found", db).
Proof. intros He. unfold EquipmentController.updateEquipment. by rewrite He. Qed.

(** The check is made on the resulting pair: a field the body lacks is the
    item's. *)
Lemma updateEquipment_exceeds db id body e :
  equipments db !! id = Some e →
  default (available e) (EquipmentController.b_available body)
  > default (EquipmentModel.quantity e) (EquipmentController.b_quantity body) →
  EquipmentController.updateEquipment db id body
  = (bad_request "Available quantity cannot exceed total quantity", db).
Proof.
  intros He Hgt. unfold EquipmentController.updateEquipment.
  rewrite He. by rewrite bool_decide_eq_true_2.
Qed.

Lemma updateEquipment_failure db id body :
  code (EquipmentController.updateEquipment db id body).1 ≠ 200 →
  (EquipmentController.updateEquipment db id body).2 = db.
Proof.
  unfold EquipmentController.updateEquipment.
  repeat (case_match; simpl; try done).
Qed.

Lemma updateEquipment_accepts db id body e :
  equipments db !! id = Some e →
  default (available e) (EquipmentController.b_available body)
  ≤ default (EquipmentModel.quantity e) (EquipmentController.b_quantity body) →
  EquipmentController.updateEquipment db id body
  = (ok "Equipment updated successfully",
     mkDb (<[id := EquipmentController.apply_update body e]> (equipments db))
       (requests db) (users db)).
Proof.
  intros He Hle. unfold EquipmentController.updateEquipment.
  rewrite He. by rewrite bool_decide_eq_false_2 by lia.
Qed.

(** *** Where the invariant is lost *)

Lemma ledger_ok_singleton id e :
  Spec.invariant e → Spec.ledger_ok {[ id := e ]}.
Proof. by intros He i x [_ <-]%lookup_singleton_Some. Qed.

Lemma not_ledger_ok coll id e :
  coll !! id = Some e → ¬ Spec.invariant e → ¬ Spec.ledger_ok coll.
Proof. intros He Hne Hok. by apply Hne, (Hok id). Qed.

(** C1 fails on [markReturned] and on [updateEquipment].  Five units are in
    stock; request A for three of them is created and approved (2 left);
    the administrator lowers the total to 2, which the update's check
    accepts; every state so far satisfies the invariant.  Returning A then
    succeeds and leaves [available = 5] with [quantity = 2].  Likewise an
    update of [available] to -1 on the initial stock succeeds. *)
Theorem ledger_invariant_lost :
  Spec.ledger_ok (equipments (Scenario.db_stock 5 5))
  ∧ Spec.ledger_ok (equipments Scenario.db_requested)
  ∧ Spec.ledger_ok (equipments Scenario.db_approved)
  ∧ Spec.ledger_ok (equipments Scenario.db_lowered)
  ∧ (let answer :=
       markReturned Scenario.clock Scenario.db_lowered Scenario.requestA
         None None in
     code answer.1 = 200
     ∧ equipments answer.2 !! Scenario.item
       = Some (Scenario.basketballs 2 5)
     ∧ ¬ Spec.ledger_ok (equipments answer.2))
  ∧ (let answer :=
       EquipmentController.updateEquipment (Scenario.db_stock 5 5)
         Scenario.item (Scenario.patch_available (-1)) in
     code answer.1 = 200
     ∧ equipments answer.2 !! Scenario.item
       = Some (Scenario.basketballs 5 (-1))
     ∧ ¬ Spec.ledger_ok (equipments answer.2)).
Proof.
  assert (H55 : equipments (Scenario.db_stock 5 5)
                = {[ Scenario.item := Scenario.basketballs 5 5 ]})
    by reflexivity.
  assert (Hreq : equipments Scenario.db_requested
                 = {[ Scenario.item := Scenario.basketballs 5 5 ]})
    by (by vm_compute).
  assert (Happ : equipments Scenario.db_approved
                 = {[ Scenario.item := Scenario.basketballs 5 2 ]})
    by (by vm_compute).
  assert (Hlow : equipments Scenario.db_lowered
                 = {[ Scenario.item := Scenario.basketballs 2 2 ]})
    by (by vm_compute).
  rewrite H55, Hreq, Happ, Hlow. cbv zeta.
  split_and!;
    try (apply ledger_ok_singleton; unfold Spec.invariant; simpl; lia);
    try (by vm_compute).
  - apply (not_ledger_ok _ Scenario.item (Scenario.basketballs 2 5));
      [by vm_compute|].
    unfold Spec.invariant. simpl. lia.
  - apply (not_ledger_ok _ Scenario.item (Scenario.basketballs 5 (-1)));
      [by vm_compute|].
    unfold Spec.invariant. simpl. lia.
Qed.

(** The two writes of [markReturned] are not one unit: when the request's
    [save] throws (here on a condition outside the enum), the increment
    has been written and the request is still approved, so that the
    return can be asked again.  From the approved state of the scenario (2
    of 5 available), two such calls leave [available = 8]. *)
Lemma markReturned_increment_survives_failure :
  let first :=
    markReturned Scenario.clock Scenario.db_approved Scenario.requestA
      (Some "Broken") None in
  let second :=
    markReturned Scenario.clock first.2 Scenario.requestA (Some "Broken")
      None in
  code first.1 = 500
  ∧ requests first.2 = requests Scenario.db_approved
  ∧ equipments first.2 !! Scenario.item = Some (Scenario.basketballs 5 5)
  ∧ code second.1 = 500
  ∧ equipments second.2 !! Scenario.item = Some (Scenario.basketballs 5 8).
Proof. cbv zeta. split_and!; by vm_compute. Qed.

(** C5 fails where the resulting pair has [available < 0] or
    [quantity < 1]: the update's only check is [available > quantity], and
    the schema's validators are switched off.  On a stock of five units, an
    update of [available] to -1 succeeds and is stored, and so does an
    update to [quantity = 0], [available = 0]. *)
Theorem updateEquipment_below_minimum :
  EquipmentController.updateEquipment (Scenario.db_stock 5 5) Scenario.item
    (Scenario.patch_available (-1))
  = (ok "Equipment updated successfully", Scenario.db_stock 5 (-1))
  ∧ EquipmentController.updateEquipment (Scenario.db_stock 5 5)
      Scenario.item
      (EquipmentController.mkBody None None None None (Some 0) (Some 0) None)
    = (ok "Equipment updated successfully", Scenario.db_stock 0 0)
  ∧ EquipmentModel.validate (Scenario.basketballs 5 (-1))
    = [AvailableNegative]
  ∧ EquipmentModel.validate (Scenario.basketballs 0 0)
    = [QuantityBelowMinimum].
Proof. split_and!; by vm_compute. Qed.

End LedgerProps.

(** ** The theorems on the scenarios *)

Module ScenarioChecks.
Import Scenario RequestModel RequestController.

(** A pending request cannot be returned, and the answer does not say that
    it is pending: not every rejection names the current status. *)
Lemma markReturned_rejection_names_no_status :
  ¬ (∀ clock db requestId r condition returnNotes',
       requests db !! requestId = Some r →
       status r ≠ approved →
       Spec.names_status
         (message (markReturned clock db requestId condition
                     returnNotes').1) (status r) = true).
Proof.
  intros Hnames.
  specialize (Hnames clock (db_with 5 5 3 pending) requestA
                (request_for 3 nov10 nov15 pending) None None eq_refl).
  assert (Hne : pending ≠ approved) by done.
  specialize (Hnames Hne). by vm_compute in Hnames.
Qed.




(** Request A is approved already: it can be neither approved nor rejected
    again; were it pending, it could not be returned, and the answer would
    not say that it is pending. *)
Lemma lifecycle_guards_witness :
  approveRequest clock (db_with 5 2 3 approved) requestA None admin
  = (bad_request "Cannot approve a approved request",
     db_with 5 2 3 approved)
  ∧ rejectRequest (db_with 5 2 3 approved) requestA None
    = (bad_request "Cannot reject a approved request",
       db_with 5 2 3 approved)
  ∧ markReturned clock (db_with 5 5 3 pending) requestA None None
    = (bad_request "Only approved requests can be marked as returned",
       db_with 5 5 3 pending)
  ∧ Spec.names_status
      (message (markReturned clock (db_with 5 5 3 pending) requestA None
                  None).1) pending = false.
Proof.
  destruct (LifecycleProps.lifecycle_guards clock (db_with 5 2 3 approved)
              requestA (request_for 3 nov10 nov15 approved) None admin None
              None None eq_refl)
    as (_ & Happrove & _ & Hreject & _ & _).
  destruct Happrove as [Happrove _]; [done|].
  destruct Hreject as [Hreject _]; [done|].
  destruct (LifecycleProps.lifecycle_guards clock (db_with 5 5 3 pending)
              requestA (request_for 3 nov10 nov15 pending) None admin None
              None None eq_refl)
    as (_ & _ & _ & _ & _ & Hreturn).
  destruct Hreturn as (Hreturn & Hsilent & _); [done|].
  split_and!; [exact Happrove | exact Hreject | exact Hreturn|].
  apply Hsilent. by left.
Defined.

(** Scenario 2 of the specification: approving A leaves 2 of 5 units,
    returning it gives the 5 back. *)
Lemma approve_then_return_witness :
  let approval := approveRequest clock db_requested requestA None admin in
  let return_ := markReturned clock approval.2 requestA None None in
  equipments approval.2 !! item = Some (basketballs 5 2)
  ∧ equipments return_.2 !! item = Some (basketballs 5 5)
  ∧ equipments return_.2 = equipments db_requested.
Proof.
  destruct (LedgerProps.approve_then_return clock clock db_requested
              requestA (request_for 3 nov10 nov15 pending) None admin None
              None)
    as (Hledger & e & He & Happroved & Hreturned);
    [by vm_compute ..|].
  assert (Some e = Some (basketballs 5 5)) as [= ->]
    by (rewrite <-He; by vm_compute).
  split; [exact Happroved|]. split; [exact Hreturned|exact Hledger].
Defined.




(** Scenario 2 of the specification, second step: with A approved (2 of 5
    available), B's request for 2 units from 12 to 20 November is accepted. *)
Example createRequest_after_approval :
  equipments db_approved !! item = Some (basketballs 5 2)
  ∧ code (createRequest clock db_approved (body_for 2 nov12 nov20)).1 = 201
  ∧ code (createRequest clock db_approved (body_for 3 nov12 nov20)).1 = 400.
Proof. split_and!; by vm_compute. Qed.

(** Scenario 5 of the specification: an update to [available = quantity + 1]
    is refused and nothing is written. *)
Example updateEquipment_above_quantity :
  EquipmentController.updateEquipment (db_stock 5 5) item (patch_available 6)
  = (bad_request "Available quantity cannot exceed total quantity",
     db_stock 5 5).
Proof. by vm_compute. Qed.

(** The ledger methods of the model refuse what the handlers let through:
    with all 5 units available, [increaseAvailable(3)] throws. *)
Example increaseAvailable_refuses :
  EquipmentModel.increaseAvailable (equipments (db_stock 5 5)) item
    (basketballs 5 5) (Some 3)
  = Throw (Error "Cannot return more than total quantity")
  ∧ EquipmentModel.decreaseAvailable (equipments (db_stock 5 2)) item
      (basketballs 5 2) (Some 3)
    = Throw (Error "Not enough available quantity").
Proof. split; by vm_compute. Qed.

End ScenarioChecks.


(** ** Sums over a collection *)

Module SumProps.

Section Sums.
Context `{Countable K} {A : Type}.
Implicit Types (f g : A → Z) (coll : gmap K A).

Lemma sum_with_empty f : sum_with f (∅ : gmap K A) = 0.
Proof. unfold sum_with. by rewrite map_fold_empty. Qed.

Lemma sum_with_insert f coll id x :
  coll !! id = None →
  sum_with f (<[id := x]> coll) = sum_with f coll + f x.
Proof.
  intros Hid. unfold sum_with.
  rewrite map_fold_insert_L; [done| |done]. intros. lia.
Qed.

Lemma sum_with_delete f coll id x :
  coll !! id = Some x →
  sum_with f (delete id coll) = sum_with f coll - f x.
Proof.
  intros Hid. rewrite <-(insert_delete_id coll id x Hid) at 2.
  rewrite sum_with_insert by apply lookup_delete_eq. lia.
Qed.

(** Replacing a document moves the sum by the difference. *)
Lemma sum_with_replace f coll id x y :
  coll !! id = Some x →
  sum_with f (<[id := y]> coll) = sum_with f coll - f x + f y.
Proof.
  intros Hid. rewrite <-insert_delete_eq.
  rewrite sum_with_insert by apply lookup_delete_eq.
  by rewrite (sum_with_delete _ _ _ x).
Qed.

Lemma sum_with_ext f g coll :
  (∀ id x, coll !! id = Some x → f x = g x) →
  sum_with f coll = sum_with g coll.
Proof.
  induction coll as [|id x coll Hid IH] using map_ind; intros Hfg.
  - by rewrite !sum_with_empty.
  - rewrite !sum_with_insert by done. rewrite IH.
    + by rewrite (Hfg id x) by apply lookup_insert_eq.
    + intros i y Hy. apply (Hfg i). rewrite lookup_insert_ne; [done|].
      intros ->. congruence.
Qed.

Lemma sum_with_le f g coll :
  (∀ id x, coll !! id = Some x → f x ≤ g x) →
  sum_with f coll ≤ sum_with g coll.
Proof.
  induction coll as [|id x coll Hid IH] using map_ind; intros Hfg.
  - by rewrite !sum_with_empty.
  - rewrite !sum_with_insert by done.
    assert (f x ≤ g x) by (apply (Hfg id); apply lookup_insert_eq).
    assert (sum_with f coll ≤ sum_with g coll); [|lia].
    apply IH. intros i y Hy. apply (Hfg i). rewrite lookup_insert_ne; [done|].
    intros ->. congruence.
Qed.

Lemma sum_with_plus f g coll :
  sum_with (fun x => f x + g x) coll = sum_with f coll + sum_with g coll.
Proof.
  induction coll as [|id x coll Hid IH] using map_ind.
  - by rewrite !sum_with_empty.
  - rewrite !sum_with_insert by done. lia.
Qed.

Lemma sum_with_minus f g coll :
  sum_with (fun x => f x - g x) coll = sum_with f coll - sum_with g coll.
Proof.
  induction coll as [|id x coll Hid IH] using map_ind.
  - by rewrite !sum_with_empty.
  - rewrite !sum_with_insert by done. lia.
Qed.

Lemma sum_with_one coll : sum_with (fun _ => 1) coll = Z.of_nat (size coll).
Proof.
  induction coll as [|id x coll Hid IH] using map_ind.
  - by rewrite sum_with_empty, map_size_empty.
  - rewrite sum_with_insert, map_size_insert_None by done. lia.
Qed.

End Sums.

End SumProps.

(** ** The ledger methods of the Equipment model *)

Module ModelProps.
Import EquipmentModel.

Lemma equipment_save_Return coll id e coll' :
  save coll id e = Return coll' →
  validate e = [] ∧ coll' = <[id := e]> coll.
Proof. unfold save. destruct (validate e); [|done]. by intros [= <-]. Qed.

Lemma set_available_set e a b :
  set_available (set_available e a) b = set_available e b.
Proof. done. Qed.

(** What the schema's validators say of an item's numbers. *)
Lemma validate_bounds e :
  validate e = [] → 0 ≤ available e ≤ quantity e ∧ 1 ≤ quantity e.
Proof.
  unfold validate, available_validator.
  rewrite !app_nil, !ValidationProps.check_nil, !bool_decide_eq_true.
  intros (_&_&_&_&_&_&_&Hq&Ha&Hle&_). lia.
Qed.

Lemma decreaseAvailable_Return coll id e count coll' :
  decreaseAvailable coll id e count = Return coll' →
  default 1 count ≤ available e
  ∧ validate (set_available e (available e - default 1 count)) = []
  ∧ coll' = <[id := set_available e (available e - default 1 count)]> coll.
Proof.
  unfold decreaseAvailable. case_bool_decide as Hc; [done|].
  intros [Hv ->]%equipment_save_Return. split; [lia|done].
Qed.

Lemma increaseAvailable_Return coll id e count coll' :
  increaseAvailable coll id e count = Return coll' →
  available e + default 1 count ≤ quantity e
  ∧ validate (set_available e (available e + default 1 count)) = []
  ∧ coll' = <[id := set_available e (available e + default 1 count)]> coll.
Proof.
  unfold increaseAvailable. case_bool_decide as Hc; [done|].
  intros [Hv ->]%equipment_save_Return. split; [lia|done].
Qed.

(** X1. [decreaseAvailable] throws "Not enough available quantity" when fewer
    than [count] units are available.  Whenever it returns, it has stored
    the item with [available - count], and that item is within the bounds:
    [0 ≤ available - count ≤ quantity] and [quantity ≥ 1], whatever the sign
    of [count]. *)
Theorem decreaseAvailable_effect coll id e count :
  let c := default 1 count in
  (available e < c →
   decreaseAvailable coll id e count
   = Throw (Error "Not enough available quantity"))
  ∧ (∀ coll', decreaseAvailable coll id e count = Return coll' →
       c ≤ available e
       ∧ coll' = <[id := set_available e (available e - c)]> coll
       ∧ 0 ≤ available e - c ≤ quantity e
       ∧ 1 ≤ quantity e).
Proof.
  intros c. split.
  - intros Hlt. unfold decreaseAvailable. fold c.
    by rewrite bool_decide_eq_true_2.
  - intros coll' (Hc & Hv & ->)%decreaseAvailable_Return.
    apply validate_bounds in Hv. simpl in Hv. fold c in Hc, Hv.
    split; [done|]. split; [done|]. lia.
Qed.

(** X2. [increaseAvailable] throws "Cannot return more than total quantity"
    when [available + count] would exceed [quantity].  Whenever it returns,
    it has stored the item with [available + count], and that item is within
    the bounds. *)
Theorem increaseAvailable_effect coll id e count :
  let c := default 1 count in
  (available e + c > quantity e →
   increaseAvailable coll id e count
   = Throw (Error "Cannot return more than total quantity"))
  ∧ (∀ coll', increaseAvailable coll id e count = Return coll' →
       available e + c ≤ quantity e
       ∧ coll' = <[id := set_available e (available e + c)]> coll
       ∧ 0 ≤ available e + c ≤ quantity e
       ∧ 1 ≤ quantity e).
Proof.
  intros c. split.
  - intros Hlt. unfold increaseAvailable. fold c.
    by rewrite bool_decide_eq_true_2.
  - intros coll' (Hc & Hv & ->)%increaseAvailable_Return.
    apply validate_bounds in Hv. simpl in Hv. fold c in Hc, Hv.
    split; [done|]. split; [done|]. lia.
Qed.

(** X3. Borrowing and returning the same count on a valid item is a round trip:
    when [decreaseAvailable(count)] returns, [increaseAvailable(count)] on
    the stored item returns too and stores the original item again. *)
Theorem decrease_then_increase coll id e count coll' :
  validate e = [] →
  decreaseAvailable coll id e count = Return coll' →
  ∃ e', coll' !! id = Some e'
    ∧ available e' = available e - default 1 count
    ∧ increaseAvailable coll' id e' count = Return (<[id := e]> coll).
Proof.
  intros Hv (Hc & _ & ->)%decreaseAvailable_Return.
  eexists. split; [apply lookup_insert_eq|]. split; [done|].
  unfold increaseAvailable. simpl.
  destruct (validate_bounds e Hv) as [Hinv _].
  rewrite bool_decide_eq_false_2 by lia.
  rewrite set_available_set.
  replace (available e - default 1 count + default 1 count)
    with (available e) by lia.
  rewrite LedgerProps.set_available_id. unfold save. rewrite Hv.
  by rewrite insert_insert_eq.
Qed.

End ModelProps.

Module ModelWitness.
Import Scenario EquipmentModel.

Lemma decreaseAvailable_effect_witness :
  decreaseAvailable (equipments (db_stock 5 2)) item (basketballs 5 2) (Some 3)
  = Throw (Error "Not enough available quantity")
  ∧ decreaseAvailable (equipments (db_stock 5 5)) item (basketballs 5 5)
      (Some 3) = Return {[ item := basketballs 5 2 ]}
  ∧ 0 ≤ available (basketballs 5 5) - 3 ≤ quantity (basketballs 5 5).
Proof.
  assert (Hdec : decreaseAvailable (equipments (db_stock 5 5)) item
                   (basketballs 5 5) (Some 3)
                 = Return {[ item := basketballs 5 2 ]}) by (by vm_compute).
  split; [|split; [exact Hdec|]].
  - apply (ModelProps.decreaseAvailable_effect _ item (basketballs 5 2)
             (Some 3)). simpl. lia.
  - destruct (ModelProps.decreaseAvailable_effect
                (equipments (db_stock 5 5)) item (basketballs 5 5) (Some 3))
      as [_ Heff].
    destruct (Heff _ Hdec) as (_ & _ & Hbounds & _). exact Hbounds.
Defined.

Lemma increaseAvailable_effect_witness :
  increaseAvailable (equipments (db_stock 5 5)) item (basketballs 5 5) None
  = Throw (Error "Cannot return more than total quantity")
  ∧ increaseAvailable (equipments (db_stock 5 2)) item (basketballs 5 2)
      (Some 3) = Return {[ item := basketballs 5 5 ]}
  ∧ 0 ≤ available (basketballs 5 2) + 3 ≤ quantity (basketballs 5 2).
Proof.
  assert (Hinc : increaseAvailable (equipments (db_stock 5 2)) item
                   (basketballs 5 2) (Some 3)
                 = Return {[ item := basketballs 5 5 ]}) by (by vm_compute).
  split; [|split; [exact Hinc|]].
  - apply (ModelProps.increaseAvailable_effect _ item (basketballs 5 5)
             None). simpl. lia.
  - destruct (ModelProps.increaseAvailable_effect
                (equipments (db_stock 5 2)) item (basketballs 5 2) (Some 3))
      as [_ Heff].
    destruct (Heff _ Hinc) as (_ & _ & Hbounds & _). exact Hbounds.
Defined.

Lemma decrease_then_increase_witness :
  ∃ e', ({[ item := basketballs 5 2 ]} : gmap ObjectId Equipment) !! item
        = Some e'
    ∧ available e' = 2
    ∧ increaseAvailable {[ item := basketballs 5 2 ]} item e' (Some 3)
      = Return {[ item := basketballs 5 5 ]}.
Proof.
  destruct (ModelProps.decrease_then_increase
              {[ item := basketballs 5 5 ]} item (basketballs 5 5) (Some 3)
              {[ item := basketballs 5 2 ]})
    as (e' & He' & Ha & Hinc); [by vm_compute | by vm_compute |].
  exists e'. split; [exact He'|]. split; [exact Ha|].
  etrans; [exact Hinc|]. by vm_compute.
Defined.

End ModelWitness.

(** ** Adding, updating and deleting equipment *)

Module EquipmentProps.
Import EquipmentModel EquipmentController.

Lemma fresh_lookup {A} (coll : gmap ObjectId A) :
  coll !! fresh (dom coll) = None.
Proof. apply not_elem_of_dom, is_fresh. Qed.

(** X4. [addEquipment] either answers 201 or leaves the database as it was.  On
    201 it has stored one new item, under an id that was free: every item
    that existed is still there unchanged, the requests and users are
    untouched, and the new item passes the schema's validation, with the
    body's quantity and available count, [0 ≤ available ≤ quantity] and
    [quantity ≥ 1], and the body's name trimmed. *)
Theorem addEquipment_effect db body :
  let answer := addEquipment db body in
  (code answer.1 ≠ 201 → answer.2 = db)
  ∧ (code answer.1 = 201 →
     ∃ id e,
       equipments db !! id = None
       ∧ equipments answer.2 = <[id := e]> (equipments db)
       ∧ requests answer.2 = requests db
       ∧ users answer.2 = users db
       ∧ validate e = []
       ∧ b_quantity body = Some (quantity e)
       ∧ b_available body = Some (available e)
       ∧ name e = trim (default "" (b_name body))
       ∧ 0 ≤ available e ≤ quantity e
       ∧ 1 ≤ quantity e).
Proof.
  intros answer. unfold answer, addEquipment. clear answer.
  destruct (_ || _) eqn:Hmissing; [by split|].
  destruct (b_available body) as [a|] eqn:Ha; [|by split].
  case_bool_decide as Hgt; [by split|].
  unfold create.
  destruct (save _ _ _) as [?|coll] eqn:Hsave; [by split|].
  apply ModelProps.equipment_save_Return in Hsave as [Hv ->]. simpl.
  split; [done|]. intros _.
  exists (fresh (dom (equipments db))). eexists.
  split; [apply fresh_lookup|]. split; [done|].
  split; [done|]. split; [done|]. split; [exact Hv|].
  assert (Hq : b_quantity body = Some (default 0 (b_quantity body))).
  { destruct (b_quantity body); [done|].
    simpl in Hmissing. by rewrite !orb_true_r in Hmissing. }
  split; [exact Hq|]. split; [done|]. split; [done|].
  apply ModelProps.validate_bounds in Hv. unfold cast in *. simpl in *. lia.
Qed.

(** [updateEquipment] answers 404 for an unknown id, and 400 when the
    resulting pair has [available > quantity], where a number the body lacks
    is the stored item's; every answer other than 200 leaves the database as
    it was. *)
Lemma updateEquipment_refusals db id body :
  (equipments db !! id = None →
   updateEquipment db id body = (not_found "Equipment not found", db))
  ∧ (∀ e, equipments db !! id = Some e →
       default (available e) (b_available body)
       > default (quantity e) (b_quantity body) →
       updateEquipment db id body
       = (bad_request "Available quantity cannot exceed total quantity", db))
  ∧ (code (updateEquipment db id body).1 ≠ 200 →
     (updateEquipment db id body).2 = db).
Proof.
  unfold updateEquipment. split; [|split].
  - by intros ->.
  - intros e -> Hgt. by rewrite bool_decide_eq_true_2.
  - repeat (case_match; simpl; try done).
Qed.

(** X5. [updateEquipment] on a body whose [quantity] and [available], where
    it has them, are numbers (the bodies of [Body]; given as strings the
    handler compares them as strings, which this does not cover).  It
    touches one item only: the requests and the users are untouched, no item
    appears or disappears, every other item is unchanged; on 200 the item's
    numbers are the body's where it gives them and the stored ones
    otherwise, with [available ≤ quantity], its name is the body's name
    trimmed where the body has one, and a body without fields stores the
    item as it was. *)
Theorem updateEquipment_frame db id body :
  let answer := updateEquipment db id body in
  requests answer.2 = requests db
  ∧ users answer.2 = users db
  ∧ dom (equipments answer.2) = dom (equipments db)
  ∧ (∀ j, j ≠ id → equipments answer.2 !! j = equipments db !! j)
  ∧ (code answer.1 = 200 →
     ∃ e e', equipments db !! id = Some e
       ∧ equipments answer.2 !! id = Some e'
       ∧ quantity e' = default (quantity e) (b_quantity body)
       ∧ available e' = default (available e) (b_available body)
       ∧ available e' ≤ quantity e'
       ∧ name e' = (if truthy (b_name body)
                    then trim (default "" (b_name body)) else name e)
       ∧ (body = mkBody None None None None None None None → e' = e)).
Proof.
  intros answer. unfold answer, updateEquipment. clear answer.
  destruct (equipments db !! id) as [e|] eqn:He; [|by split_and!].
  case_bool_decide as Hgt; [by split_and!|]. simpl. split_and!; try done.
  - by apply dom_insert_lookup_L.
  - intros j Hj. by rewrite lookup_insert_ne.
  - intros _. exists e, (apply_update body e).
    rewrite lookup_insert_eq. split; [done|]. split; [done|].
    split; [done|]. split; [done|]. split; [simpl; lia|]. split; [done|].
    intros ->. by destruct e.
Qed.

(** X6. Repeating an update changes nothing more: when [updateEquipment] has
    answered 200, the same call on the resulting database gives the same
    answer and the same database. *)
Theorem updateEquipment_idempotent db id body :
  let once := updateEquipment db id body in
  code once.1 = 200 → updateEquipment once.2 id body = once.
Proof.
  intros once. unfold once, updateEquipment. clear once.
  destruct (equipments db !! id) as [e|] eqn:He; [|done].
  case_bool_decide as Hgt; [done|]. intros _. simpl.
  rewrite lookup_insert_eq.
  assert (Ha : default (available (apply_update body e)) (b_available body)
               = default (available e) (b_available body))
    by (unfold apply_update; simpl; by destruct (b_available body)).
  assert (Hq : default (quantity (apply_update body e)) (b_quantity body)
               = default (quantity e) (b_quantity body))
    by (unfold apply_update; simpl; by destruct (b_quantity body)).
  rewrite Ha, Hq, bool_decide_eq_false_2 by done.
  rewrite insert_insert_eq. do 3 f_equal.
  unfold apply_update. simpl.
  destruct (truthy (b_name body)), (truthy (b_category body)),
    (truthy (b_description body)), (truthy (b_condition body)),
    (truthy (b_location body)), (b_quantity body), (b_available body); done.
Qed.

(** X7. [deleteEquipment] answers 200 exactly when the item exists and 404
    exactly when it does not; afterwards the item is gone, every other item
    is unchanged, and the requests, also those for the deleted item, and the
    users are untouched; a second deletion answers 404. *)
Theorem deleteEquipment_effect db id :
  let answer := deleteEquipment db id in
  requests answer.2 = requests db
  ∧ users answer.2 = users db
  ∧ equipments answer.2 !! id = None
  ∧ (∀ j, j ≠ id → equipments answer.2 !! j = equipments db !! j)
  ∧ (code answer.1 = 200 ↔ is_Some (equipments db !! id))
  ∧ (code answer.1 = 404 ↔ equipments db !! id = None)
  ∧ deleteEquipment answer.2 id = (not_found "Equipment not found", answer.2).
Proof.
  intros answer. unfold answer, deleteEquipment. clear answer.
  destruct (equipments db !! id) as [e|] eqn:He; simpl.
  - rewrite lookup_delete_eq. split_and!; try done.
    intros j Hj. by rewrite lookup_delete_ne.
  - rewrite He. by split_and!.
Qed.

(** X8. Once an item is deleted, nothing can be borrowed of it: a creation
    request with a valid payload is answered 404, and a pending request for
    it can no longer be approved (400); neither changes the database. *)
Theorem deleted_equipment_unusable clock db id student sname semail ename
    notes' q from to requestId r approvalNotes' adminId :
  let db' := (deleteEquipment db id).2 in
  (1 ≤ q → today clock ≤ from → from < to → truthy notes' = true →
   RequestController.createRequest clock db'
     (payload student sname semail id ename q from to notes')
   = (not_found "Equipment not found", db'))
  ∧ (requests db !! requestId = Some r →
     RequestModel.status r = RequestModel.pending →
     RequestModel.equipmentId r = id →
     RequestController.approveRequest clock db' requestId approvalNotes'
       adminId
     = (bad_request "Requested quantity no longer available", db')).
Proof.
  intros db'.
  assert (Hreq : requests db' = requests db)
    by (unfold db', deleteEquipment; by case_match).
  assert (Hgone : equipments db' !! id = None).
  { unfold db', deleteEquipment.
    destruct (equipments db !! id) eqn:He; simpl; [|done].
    apply lookup_delete_eq. }
  split.
  - intros Hq Hfrom Hto Hnotes.
    rewrite CreateRequestProps.createRequest_validated by done.
    unfold RequestController.check_equipment. by rewrite Hgone.
  - intros Hr Hs He. unfold RequestController.approveRequest.
    rewrite Hreq, Hr, Hs, He, Hgone. done.
Qed.

End EquipmentProps.

Module EquipmentWitness.
Import Scenario Samples EquipmentModel EquipmentController.

(** Three tripods, all available, are added to the basketballs; four
    available of three are refused. *)
Lemma addEquipment_effect_witness :
  (addEquipment (db_stock 5 5) (tripods (Some 3) (Some 4))).2 = db_stock 5 5
  ∧ ∃ id e,
      equipments (db_stock 5 5) !! id = None
      ∧ equipments (addEquipment (db_stock 5 5)
                      (tripods (Some 3) (Some 3))).2
        = <[id := e]> (equipments (db_stock 5 5))
      ∧ name e = "Tripod"
      ∧ 0 ≤ available e ≤ quantity e.
Proof.
  destruct (EquipmentProps.addEquipment_effect (db_stock 5 5)
              (tripods (Some 3) (Some 4))) as [Hrefused _].
  destruct (EquipmentProps.addEquipment_effect (db_stock 5 5)
              (tripods (Some 3) (Some 3))) as [_ Hadded].
  split; [apply Hrefused; by vm_compute|].
  destruct Hadded as (id & e & Hfree & Hstored & _ & _ & _ & _ & _ & Hname
                      & Hbounds & _); [by vm_compute|].
  exists id, e. split; [exact Hfree|]. split; [exact Hstored|].
  split; [|exact Hbounds]. etrans; [exact Hname|]. by vm_compute.
Defined.

Lemma updateEquipment_refusals_witness :
  updateEquipment (db_stock 5 5) tripod (patch_available 1)
  = (not_found "Equipment not found", db_stock 5 5)
  ∧ updateEquipment (db_stock 5 5) item (patch_quantity 4)
    = (bad_request "Available quantity cannot exceed total quantity",
       db_stock 5 5).
Proof.
  destruct (EquipmentProps.updateEquipment_refusals (db_stock 5 5) tripod
              (patch_available 1)) as [Hunknown _].
  destruct (EquipmentProps.updateEquipment_refusals (db_stock 5 5) item
              (patch_quantity 4)) as (_ & Hexceeds & _).
  split; [apply Hunknown; by vm_compute|].
  apply (Hexceeds (basketballs 5 5)); [by vm_compute|]. simpl. lia.
Defined.

Lemma updateEquipment_frame_witness :
  ∃ e', equipments (updateEquipment (db_with 5 2 3 RequestModel.approved)
                      item (patch_quantity 8)).2 !! item = Some e'
    ∧ quantity e' = 8
    ∧ available e' = 2.
Proof.
  destruct (EquipmentProps.updateEquipment_frame
              (db_with 5 2 3 RequestModel.approved) item (patch_quantity 8))
    as (_ & _ & _ & _ & Hstored).
  destruct Hstored as (e & e' & He & He' & Hq & Ha & _); [by vm_compute|].
  assert (Some e = Some (basketballs 5 2)) as [= ->]
    by (rewrite <-He; by vm_compute).
  exists e'. split; [exact He'|]. split; [exact Hq | exact Ha].
Defined.

Lemma updateEquipment_idempotent_witness :
  updateEquipment
    (updateEquipment (db_stock 5 5) item (patch_available 4)).2 item
    (patch_available 4)
  = updateEquipment (db_stock 5 5) item (patch_available 4).
Proof.
  apply (EquipmentProps.updateEquipment_idempotent (db_stock 5 5) item
           (patch_available 4)). by vm_compute.
Defined.

Lemma deleteEquipment_effect_witness :
  code (deleteEquipment (db_with 5 2 3 RequestModel.approved) item).1 = 200
  ∧ requests (deleteEquipment (db_with 5 2 3 RequestModel.approved) item).2
    = requests (db_with 5 2 3 RequestModel.approved)
  ∧ code (deleteEquipment (db_stock 5 5) tripod).1 = 404.
Proof.
  destruct (EquipmentProps.deleteEquipment_effect
              (db_with 5 2 3 RequestModel.approved) item)
    as (Hreq & _ & _ & _ & Hok & _).
  destruct (EquipmentProps.deleteEquipment_effect (db_stock 5 5) tripod)
    as (_ & _ & _ & _ & _ & Hnone & _).
  split; [apply Hok; by eexists|]. split; [exact Hreq|].
  apply Hnone. by vm_compute.
Defined.

(** The basketballs are deleted while request A is pending. *)
Lemma deleted_equipment_unusable_witness :
  let db' := (deleteEquipment (db_with 5 5 3 RequestModel.pending) item).2 in
  RequestController.createRequest clock db' (body_for 1 nov10 nov15)
  = (not_found "Equipment not found", db')
  ∧ RequestController.approveRequest clock db' requestA None admin
    = (bad_request "Requested quantity no longer available", db').
Proof.
  intros db'.
  destruct (EquipmentProps.deleted_equipment_unusable clock
              (db_with 5 5 3 RequestModel.pending) item student
              (Some "Ann Lee") (Some "ann@school.org") (Some "Basketball")
              (Some "Practice") 1 nov10 nov15 requestA
              (request_for 3 nov10 nov15 RequestModel.pending) None admin)
    as [Hcreate Happrove].
  split.
  - apply Hcreate; by vm_compute.
  - apply Happrove; by vm_compute.
Defined.

End EquipmentWitness.

(** ** What the lifecycle handlers do, read off their answers *)

Module HandlerProps.
Import RequestModel RequestController Answers.

Lemma save_request_Return coll id r coll' :
  save coll id r = Return coll' → Spec.valid r ∧ coll' = <[id := r]> coll.
Proof.
  unfold save, Spec.valid. destruct (validate r); [|done]. by intros [= <-].
Qed.

(** An [$inc] on an item that exists. *)
Lemma inc_available_insert coll id d e :
  coll !! id = Some e →
  EquipmentModel.inc_available coll id d
  = <[id := EquipmentModel.set_available e (EquipmentModel.available e + d)]>
      coll.
Proof.
  intros He. unfold EquipmentModel.inc_available. apply map_eq. intros j.
  rewrite lookup_alter, lookup_insert. case_decide; [|done].
  subst j. by rewrite He.
Qed.

(** The answers 200, taken apart. *)
Lemma approveRequest_200 clock db requestId approvalNotes' adminId :
  code (approveRequest clock db requestId approvalNotes' adminId).1 = 200 →
  ∃ r e,
    requests db !! requestId = Some r
    ∧ status r = pending
    ∧ equipments db !! equipmentId r = Some e
    ∧ quantity r ≤ EquipmentModel.available e
    ∧ Spec.valid (approved_by r adminId (adminName_of db adminId)
                    (default "" approvalNotes') (now clock))
    ∧ approveRequest clock db requestId approvalNotes' adminId
      = (ok "Request approved successfully",
         mkDb
           (EquipmentModel.inc_available (equipments db) (equipmentId r)
              (- quantity r))
           (<[requestId :=
                approved_by r adminId (adminName_of db adminId)
                  (default "" approvalNotes') (now clock)]> (requests db))
           (users db)).
Proof.
  unfold approveRequest, adminName_of.
  destruct (requests db !! requestId) as [r|] eqn:Hr; [|done].
  case_bool_decide as Hs; [done|].
  destruct (equipments db !! equipmentId r) as [e|] eqn:He; [|done].
  case_bool_decide as Hq; [done|]. unfold approve.
  destruct (save _ _ _) as [?|coll] eqn:Hsave; [done|]. intros _.
  apply save_request_Return in Hsave as [Hv ->]. simpl.
  exists r, e. split_and!; try done. lia.
Qed.

Lemma markReturned_200 clock db requestId condition returnNotes' :
  code (markReturned clock db requestId condition returnNotes').1 = 200 →
  ∃ r,
    requests db !! requestId = Some r
    ∧ status r = approved
    ∧ Spec.valid (returned_in r (default "Good" condition)
                    (default "" returnNotes') (now clock))
    ∧ markReturned clock db requestId condition returnNotes'
      = (ok "Equipment marked as returned successfully",
         mkDb
           (match equipments db !! equipmentId r with
            | Some _ =>
              EquipmentModel.inc_available (equipments db) (equipmentId r)
                (quantity r)
            | None => equipments db
            end)
           (<[requestId :=
                returned_in r (default "Good" condition)
                  (default "" returnNotes') (now clock)]> (requests db))
           (users db)).
Proof.
  unfold markReturned.
  destruct (requests db !! requestId) as [r|] eqn:Hr; [|done].
  case_bool_decide as Hs; [done|]. unfold RequestModel.markReturned.
  destruct (save _ _ _) as [?|coll] eqn:Hsave; [done|]. intros _.
  apply save_request_Return in Hsave as [Hv Hcoll].
  exists r. split; [done|]. split; [done|]. split; [done|].
  destruct (equipments db !! equipmentId r); simpl in *; by subst coll.
Qed.

Lemma rejectRequest_200 db requestId reason :
  code (rejectRequest db requestId reason).1 = 200 →
  ∃ r,
    requests db !! requestId = Some r
    ∧ status r = pending
    ∧ Spec.valid (rejected_for r (default "" reason))
    ∧ rejectRequest db requestId reason
      = (ok "Request rejected successfully",
         mkDb (equipments db)
           (<[requestId := rejected_for r (default "" reason)]> (requests db))
           (users db)).
Proof.
  unfold rejectRequest.
  destruct (requests db !! requestId) as [r|] eqn:Hr; [|done].
  case_bool_decide as Hs; [done|]. unfold reject.
  destruct (save _ _ _) as [?|coll] eqn:Hsave; [done|]. intros _.
  apply save_request_Return in Hsave as [Hv ->]. simpl.
  exists r. by split_and!.
Qed.

(** What the handlers do to the request collection when they do not answer
    200: nothing. *)
Lemma approveRequest_not_200 clock db requestId approvalNotes' adminId :
  code (approveRequest clock db requestId approvalNotes' adminId).1 ≠ 200 →
  requests (approveRequest clock db requestId approvalNotes' adminId).2
  = requests db.
Proof. unfold approveRequest. repeat (case_match; simpl; try done). Qed.

Lemma markReturned_not_200 clock db requestId condition returnNotes' :
  code (markReturned clock db requestId condition returnNotes').1 ≠ 200 →
  requests (markReturned clock db requestId condition returnNotes').2
  = requests db.
Proof.
  unfold markReturned.
  repeat (case_match; simpl; try done); by subst.
Qed.

Lemma rejectRequest_not_200 db requestId reason :
  code (rejectRequest db requestId reason).1 ≠ 200 →
  (rejectRequest db requestId reason).2 = db.
Proof. unfold rejectRequest. repeat (case_match; simpl; try done). Qed.

(** X9. [approveRequest] answers 404 for an unknown request.  For a pending
    request it answers 400 "Requested quantity no longer available" when the
    equipment no longer exists or has fewer available units than the request
    asks for.  Both leave the database as it was, as every answer 400 or 404
    does. *)
Theorem approveRequest_refusals clock db requestId approvalNotes' adminId :
  let answer := approveRequest clock db requestId approvalNotes' adminId in
  (requests db !! requestId = None →
   answer = (not_found "Request not found", db))
  ∧ (∀ r, requests db !! requestId = Some r → status r = pending →
       (equipments db !! equipmentId r = None
        ∨ ∃ e, equipments db !! equipmentId r = Some e
               ∧ EquipmentModel.available e < quantity r) →
       answer = (bad_request "Requested quantity no longer available", db))
  ∧ (code answer.1 = 400 ∨ code answer.1 = 404 → answer.2 = db).
Proof.
  intros answer. unfold answer, approveRequest. clear answer. split_and!.
  - by intros ->.
  - intros r -> -> [->|(e & -> & Hlt)]; simpl; [done|].
    by rewrite bool_decide_eq_true_2.
  - repeat (case_match; simpl; try done); intros [[=]|[=]].
Qed.

(** X10. Whenever [approveRequest] answers 200, the request was pending and its
    equipment held at least the requested units; that item's [available] has
    gone down by exactly the request's quantity, every other item is
    unchanged, and the request is stored as approved with the approver, the
    date and the notes, what it is about unchanged; no other request and no
    user has changed. *)
Theorem approveRequest_effect clock db requestId approvalNotes' adminId :
  let answer := approveRequest clock db requestId approvalNotes' adminId in
  code answer.1 = 200 →
  ∃ r e r',
    requests db !! requestId = Some r
    ∧ status r = pending
    ∧ equipments db !! equipmentId r = Some e
    ∧ quantity r ≤ EquipmentModel.available e
    ∧ equipments answer.2
      = <[equipmentId r :=
            EquipmentModel.set_available e
              (EquipmentModel.available e - quantity r)]> (equipments db)
    ∧ requests answer.2 = <[requestId := r']> (requests db)
    ∧ users answer.2 = users db
    ∧ Loans.subject r' = Loans.subject r
    ∧ status r' = approved
    ∧ approvedBy r' = Some adminId
    ∧ approvalDate r' = Some (now clock)
    ∧ approvalNotes r' = Some (default "" approvalNotes')
    ∧ Spec.valid r'.
Proof.
  intros answer Hcode. unfold answer.
  destruct (approveRequest_200 _ _ _ _ _ Hcode)
    as (r & e & Hr & Hs & He & Hq & Hv & ->).
  exists r, e. eexists. simpl. split_and!; try done.
  by rewrite (inc_available_insert _ _ _ e).
Qed.

(** X11. Whenever [markReturned] answers 200, the request was approved; when its
    equipment exists, that item's [available] has gone up by exactly the
    request's quantity, and otherwise the ledger is unchanged; the request is
    stored as returned with the date, the condition and the notes, what it
    is about and its approval unchanged. *)
Theorem markReturned_effect clock db requestId condition returnNotes' :
  let answer := markReturned clock db requestId condition returnNotes' in
  code answer.1 = 200 →
  ∃ r r',
    requests db !! requestId = Some r
    ∧ status r = approved
    ∧ equipments answer.2
      = match equipments db !! equipmentId r with
        | Some e =>
          <[equipmentId r :=
              EquipmentModel.set_available e
                (EquipmentModel.available e + quantity r)]> (equipments db)
        | None => equipments db
        end
    ∧ requests answer.2 = <[requestId := r']> (requests db)
    ∧ users answer.2 = users db
    ∧ Loans.subject r' = Loans.subject r
    ∧ status r' = returned
    ∧ (approvedBy r', approvedByName r', approvalDate r', approvalNotes r')
      = (approvedBy r, approvedByName r, approvalDate r, approvalNotes r)
    ∧ actualReturnDate r' = Some (now clock)
    ∧ returnedCondition r' = Some (default "Good" condition)
    ∧ returnNotes r' = Some (default "" returnNotes')
    ∧ Spec.valid r'.
Proof.
  intros answer Hcode. unfold answer.
  destruct (markReturned_200 _ _ _ _ _ Hcode) as (r & Hr & Hs & Hv & ->).
  exists r. eexists. simpl. split_and!; try done.
  destruct (equipments db !! equipmentId r) as [e|] eqn:He; [|done].
  by apply inc_available_insert.
Qed.

(** X12. Whenever [rejectRequest] answers 200, the request was pending and is
    stored as rejected with the reason, what it is about unchanged; nothing
    else has changed.  An unknown request is answered 404, and every answer
    other than 200 leaves the database as it was. *)
Theorem rejectRequest_effect db requestId reason :
  let answer := rejectRequest db requestId reason in
  (code answer.1 = 200 →
   ∃ r r',
     requests db !! requestId = Some r
     ∧ status r = pending
     ∧ answer.2 = mkDb (equipments db) (<[requestId := r']> (requests db))
                    (users db)
     ∧ Loans.subject r' = Loans.subject r
     ∧ status r' = rejected
     ∧ rejectionReason r' = Some (default "" reason)
     ∧ Spec.valid r')
  ∧ (requests db !! requestId = None →
     answer = (not_found "Request not found", db))
  ∧ (code answer.1 ≠ 200 → answer.2 = db).
Proof.
  intros answer. unfold answer. clear answer. split_and!.
  - intros Hcode.
    destruct (rejectRequest_200 _ _ _ Hcode) as (r & Hr & Hs & Hv & ->).
    exists r. eexists. by split_and!.
  - unfold rejectRequest. by intros ->.
  - apply rejectRequest_not_200.
Qed.

End HandlerProps.

(** ** What a successful creation has checked and stored *)

Module CreationProps.
Import RequestModel RequestController Answers.

(** The overlap query throws on an Invalid Date: nothing is created. *)
Lemma check_equipment_invalid_date clock db body student equipment q
    fromDate toDate notes' :
  fromDate = None ∨ toDate = None →
  code (check_equipment clock db body student equipment q fromDate toDate
          notes').1 ≠ 201.
Proof.
  intros Hinvalid. unfold check_equipment, check_overlapping_requests.
  repeat (case_match; simpl; try done); by destruct Hinvalid.
Qed.

(** The answer 201, taken apart. *)
Lemma createRequest_201 clock db body :
  code (createRequest clock db body).1 = 201 →
  ∃ student equipment q from to e,
    c_studentId body = Some student
    ∧ c_equipmentId body = Some equipment
    ∧ c_quantity body = QuantityInteger q
    ∧ c_borrowFromDate body = DateGiven (Some from)
    ∧ c_borrowToDate body = DateGiven (Some to)
    ∧ (1 ≤ q ∧ today clock ≤ from ∧ from < to)
    ∧ equipments db !! equipment = Some e
    ∧ q ≤ EquipmentModel.available e
    ∧ Spec.committed (requests db) equipment from to + q
      ≤ EquipmentModel.quantity e
    ∧ Spec.valid (document_of clock body student equipment q from to)
    ∧ createRequest clock db body
      = (created "Borrow request submitted successfully",
         mkDb (equipments db)
           (<[fresh (dom (requests db)) :=
                document_of clock body student equipment q from to]>
              (requests db))
           (users db)).
Proof.
  unfold createRequest.
  destruct (c_studentId body) as [student|] eqn:Hstudent; [|done].
  destruct (c_equipmentId body) as [equipment|] eqn:Hequipment; [|done].
  destruct (c_quantity body) as [| |q] eqn:Hq;
    [done | by destruct (_ || _) |].
  destruct (c_borrowFromDate body) as [|[from|]] eqn:Hfrom;
    destruct (c_borrowToDate body) as [|[to|]] eqn:Hto;
    simpl; rewrite ?orb_true_r; simpl; try done;
    destruct (bool_decide (q ≠ 0)); simpl;
    destruct (truthy (c_notes body)); simpl; try done;
    case_bool_decide as Hq1; try done; simpl;
    try (by case_bool_decide);
    try (case_bool_decide; [done|]; intros Hcode;
         by apply check_equipment_invalid_date in Hcode; [|right]);
    try (intros Hcode;
         by apply check_equipment_invalid_date in Hcode; [|left]).
  case_bool_decide as Hpast; [done|].
  case_bool_decide as Horder; [done|].
  unfold check_equipment.
  destruct (equipments db !! equipment) as [e|] eqn:He; [|done].
  case_bool_decide as Hzero; [done|]. case_bool_decide as Havail; [done|].
  unfold check_overlapping_requests.
  rewrite OverlapProps.total_is_committed.
  case_bool_decide as Hover; [done|].
  unfold create_request, create.
  destruct (save _ _ _) as [[]|coll] eqn:Hsave; [done..|]. intros _.
  apply HandlerProps.save_request_Return in Hsave as [Hv ->].
  exists student, equipment, q, from, to, e.
  split_and!; try done; lia.
Qed.

(** X13. Whenever [createRequest] answers 201: the body named a student and an
    equipment item that exists, an integer quantity of at least 1 and two
    valid dates with [today ≤ from < to]; the item had at least that many
    units available, and the units committed over the range plus the
    quantity do not exceed the item's total.  One request has been stored,
    under an id that was free: pending, with the body's fields, requested
    now, every status-specific field null, and valid for the schema.  The
    ledger, the users and every other request are untouched. *)
Theorem createRequest_effect clock db body :
  let answer := createRequest clock db body in
  code answer.1 = 201 →
  ∃ student equipment q from to e id r',
    c_studentId body = Some student
    ∧ c_equipmentId body = Some equipment
    ∧ c_quantity body = QuantityInteger q
    ∧ c_borrowFromDate body = DateGiven (Some from)
    ∧ c_borrowToDate body = DateGiven (Some to)
    ∧ 1 ≤ q ∧ today clock ≤ from ∧ from < to
    ∧ equipments db !! equipment = Some e
    ∧ q ≤ EquipmentModel.available e
    ∧ Spec.committed (requests db) equipment from to + q
      ≤ EquipmentModel.quantity e
    ∧ requests db !! id = None
    ∧ requests answer.2 !! id = Some r'
    ∧ (∀ j, j ≠ id → requests answer.2 !! j = requests db !! j)
    ∧ equipments answer.2 = equipments db
    ∧ users answer.2 = users db
    ∧ r' = mkRequest student (default "" (c_studentName body))
             (default "" (c_studentEmail body)) equipment
             (default "" (c_equipmentName body)) q from to (now clock)
             (default "" (c_notes body)) pending
             None None None None None None None None
    ∧ Spec.valid r'.
Proof.
  intros answer Hcode. unfold answer.
  destruct (createRequest_201 _ _ _ Hcode)
    as (student & equipment & q & from & to & e & Hs & He & Hq & Hf & Ht
        & (Hq1 & Hpast & Horder) & Hitem & Havail & Hcommitted & Hv & ->).
  exists student, equipment, q, from, to, e, (fresh (dom (requests db))).
  eexists. simpl. split_and!; try done.
  - apply EquipmentProps.fresh_lookup.
  - apply lookup_insert_eq.
  - intros j Hj. by rewrite lookup_insert_ne.
Qed.

End CreationProps.

(** ** What every handler keeps *)

Module InvariantProps.
Import RequestModel RequestController Answers.
Import SumProps HandlerProps CreationProps.

(** *** Requests only move along the lifecycle *)

Lemma requests_evolve_refl coll : Loans.requests_evolve coll coll.
Proof. intros id r Hr. exists r. split; [done|]. split; [done|by left]. Qed.

Lemma requests_evolve_eq coll coll' :
  coll' = coll → Loans.requests_evolve coll coll'.
Proof. intros ->. apply requests_evolve_refl. Qed.

Lemma requests_evolve_new coll id r :
  coll !! id = None → Loans.requests_evolve coll (<[id := r]> coll).
Proof.
  intros Hid j x Hx. exists x. rewrite lookup_insert_ne by congruence.
  split; [done|]. split; [done|by left].
Qed.

Lemma requests_evolve_step coll id r r' :
  coll !! id = Some r → Loans.evolves r r' →
  Loans.requests_evolve coll (<[id := r']> coll).
Proof.
  intros Hr Hstep j x Hx. destruct (decide (j = id)) as [->|Hne].
  - exists r'. rewrite lookup_insert_eq. by simplify_eq.
  - exists x. rewrite lookup_insert_ne by done.
    split; [done|]. split; [done|by left].
Qed.

(** X14. No handler deletes a request, changes what a request is about, or moves
    its status otherwise than along pending → approved, pending → rejected
    or approved → returned: after any call, every request that was stored is
    still stored, the same or one edge further.  The equipment handlers,
    deletion included, leave the requests as they are. *)
Theorem requests_only_evolve clock db body requestId approvalNotes' adminId
    reason condition returnNotes' id ebody :
  Loans.requests_evolve (requests db)
    (requests (createRequest clock db body).2)
  ∧ Loans.requests_evolve (requests db)
      (requests (approveRequest clock db requestId approvalNotes'
                   adminId).2)
  ∧ Loans.requests_evolve (requests db)
      (requests (rejectRequest db requestId reason).2)
  ∧ Loans.requests_evolve (requests db)
      (requests (markReturned clock db requestId condition returnNotes').2)
  ∧ requests (EquipmentController.addEquipment db ebody).2 = requests db
  ∧ requests (EquipmentController.updateEquipment db id ebody).2
    = requests db
  ∧ requests (EquipmentController.deleteEquipment db id).2 = requests db.
Proof.
  split_and!.
  - destruct (decide (code (createRequest clock db body).1 = 201))
      as [Hcode|Hcode].
    + destruct (createRequest_201 _ _ _ Hcode)
        as (?&?&?&?&?&?&_&_&_&_&_&_&_&_&_&_&->).
      apply requests_evolve_new, EquipmentProps.fresh_lookup.
    + apply requests_evolve_eq.
      by rewrite CreateRequestProps.createRequest_not_created.
  - destruct (decide (code (approveRequest clock db requestId approvalNotes'
                              adminId).1 = 200)) as [Hcode|Hcode].
    + destruct (approveRequest_200 _ _ _ _ _ Hcode)
        as (r & e & Hr & Hs & _ & _ & _ & ->).
      apply (requests_evolve_step _ _ r); [done|]. split; [done|].
      right. left. done.
    + apply requests_evolve_eq. by apply approveRequest_not_200.
  - destruct (decide (code (rejectRequest db requestId reason).1 = 200))
      as [Hcode|Hcode].
    + destruct (rejectRequest_200 _ _ _ Hcode) as (r & Hr & Hs & _ & ->).
      apply (requests_evolve_step _ _ r); [done|]. split; [done|].
      right. right. left. done.
    + apply requests_evolve_eq. by rewrite rejectRequest_not_200.
  - destruct (decide (code (markReturned clock db requestId condition
                              returnNotes').1 = 200)) as [Hcode|Hcode].
    + destruct (markReturned_200 _ _ _ _ _ Hcode) as (r & Hr & Hs & _ & ->).
      apply (requests_evolve_step _ _ r); [done|]. split; [done|].
      right. right. right. done.
    + apply requests_evolve_eq. by apply markReturned_not_200.
  - unfold EquipmentController.addEquipment.
    repeat (case_match; simpl; try done).
  - unfold EquipmentController.updateEquipment.
    repeat (case_match; simpl; try done).
  - unfold EquipmentController.deleteEquipment.
    repeat (case_match; simpl; try done).
Qed.

(** *** The ledger agrees with the approved loans *)

Lemma on_loan_replace coll id r r' e :
  coll !! id = Some r →
  Loans.on_loan (<[id := r']> coll) e
  = Loans.on_loan coll e
    - (if decide (equipmentId r = e ∧ status r = approved)
       then quantity r else 0)
    + (if decide (equipmentId r' = e ∧ status r' = approved)
       then quantity r' else 0).
Proof. intros Hr. unfold Loans.on_loan. by rewrite (sum_with_replace _ _ _ r). Qed.

Lemma on_loan_new coll id r' e :
  coll !! id = None → status r' = pending →
  Loans.on_loan (<[id := r']> coll) e = Loans.on_loan coll e.
Proof.
  intros Hid Hs. unfold Loans.on_loan. rewrite sum_with_insert by done.
  rewrite decide_False; [lia|]. intros [_ ?]. congruence.
Qed.

(** An answer that is neither a success nor a failed save leaves the
    database as it was. *)
Lemma approveRequest_refused clock db requestId approvalNotes' adminId :
  code (approveRequest clock db requestId approvalNotes' adminId).1 ≠ 200 →
  code (approveRequest clock db requestId approvalNotes' adminId).1 ≠ 500 →
  (approveRequest clock db requestId approvalNotes' adminId).2 = db.
Proof. unfold approveRequest. repeat (case_match; simpl; try done). Qed.

Lemma markReturned_refused clock db requestId condition returnNotes' :
  code (markReturned clock db requestId condition returnNotes').1 ≠ 200 →
  code (markReturned clock db requestId condition returnNotes').1 ≠ 500 →
  (markReturned clock db requestId condition returnNotes').2 = db.
Proof. unfold markReturned. repeat (case_match; simpl; try done). Qed.

Lemma consistent_approved db requestId r e r' :
  Loans.consistent db →
  requests db !! requestId = Some r → status r = pending →
  equipments db !! equipmentId r = Some e →
  equipmentId r' = equipmentId r → quantity r' = quantity r →
  status r' = approved →
  Loans.consistent
    (mkDb (EquipmentModel.inc_available (equipments db) (equipmentId r)
             (- quantity r))
       (<[requestId := r']> (requests db)) (users db)).
Proof.
  intros Hok Hr Hs He Heq Hq Hs' j item. simpl.
  rewrite (on_loan_replace _ _ r) by done. rewrite Hs, Hs', Heq, Hq.
  rewrite (decide_False (P := _ ∧ pending = approved)) by (by intros [_ ?]).
  unfold EquipmentModel.inc_available.
  intros [[<- (x & Hx & ->)]|[Hne Hitem]]%lookup_alter_Some.
  - assert (x = e) as -> by congruence. simpl.
    rewrite decide_True by done. specialize (Hok _ _ He). lia.
  - rewrite decide_False by (intros [? _]; congruence).
    specialize (Hok _ _ Hitem). lia.
Qed.

Lemma consistent_returned db requestId r r' :
  Loans.consistent db →
  requests db !! requestId = Some r → status r = approved →
  status r' = returned →
  Loans.consistent
    (mkDb
       (match equipments db !! equipmentId r with
        | Some _ =>
          EquipmentModel.inc_available (equipments db) (equipmentId r)
            (quantity r)
        | None => equipments db
        end)
       (<[requestId := r']> (requests db)) (users db)).
Proof.
  intros Hok Hr Hs Hs' j item. simpl.
  rewrite (on_loan_replace _ _ r) by done. rewrite Hs, Hs'.
  rewrite (decide_False (P := _ ∧ returned = approved)) by (by intros [_ ?]).
  destruct (equipments db !! equipmentId r) as [e|] eqn:He.
  - unfold EquipmentModel.inc_available.
    intros [[<- (x & Hx & ->)]|[Hne Hitem]]%lookup_alter_Some.
    + assert (x = e) as -> by congruence. simpl.
      rewrite decide_True by done. specialize (Hok _ _ He). lia.
    + rewrite decide_False by (intros [? _]; congruence).
      specialize (Hok _ _ Hitem). lia.
  - intros Hitem. rewrite decide_False by (intros [? _]; congruence).
    specialize (Hok _ _ Hitem). lia.
Qed.

(** X15. The ledger and the loans stay in step.  When, for every item,
    [available] plus the units held by approved requests is [quantity], the
    same holds after [createRequest] and after [rejectRequest], and after
    [approveRequest] and [markReturned] unless they answer 500 (the request
    could not be saved after the ledger was written). *)
Theorem consistency_kept clock db body requestId approvalNotes' adminId
    reason condition returnNotes' :
  Loans.consistent db →
  Loans.consistent (createRequest clock db body).2
  ∧ Loans.consistent (rejectRequest db requestId reason).2
  ∧ (code (approveRequest clock db requestId approvalNotes' adminId).1
     ≠ 500 →
     Loans.consistent
       (approveRequest clock db requestId approvalNotes' adminId).2)
  ∧ (code (markReturned clock db requestId condition returnNotes').1 ≠ 500 →
     Loans.consistent
       (markReturned clock db requestId condition returnNotes').2).
Proof.
  intros Hok. split_and!.
  - destruct (decide (code (createRequest clock db body).1 = 201))
      as [Hcode|Hcode].
    + destruct (createRequest_201 _ _ _ Hcode)
        as (?&?&?&?&?&?&_&_&_&_&_&_&_&_&_&_&->).
      intros j item Hitem. simpl in *.
      rewrite on_loan_new; [by apply Hok| |done].
      apply EquipmentProps.fresh_lookup.
    + by rewrite CreateRequestProps.createRequest_not_created.
  - destruct (decide (code (rejectRequest db requestId reason).1 = 200))
      as [Hcode|Hcode].
    + destruct (rejectRequest_200 _ _ _ Hcode) as (r & Hr & Hs & _ & ->).
      intros j item Hitem. simpl in *.
      rewrite (on_loan_replace _ _ r) by done. simpl. rewrite Hs.
      rewrite !decide_False by (by intros [_ ?]).
      specialize (Hok _ _ Hitem). lia.
    + by rewrite rejectRequest_not_200.
  - intros H500.
    destruct (decide (code (approveRequest clock db requestId approvalNotes'
                              adminId).1 = 200)) as [Hcode|Hcode].
    + destruct (approveRequest_200 _ _ _ _ _ Hcode)
        as (r & e & Hr & Hs & He & _ & _ & ->).
      by apply (consistent_approved _ _ r e).
    + by rewrite approveRequest_refused.
  - intros H500.
    destruct (decide (code (markReturned clock db requestId condition
                              returnNotes').1 = 200)) as [Hcode|Hcode].
    + destruct (markReturned_200 _ _ _ _ _ Hcode) as (r & Hr & Hs & _ & ->).
      by apply consistent_returned.
    + by rewrite markReturned_refused.
Qed.

(** *** No instant is overbooked *)

(** The committed quantity as a sum. *)
Lemma committed_sum coll e from to :
  Spec.committed coll e from to
  = sum_with
      (fun r => if decide (Spec.commits e from to r) then quantity r else 0)
      coll.
Proof.
  unfold Spec.committed, sum_with.
  induction coll as [|id r coll Hid IH] using map_ind.
  - by rewrite !map_fold_empty.
  - rewrite !map_fold_insert_L; [|intros; repeat case_decide; lia|done
      |intros; repeat case_decide; lia|done].
    rewrite IH. case_decide; lia.
Qed.

(** What is promised at an instant of a range is committed over the range. *)
Lemma load_le_committed coll e from to t :
  (∀ id r, coll !! id = Some r → 0 ≤ quantity r) →
  from ≤ t ≤ to →
  Loans.load coll e t ≤ Spec.committed coll e from to.
Proof.
  intros Hq Ht. rewrite committed_sum. unfold Loans.load.
  apply sum_with_le. intros id r Hr. specialize (Hq id r Hr).
  destruct (decide (Loans.holds_at e t r)) as [(He & Hs & Hr1 & Hr2)|_];
    destruct (decide (Spec.commits e from to r)) as [_|Hc]; try lia.
  destruct Hc. unfold Spec.commits, Spec.overlap. split_and!; try done; lia.
Qed.

Lemma load_replace coll id r r' e t :
  coll !! id = Some r →
  Loans.load (<[id := r']> coll) e t
  = Loans.load coll e t
    - (if decide (Loans.holds_at e t r) then quantity r else 0)
    + (if decide (Loans.holds_at e t r') then quantity r' else 0).
Proof. intros Hr. unfold Loans.load. by rewrite (sum_with_replace _ _ _ r). Qed.

(** A request that leaves the pending and approved statuses frees its
    units; one that is approved keeps them. *)
Lemma load_step coll id r r' e t :
  coll !! id = Some r → 0 ≤ quantity r →
  Loans.subject r' = Loans.subject r →
  status r' = rejected ∨ status r' = returned
  ∨ (status r' = approved ∧ status r = pending) →
  Loans.load (<[id := r']> coll) e t ≤ Loans.load coll e t.
Proof.
  intros Hr Hq Hsubject Hs. rewrite (load_replace _ _ r) by done.
  unfold Loans.subject in Hsubject. injection Hsubject as _ _ _ He _ Hq' Hf Ht.
  destruct (decide (Loans.holds_at e t r')) as [(He' & Hs' & Ht')|Hnot];
    destruct (decide (Loans.holds_at e t r)) as [_|Hnot']; try lia.
  destruct Hnot'. unfold Loans.holds_at. rewrite <-He, <-Hf, <-Ht.
  split; [done|]. split; [|done].
  destruct Hs as [Hs|[Hs|[_ Hs]]]; [| |by left];
    destruct Hs' as [Hs'|Hs']; congruence.
Qed.

(** The items' totals after an [$inc] of [available]. *)
Lemma inc_available_quantity coll id d j item' :
  EquipmentModel.inc_available coll id d !! j = Some item' →
  ∃ item, coll !! j = Some item
    ∧ EquipmentModel.quantity item' = EquipmentModel.quantity item.
Proof.
  unfold EquipmentModel.inc_available.
  intros [[<- (x & Hx & ->)]|[Hne Hitem]]%lookup_alter_Some; eauto.
Qed.

Lemma never_overbooked_le db db' :
  Loans.never_overbooked db →
  (∀ j item', equipments db' !! j = Some item' →
     ∃ item, equipments db !! j = Some item
       ∧ EquipmentModel.quantity item' = EquipmentModel.quantity item) →
  (∀ e t, Loans.load (requests db') e t ≤ Loans.load (requests db) e t) →
  Loans.never_overbooked db'.
Proof.
  intros Hok Hitems Hload e item' t Hitem'.
  destruct (Hitems _ _ Hitem') as (item & Hitem & ->).
  specialize (Hok e item t Hitem). specialize (Hload e t). lia.
Qed.

(** What [approveRequest] and [markReturned] do to the items, whatever they
    answer: nothing, or one [$inc] of [available]. *)
Lemma approveRequest_equipments clock db requestId approvalNotes' adminId :
  ∃ id d,
    equipments (approveRequest clock db requestId approvalNotes' adminId).2
    = equipments db
    ∨ equipments (approveRequest clock db requestId approvalNotes' adminId).2
      = EquipmentModel.inc_available (equipments db) id d.
Proof.
  unfold approveRequest.
  destruct (requests db !! requestId) as [r|]; [|by exists 1%positive, 0; left].
  exists (equipmentId r), (- quantity r).
  repeat (case_match; simpl; auto).
Qed.

Lemma markReturned_equipments clock db requestId condition returnNotes' :
  ∃ id d,
    equipments (markReturned clock db requestId condition returnNotes').2
    = equipments db
    ∨ equipments (markReturned clock db requestId condition returnNotes').2
      = EquipmentModel.inc_available (equipments db) id d.
Proof.
  unfold markReturned.
  destruct (requests db !! requestId) as [r|]; [|by exists 1%positive, 0; left].
  exists (equipmentId r), (quantity r).
  repeat (case_match; simpl; auto); subst; simpl; auto.
Qed.

(** X16. The date-range accounting of [createRequest] does what it is there for.
    When no item has, at any instant, more units promised to pending and
    approved requests than it has in total, and no stored request has a
    negative quantity, this is still so after [createRequest], and also
    after [approveRequest], [rejectRequest] and [markReturned], whatever
    they answer. *)
Theorem never_overbooked_kept clock db body requestId approvalNotes' adminId
    reason condition returnNotes' :
  Loans.never_overbooked db →
  (∀ id r, requests db !! id = Some r → 0 ≤ quantity r) →
  Loans.never_overbooked (createRequest clock db body).2
  ∧ Loans.never_overbooked
      (approveRequest clock db requestId approvalNotes' adminId).2
  ∧ Loans.never_overbooked (rejectRequest db requestId reason).2
  ∧ Loans.never_overbooked
      (markReturned clock db requestId condition returnNotes').2.
Proof.
  intros Hok Hq. split_and!.
  - destruct (decide (code (createRequest clock db body).1 = 201))
      as [Hcode|Hcode];
      [|by rewrite CreateRequestProps.createRequest_not_created].
    destruct (createRequest_201 _ _ _ Hcode)
      as (student & equipment & q & from & to & e & _ & _ & _ & _ & _
          & (Hq1 & _ & _) & He & _ & Hcommitted & _ & ->).
    intros j item t Hitem. simpl in *. unfold Loans.load.
    rewrite sum_with_insert by apply EquipmentProps.fresh_lookup.
    fold (Loans.load (requests db) j t).
    specialize (Hok j item t Hitem).
    destruct (decide (Loans.holds_at j t _)) as [(<- & _ & Ht)|_]; [|lia].
    simpl in *. assert (item = e) as -> by congruence.
    pose proof (load_le_committed (requests db) equipment from to t Hq Ht).
    lia.
  - apply (never_overbooked_le db); [done| |].
    + destruct (approveRequest_equipments clock db requestId approvalNotes'
                  adminId) as (j & d & [-> | ->]); [by eauto|].
      intros ??. apply inc_available_quantity.
    + intros e t.
      destruct (decide (code (approveRequest clock db requestId
                                approvalNotes' adminId).1 = 200))
        as [Hcode|Hcode]; [|by rewrite approveRequest_not_200].
      destruct (approveRequest_200 _ _ _ _ _ Hcode)
        as (r & ? & Hr & Hs & _ & _ & _ & ->).
      apply (load_step _ _ r); [done|by eapply Hq|done|]. by right; right.
  - apply (never_overbooked_le db); [done| |].
    + rewrite LedgerProps.rejectRequest_ledger. by eauto.
    + intros e t.
      destruct (decide (code (rejectRequest db requestId reason).1 = 200))
        as [Hcode|Hcode]; [|by rewrite rejectRequest_not_200].
      destruct (rejectRequest_200 _ _ _ Hcode) as (r & Hr & Hs & _ & ->).
      apply (load_step _ _ r); [done|by eapply Hq|done|]. by left.
  - apply (never_overbooked_le db); [done| |].
    + destruct (markReturned_equipments clock db requestId condition
                  returnNotes') as (j & d & [-> | ->]); [by eauto|].
      intros ??. apply inc_available_quantity.
    + intros e t.
      destruct (decide (code (markReturned clock db requestId condition
                                returnNotes').1 = 200))
        as [Hcode|Hcode]; [|by rewrite markReturned_not_200].
      destruct (markReturned_200 _ _ _ _ _ Hcode) as (r & Hr & Hs & _ & ->).
      apply (load_step _ _ r); [done|by eapply Hq|done|]. by right; left.
Qed.

(** *** The ledger invariant, where it is kept *)

Lemma sum_with_nonneg {A} (f : A → Z) (coll : gmap ObjectId A) :
  (∀ id x, coll !! id = Some x → 0 ≤ f x) → 0 ≤ sum_with f coll.
Proof.
  induction coll as [|id x coll Hid IH] using map_ind; intros Hf.
  - by rewrite sum_with_empty.
  - rewrite sum_with_insert by done.
    assert (0 ≤ f x) by (apply (Hf id); apply lookup_insert_eq).
    assert (0 ≤ sum_with f coll); [|lia].
    apply IH. intros i y Hy. apply (Hf i). rewrite lookup_insert_ne; [done|].
    intros ->. congruence.
Qed.

(** An approved request's units are among those on loan. *)
Lemma on_loan_member coll id r :
  (∀ j x, coll !! j = Some x → 0 ≤ quantity x) →
  coll !! id = Some r → status r = approved →
  quantity r ≤ Loans.on_loan coll (equipmentId r).
Proof.
  intros Hq Hr Hs. unfold Loans.on_loan.
  rewrite <-(insert_delete_id coll id r Hr).
  rewrite sum_with_insert by apply lookup_delete_eq.
  rewrite decide_True by done.
  assert (0 ≤ sum_with
                (fun x => if decide (equipmentId x = equipmentId r
                                     ∧ status x = approved)
                          then quantity x else 0) (delete id coll)); [|lia].
  apply sum_with_nonneg. intros j x [_ Hx]%lookup_delete_Some.
  specialize (Hq j x Hx). case_decide; lia.
Qed.

(** X17. Where [0 ≤ available ≤ quantity] is kept.  When it holds of every item
    and no stored request has a negative quantity, it still holds after
    [createRequest], [rejectRequest], [addEquipment], [deleteEquipment] and
    [approveRequest], whatever they answer; and after [markReturned] when in
    addition the ledger agrees with the approved loans. *)
Theorem ledger_ok_kept clock db body requestId approvalNotes' adminId reason
    condition returnNotes' id ebody :
  Spec.ledger_ok (equipments db) →
  (∀ j r, requests db !! j = Some r → 0 ≤ quantity r) →
  Spec.ledger_ok (equipments (createRequest clock db body).2)
  ∧ Spec.ledger_ok (equipments (rejectRequest db requestId reason).2)
  ∧ Spec.ledger_ok (equipments (EquipmentController.addEquipment db ebody).2)
  ∧ Spec.ledger_ok (equipments (EquipmentController.deleteEquipment db id).2)
  ∧ Spec.ledger_ok
      (equipments (approveRequest clock db requestId approvalNotes'
                     adminId).2)
  ∧ (Loans.consistent db →
     Spec.ledger_ok
       (equipments (markReturned clock db requestId condition
                      returnNotes').2)).
Proof.
  intros Hok Hq. split_and!.
  - by rewrite LedgerProps.createRequest_ledger.
  - by rewrite LedgerProps.rejectRequest_ledger.
  - by apply LedgerProps.addEquipment_ledger_ok.
  - by apply LedgerProps.deleteEquipment_ledger_ok.
  - apply LedgerProps.approveRequest_ledger_ok; [done|]. intros r. apply Hq.
  - intros Hconsistent. unfold markReturned.
    destruct (requests db !! requestId) as [r|] eqn:Hr; [|done].
    case_bool_decide as Hs; [done|].
    destruct (equipments db !! equipmentId r) as [e|] eqn:He;
      [|by case_match].
    assert (Spec.ledger_ok
              (EquipmentModel.inc_available (equipments db) (equipmentId r)
                 (quantity r))); [|by case_match].
    apply (LedgerProps.inc_available_ledger_ok _ _ _ e); [done..|].
    pose proof (on_loan_member _ _ _ Hq Hr Hs).
    specialize (Hconsistent _ _ He). specialize (Hq _ _ Hr).
    specialize (Hok _ _ He). unfold Spec.invariant in Hok. lia.
Qed.

(** *** No transition happens twice *)

(** X18. After a successful approval the request can be neither approved nor
    rejected again; after a successful rejection or return no handler
    accepts it any more.  Each refusal is a 400 that leaves the database,
    the ledger included, as the first call left it. *)
Theorem no_second_transition clock clock' db requestId approvalNotes' adminId
    reason condition returnNotes' notes2 admin2 reason2 condition2
    returnNotes2 :
  (code (approveRequest clock db requestId approvalNotes' adminId).1 = 200 →
   let db1 := (approveRequest clock db requestId approvalNotes' adminId).2 in
   approveRequest clock' db1 requestId notes2 admin2
   = (bad_request "Cannot approve a approved request", db1)
   ∧ rejectRequest db1 requestId reason2
     = (bad_request "Cannot reject a approved request", db1))
  ∧ (code (rejectRequest db requestId reason).1 = 200 →
     let db1 := (rejectRequest db requestId reason).2 in
     approveRequest clock' db1 requestId notes2 admin2
     = (bad_request "Cannot approve a rejected request", db1)
     ∧ rejectRequest db1 requestId reason2
       = (bad_request "Cannot reject a rejected request", db1)
     ∧ markReturned clock' db1 requestId condition2 returnNotes2
       = (bad_request "Only approved requests can be marked as returned",
          db1))
  ∧ (code (markReturned clock db requestId condition returnNotes').1 = 200 →
     let db1 := (markReturned clock db requestId condition returnNotes').2 in
     approveRequest clock' db1 requestId notes2 admin2
     = (bad_request "Cannot approve a returned request", db1)
     ∧ rejectRequest db1 requestId reason2
       = (bad_request "Cannot reject a returned request", db1)
     ∧ markReturned clock' db1 requestId condition2 returnNotes2
       = (bad_request "Only approved requests can be marked as returned",
          db1)).
Proof.
  split_and!.
  - intros Hcode db1. unfold db1. clear db1.
    destruct (approveRequest_200 _ _ _ _ _ Hcode)
      as (r & e & _ & _ & _ & _ & _ & ->).
    unfold approveRequest, rejectRequest. simpl.
    by rewrite lookup_insert_eq.
  - intros Hcode db1. unfold db1. clear db1.
    destruct (rejectRequest_200 _ _ _ Hcode) as (r & _ & _ & _ & ->).
    unfold approveRequest, rejectRequest, markReturned. simpl.
    by rewrite lookup_insert_eq.
  - intros Hcode db1. unfold db1. clear db1.
    destruct (markReturned_200 _ _ _ _ _ Hcode) as (r & _ & _ & _ & ->).
    unfold approveRequest, rejectRequest, markReturned. simpl.
    by rewrite lookup_insert_eq.
Qed.

End InvariantProps.

Module HandlerWitness.
Import Scenario RequestModel RequestController.

(** Request A asks for 3 basketballs; only 2 are available. *)
Lemma approveRequest_refusals_witness :
  approveRequest clock (db_stock 5 5) requestA None admin
  = (not_found "Request not found", db_stock 5 5)
  ∧ approveRequest clock (db_with 5 2 3 pending) requestA None admin
    = (bad_request "Requested quantity no longer available",
       db_with 5 2 3 pending).
Proof.
  destruct (HandlerProps.approveRequest_refusals clock (db_stock 5 5)
              requestA None admin) as [Hunknown _].
  destruct (HandlerProps.approveRequest_refusals clock
              (db_with 5 2 3 pending) requestA None admin)
    as (_ & Hshort & _).
  split; [apply Hunknown; by vm_compute|].
  apply (Hshort (request_for 3 nov10 nov15 pending)); [by vm_compute..|].
  right. exists (basketballs 5 2). split; [by vm_compute|]. simpl. lia.
Defined.

Lemma approveRequest_effect_witness :
  ∃ r e r',
    requests (db_with 5 5 3 pending) !! requestA = Some r
    ∧ equipments (db_with 5 5 3 pending) !! equipmentId r = Some e
    ∧ equipments (approveRequest clock (db_with 5 5 3 pending) requestA
                    (Some "For the match") admin).2
      = <[equipmentId r :=
            EquipmentModel.set_available e
              (EquipmentModel.available e - quantity r)]>
          (equipments (db_with 5 5 3 pending))
    ∧ requests (approveRequest clock (db_with 5 5 3 pending) requestA
                  (Some "For the match") admin).2
      = <[requestA := r']> (requests (db_with 5 5 3 pending))
    ∧ status r' = approved
    ∧ approvalNotes r' = Some "For the match".
Proof.
  destruct (HandlerProps.approveRequest_effect clock (db_with 5 5 3 pending)
              requestA (Some "For the match") admin)
    as (r & e & r' & Hr & _ & He & _ & Hledger & Hstored & _ & _ & Hs & _
        & _ & Hnotes & _); [by vm_compute|].
  exists r, e, r'. by split_and!.
Defined.

Lemma markReturned_effect_witness :
  ∃ r r',
    requests (db_with 5 2 3 approved) !! requestA = Some r
    ∧ requests (markReturned clock (db_with 5 2 3 approved) requestA
                  (Some "Fair") None).2
      = <[requestA := r']> (requests (db_with 5 2 3 approved))
    ∧ status r' = returned
    ∧ returnedCondition r' = Some "Fair"
    ∧ returnNotes r' = Some "".
Proof.
  destruct (HandlerProps.markReturned_effect clock (db_with 5 2 3 approved)
              requestA (Some "Fair") None)
    as (r & r' & Hr & _ & _ & Hstored & _ & _ & Hs & _ & _ & Hc & Hn & _);
    [by vm_compute|].
  exists r, r'. by split_and!.
Defined.

Lemma rejectRequest_effect_witness :
  (∃ r r',
     requests (db_with 1 1 1 pending) !! requestA = Some r
     ∧ (rejectRequest (db_with 1 1 1 pending) requestA None).2
       = mkDb (equipments (db_with 1 1 1 pending))
           (<[requestA := r']> (requests (db_with 1 1 1 pending)))
           (users (db_with 1 1 1 pending))
     ∧ status r' = rejected
     ∧ rejectionReason r' = Some "")
  ∧ rejectRequest (db_stock 1 1) requestA None
    = (not_found "Request not found", db_stock 1 1).
Proof.
  destruct (HandlerProps.rejectRequest_effect (db_with 1 1 1 pending)
              requestA None) as (Hdone & _ & _).
  destruct (HandlerProps.rejectRequest_effect (db_stock 1 1) requestA None)
    as (_ & Hunknown & _).
  split; [|apply Hunknown; by vm_compute].
  destruct Hdone as (r & r' & Hr & _ & Hdb & _ & Hs & Hreason & _);
    [by vm_compute|].
  exists r, r'. by split_and!.
Defined.

Lemma createRequest_effect_witness :
  ∃ id r',
    requests (db_stock 5 5) !! id = None
    ∧ requests (createRequest clock (db_stock 5 5)
                  (body_for 3 nov10 nov15)).2 !! id = Some r'
    ∧ r' = request_for 3 nov10 nov15 pending.
Proof.
  destruct (CreationProps.createRequest_effect clock (db_stock 5 5)
              (body_for 3 nov10 nov15))
    as (student & equipment & q & from & to & e & id & r' & Hs & He & Hq
        & Hf & Ht & _ & _ & _ & _ & _ & _ & Hfree & Hstored & _ & _ & _
        & Hr' & _); [by vm_compute|].
  exists id, r'. split; [exact Hfree|]. split; [exact Hstored|].
  injection Hs as <-. injection He as <-. injection Hq as <-.
  injection Hf as <-. injection Ht as <-. exact Hr'.
Defined.

(** Two of the five basketballs are available, three are with request A. *)
Lemma consistent_approved_stock : Loans.consistent (db_with 5 2 3 approved).
Proof.
  intros e x. unfold db_with. simpl.
  intros [<- <-]%lookup_singleton_Some. by vm_compute.
Qed.

Lemma stored_quantities (db : Db) q s :
  requests db = {[ requestA := request_for q nov10 nov15 s ]} → 0 ≤ q →
  ∀ j r, requests db !! j = Some r → 0 ≤ quantity r.
Proof.
  intros -> Hq j r [_ <-]%lookup_singleton_Some. done.
Qed.

Lemma consistency_kept_witness :
  Loans.consistent
    (markReturned clock (db_with 5 2 3 approved) requestA None None).2
  ∧ Loans.consistent
      (createRequest clock (db_with 5 2 3 approved)
         (body_for 2 nov12 nov20)).2.
Proof.
  destruct (InvariantProps.consistency_kept clock (db_with 5 2 3 approved)
              (body_for 2 nov12 nov20) requestA None admin None None None
              consistent_approved_stock)
    as (Hcreate & _ & _ & Hreturn).
  split; [apply Hreturn; by vm_compute | exact Hcreate].
Defined.

Lemma never_overbooked_approved :
  Loans.never_overbooked (db_with 5 2 3 approved).
Proof.
  intros e x t. unfold db_with. simpl.
  intros [<- <-]%lookup_singleton_Some.
  unfold Loans.load. rewrite <-insert_empty.
  rewrite SumProps.sum_with_insert by apply lookup_empty.
  rewrite SumProps.sum_with_empty. case_decide; simpl; lia.
Qed.

(** Request A holds 3 of the 5 units from 10 to 15 November; a request for
    the 2 others from 12 to 20 November is accepted, and all 5 are promised
    on 12 November, not more. *)
Lemma never_overbooked_kept_witness :
  let answer :=
    createRequest clock (db_with 5 2 3 approved) (body_for 2 nov12 nov20) in
  code answer.1 = 201
  ∧ Loans.load (requests answer.2) item nov12 = 5
  ∧ Loans.never_overbooked answer.2.
Proof.
  split; [by vm_compute|]. split; [by vm_compute|].
  apply (InvariantProps.never_overbooked_kept clock (db_with 5 2 3 approved)
           (body_for 2 nov12 nov20) requestA None admin None None None
           never_overbooked_approved).
  by apply (stored_quantities _ 3 approved).
Defined.

Lemma ledger_ok_kept_witness :
  Spec.ledger_ok
    (equipments (approveRequest clock (db_with 5 5 3 pending) requestA None
                   admin).2)
  ∧ Spec.ledger_ok
      (equipments (markReturned clock (db_with 5 2 3 approved) requestA None
                     None).2).
Proof.
  assert (Hfull : Spec.ledger_ok (equipments (db_with 5 5 3 pending))).
  { apply LedgerProps.ledger_ok_singleton. unfold Spec.invariant. simpl. lia. }
  assert (Hpart : Spec.ledger_ok (equipments (db_with 5 2 3 approved))).
  { apply LedgerProps.ledger_ok_singleton. unfold Spec.invariant. simpl. lia. }
  destruct (InvariantProps.ledger_ok_kept clock (db_with 5 5 3 pending)
              (body_for 1 nov10 nov15) requestA None admin None None None
              item (patch_quantity 5) Hfull)
    as (_ & _ & _ & _ & Happrove & _).
  { by apply (stored_quantities _ 3 pending). }
  destruct (InvariantProps.ledger_ok_kept clock (db_with 5 2 3 approved)
              (body_for 1 nov10 nov15) requestA None admin None None None
              item (patch_quantity 5) Hpart)
    as (_ & _ & _ & _ & _ & Hreturn).
  { by apply (stored_quantities _ 3 approved). }
  split; [exact Happrove|]. apply Hreturn, consistent_approved_stock.
Defined.

Lemma no_second_transition_witness :
  let db1 := (approveRequest clock (db_with 5 5 3 pending) requestA None
                admin).2 in
  approveRequest clock db1 requestA None admin
  = (bad_request "Cannot approve a approved request", db1)
  ∧ equipments db1 !! item = Some (basketballs 5 2).
Proof.
  intros db1.
  destruct (InvariantProps.no_second_transition clock clock
              (db_with 5 5 3 pending) requestA None admin None None None
              None admin None None None) as (Happroved & _ & _).
  destruct Happroved as [Hagain _]; [by vm_compute|].
  split; [exact Hagain | by vm_compute].
Defined.

End HandlerWitness.

(** ** The statistics *)

Module StatsProps.
Import EquipmentModel Statistics SumProps.

Lemma group_all_sums coll :
  or_zero (g_totalQuantity <$> group_all coll) = sum_with quantity coll
  ∧ or_zero (g_totalAvailable <$> group_all coll) = sum_with available coll
  ∧ or_zero (g_totalBorrowed <$> group_all coll)
    = sum_with (fun e => quantity e - available e) coll.
Proof.
  unfold group_all. case_decide as Hempty; [|done].
  subst coll. by rewrite !sum_with_empty.
Qed.

Lemma sum_with_bounds (coll : gmap ObjectId Equipment) :
  Spec.ledger_ok coll →
  0 ≤ sum_with available coll ≤ sum_with quantity coll.
Proof.
  intros Hok. split.
  - apply InvariantProps.sum_with_nonneg. intros id e He.
    by destruct (Hok id e He).
  - apply sum_with_le. intros id e He. by destruct (Hok id e He).
Qed.

(** X19. The totals of [getEquipmentStats] fit together: [totalItems] is the
    number of items, [totalBorrowed = totalQuantity - totalAvailable], and an
    empty inventory gives four zeros.  When every item has
    [0 ≤ available ≤ quantity], then [0 ≤ totalAvailable ≤ totalQuantity]
    and [totalBorrowed ≥ 0]. *)
Theorem getEquipmentStats_totals db :
  let stats := (getEquipmentStats db).1.2 in
  s_totalItems stats = Z.of_nat (size (equipments db))
  ∧ s_totalQuantity stats = sum_with quantity (equipments db)
  ∧ s_totalAvailable stats = sum_with available (equipments db)
  ∧ s_totalBorrowed stats = s_totalQuantity stats - s_totalAvailable stats
  ∧ (equipments db = ∅ → stats = mkEquipmentStats 0 0 0 0)
  ∧ (Spec.ledger_ok (equipments db) →
     0 ≤ s_totalAvailable stats ≤ s_totalQuantity stats
     ∧ 0 ≤ s_totalBorrowed stats).
Proof.
  intros stats. unfold stats, getEquipmentStats. simpl. clear stats.
  destruct (group_all_sums (equipments db)) as (-> & -> & ->).
  rewrite sum_with_minus. split_and!; try done.
  - intros ->. by rewrite map_size_empty, !sum_with_empty.
  - intros Hok. pose proof (sum_with_bounds _ Hok). lia.
Qed.

(** *** The rows by category *)

Lemma partial_alter_Some `{Countable K} {A} (g : option A → option A)
    (k : K) (m : gmap K A) y :
  g (m !! k) = Some y → partial_alter g k m = <[k := y]> m.
Proof.
  intros Hg. apply map_eq. intros j.
  rewrite lookup_partial_alter, lookup_insert. case_decide; by subst.
Qed.

Lemma row_eq a b c a' b' c' :
  a = a' → b = b' → c = c' → mkCategoryRow a b c = mkCategoryRow a' b' c'.
Proof. by intros -> -> ->. Qed.

Lemma add_to_row_comm e1 e2 row :
  add_to_row e1 (add_to_row e2 row) = add_to_row e2 (add_to_row e1 row).
Proof.
  destruct row; unfold add_to_row; simpl; apply f_equal, row_eq; lia.
Qed.

Lemma byCategory_insert coll id e :
  coll !! id = None →
  byCategory (<[id := e]> coll)
  = partial_alter (add_to_row e) (category e) (byCategory coll).
Proof.
  intros Hid. unfold byCategory.
  apply (map_fold_insert_L
           (fun _ e rows => partial_alter (add_to_row e) (category e) rows));
    [|done].
  intros j1 j2 e1 e2 rows _ _ _.
  destruct (decide (category e1 = category e2)) as [Heq|Hne].
  - rewrite Heq, !partial_alter_partial_alter_eq.
    apply partial_alter_ext. intros row _. apply add_to_row_comm.
  - by apply partial_alter_partial_alter_ne.
Qed.

(** The sum of a column after one more document has entered its row. *)
Lemma sum_with_add_to_row (f : CategoryRow → Z) (g : Equipment → Z) e rows :
  (∀ row, f (mkCategoryRow (count row + 1) (totalQuantity row + quantity e)
               (row_available row + available e)) = f row + g e) →
  f (mkCategoryRow 1 (quantity e) (available e)) = g e →
  sum_with f (partial_alter (add_to_row e) (category e) rows)
  = sum_with f rows + g e.
Proof.
  intros Hadd Hnew.
  destruct (rows !! category e) as [row|] eqn:Hrow.
  - rewrite (partial_alter_Some _ _ _ _ (f_equal (add_to_row e) Hrow)).
    rewrite (sum_with_replace _ _ _ row) by done. simpl.
    rewrite Hadd. lia.
  - rewrite (partial_alter_Some _ _ _ _ (f_equal (add_to_row e) Hrow)).
    rewrite sum_with_insert by done. simpl. by rewrite Hnew.
Qed.

(** X20. The rows of [byCategory] add up to the totals: their counts to the
    number of items, their quantities and available counts to the total
    quantity and the total available; and a category has a row exactly when
    an item has that category. *)
Theorem byCategory_adds_up db :
  let rows := (getEquipmentStats db).2 in
  let stats := (getEquipmentStats db).1.2 in
  sum_with count rows = s_totalItems stats
  ∧ sum_with totalQuantity rows = s_totalQuantity stats
  ∧ sum_with row_available rows = s_totalAvailable stats
  ∧ (∀ c, is_Some (rows !! c)
          ↔ ∃ id e, equipments db !! id = Some e ∧ category e = c).
Proof.
  intros rows stats. unfold rows, stats, getEquipmentStats. simpl.
  clear rows stats.
  destruct (group_all_sums (equipments db)) as (-> & -> & _).
  rewrite <-sum_with_one.
  induction (equipments db) as [|id e coll Hid IH] using map_ind.
  - unfold byCategory. rewrite map_fold_empty, !sum_with_empty.
    split_and!; try done. intros c. rewrite lookup_empty. split.
    + by intros [? [=]].
    + intros (j & x & Hx & _). by rewrite lookup_empty in Hx.
  - destruct IH as (Hcount & Hquantity & Havailable & Hrows).
    rewrite byCategory_insert by done.
    rewrite !sum_with_insert by done.
    rewrite (sum_with_add_to_row count (fun _ => 1)) by done.
    rewrite (sum_with_add_to_row totalQuantity quantity) by done.
    rewrite (sum_with_add_to_row row_available available) by done.
    rewrite Hcount, Hquantity, Havailable. split_and!; try done.
    intros c. rewrite lookup_partial_alter. case_decide as Hc.
    + subst c. split; [|by eexists].
      intros _. exists id, e. by rewrite lookup_insert_eq.
    + rewrite Hrows. split.
      * intros (j & x & Hx & Hcat). exists j, x. split; [|done].
        rewrite lookup_insert_ne; [done|]. intros ->. congruence.
      * intros (j & x & [[-> <-]|[_ Hx]]%lookup_insert_Some & Hcat);
          [done|]. by exists j, x.
Qed.

(** *** The administrator's dashboard *)

Lemma count_statuses (coll : gmap ObjectId RequestModel.Request) :
  count_with (has_status RequestModel.pending) coll
  + count_with (has_status RequestModel.approved) coll
  + count_with (has_status RequestModel.rejected) coll
  + count_with (has_status RequestModel.returned) coll
  = Z.of_nat (size coll).
Proof.
  unfold count_with. rewrite <-!sum_with_plus, <-sum_with_one.
  apply sum_with_ext. intros id r _. unfold has_status.
  destruct (RequestModel.status r); by vm_compute.
Qed.

Lemma count_roles (coll : gmap ObjectId UserModel.User) :
  count_with (has_role "admin") coll + count_with (has_role "student") coll
  + count_with (has_role "staff") coll
  = count_with
      (fun u => bool_decide (UserModel.role u ∈ ["student"; "staff"; "admin"]))
      coll.
Proof.
  unfold count_with. rewrite <-!sum_with_plus.
  apply sum_with_ext. intros id u _. unfold has_role.
  destruct (String.eqb_spec (UserModel.role u) "admin") as [->|Ha];
    [done|].
  destruct (String.eqb_spec (UserModel.role u) "student") as [->|Hs];
    [done|].
  destruct (String.eqb_spec (UserModel.role u) "staff") as [->|Hf];
    [done|].
  rewrite bool_decide_eq_false_2; [done|].
  rewrite !elem_of_cons, elem_of_nil. by intros [?|[?|[?|[]]]].
Qed.

(** X21. The dashboard's numbers fit together: the four counts of
    [requestBreakdown] add up to the number of requests, and
    [pendingRequests] is its pending count; [availableEquipment] and
    [borrowedEquipment] add up to the total quantity of the inventory; the
    three user counts never exceed [totalUsers], and add up to it when every
    user's role is student, staff or admin. *)
Theorem getAdminStats_adds_up db :
  let stats := (getAdminStats db).2 in
  let counts := requestBreakdown stats in
  n_pending counts + n_approved counts + n_rejected counts
  + n_returned counts = Z.of_nat (size (requests db))
  ∧ pendingRequests stats = n_pending counts
  ∧ availableEquipment stats + borrowedEquipment stats
    = sum_with quantity (equipments db)
  ∧ adminUsers stats + studentUsers stats + staffUsers stats
    ≤ totalUsers stats
  ∧ ((∀ id u, users db !! id = Some u →
        UserModel.role u ∈ ["student"; "staff"; "admin"]) →
     adminUsers stats + studentUsers stats + staffUsers stats
     = totalUsers stats).
Proof.
  intros stats counts. unfold counts, stats, getAdminStats. simpl.
  clear stats counts.
  destruct (group_all_sums (equipments db)) as (_ & -> & ->).
  rewrite sum_with_minus, count_statuses, count_roles, <-!sum_with_one.
  unfold count_with. split_and!; try done; try lia.
  - apply sum_with_le. intros id u _. case_bool_decide; lia.
  - intros Hroles. apply sum_with_ext. intros id u Hu.
    by rewrite bool_decide_eq_true_2 by by eapply Hroles.
Qed.

Lemma count_with_replace {A} (P : A → bool) (coll : gmap ObjectId A) id x y :
  coll !! id = Some x →
  count_with P (<[id := y]> coll)
  = count_with P coll - (if P x then 1 else 0) + (if P y then 1 else 0).
Proof. intros Hid. unfold count_with. by rewrite (sum_with_replace _ _ _ x). Qed.

Lemma sum_available_inc coll id d e :
  coll !! id = Some e →
  sum_with available (inc_available coll id d) = sum_with available coll + d
  ∧ sum_with quantity (inc_available coll id d) = sum_with quantity coll
  ∧ size (inc_available coll id d) = size coll.
Proof.
  intros He. rewrite (HandlerProps.inc_available_insert _ _ _ e He).
  rewrite !(sum_with_replace _ _ _ e) by done. simpl.
  split; [lia|]. split; [lia|].
  rewrite <-(insert_id coll id e He) at 2.
  rewrite <-(insert_delete_eq coll), <-(insert_delete_eq coll id e).
  by rewrite !map_size_insert_None by apply lookup_delete_eq.
Qed.

(** X22. The dashboard follows the lifecycle.  A successful approval moves one
    request from the pending to the approved count, and the request's
    quantity from [availableEquipment] to [borrowedEquipment]; a successful
    rejection moves one request from pending to rejected and leaves the
    equipment numbers alone. *)
Theorem getAdminStats_after_approval clock db requestId approvalNotes' adminId
    reason :
  let before := (getAdminStats db).2 in
  (code (RequestController.approveRequest clock db requestId approvalNotes'
           adminId).1 = 200 →
   let after :=
     (getAdminStats
        (RequestController.approveRequest clock db requestId approvalNotes'
           adminId).2).2 in
   ∃ r, requests db !! requestId = Some r
     ∧ requestBreakdown after
       = mkRequestCounts (n_pending (requestBreakdown before) - 1)
           (n_approved (requestBreakdown before) + 1)
           (n_rejected (requestBreakdown before))
           (n_returned (requestBreakdown before))
     ∧ availableEquipment after
       = availableEquipment before - RequestModel.quantity r
     ∧ borrowedEquipment after
       = borrowedEquipment before + RequestModel.quantity r
     ∧ totalEquipment after = totalEquipment before)
  ∧ (code (RequestController.rejectRequest db requestId reason).1 = 200 →
     let after :=
       (getAdminStats
          (RequestController.rejectRequest db requestId reason).2).2 in
     requestBreakdown after
     = mkRequestCounts (n_pending (requestBreakdown before) - 1)
         (n_approved (requestBreakdown before))
         (n_rejected (requestBreakdown before) + 1)
         (n_returned (requestBreakdown before))
     ∧ availableEquipment after = availableEquipment before
     ∧ borrowedEquipment after = borrowedEquipment before).
Proof.
  cbv zeta. split.
  - intros Hcode.
    destruct (HandlerProps.approveRequest_200 _ _ _ _ _ Hcode)
      as (r & e & Hr & Hs & He & _ & _ & ->).
    exists r. split; [done|]. unfold getAdminStats. simpl.
    destruct (group_all_sums (equipments db)) as (_ & -> & ->).
    destruct (group_all_sums
                (inc_available (equipments db) (RequestModel.equipmentId r)
                   (- RequestModel.quantity r))) as (_ & -> & ->).
    rewrite !sum_with_minus.
    destruct (sum_available_inc (equipments db) (RequestModel.equipmentId r)
                (- RequestModel.quantity r) e He) as (-> & -> & ->).
    rewrite !(count_with_replace _ _ _ r) by done.
    unfold has_status. simpl. rewrite Hs. split_and!; try done; try lia.
    apply f_equal4; repeat case_bool_decide; (done || lia).
  - intros Hcode.
    destruct (HandlerProps.rejectRequest_200 _ _ _ Hcode)
      as (r & Hr & Hs & _ & ->).
    unfold getAdminStats. simpl.
    rewrite !(count_with_replace _ _ _ r) by done.
    unfold has_status. simpl. rewrite Hs. split_and!; try done.
    apply f_equal4; repeat case_bool_decide; (done || lia).
Qed.

End StatsProps.

(** ** Pagination, filters and virtuals *)

Module ListingProps.
Import Listing RequestVirtuals SumProps.

(** [Math.ceil(a / b)] for a positive [b]: the least [n] with [a ≤ n * b]. *)
Lemma ceil_div_bounds a b :
  0 < b → (ceil_div a b - 1) * b < a ≤ ceil_div a b * b.
Proof.
  intros Hb. unfold ceil_div.
  pose proof (Z.div_mod (- a) b) as Hdiv.
  pose proof (Z.mod_pos_bound (- a) b Hb) as Hmod. nia.
Qed.



(** *** [parseInt] reads back what a number prints as *)











Section Filter.
Variable regex_i : string → string → bool.

(** X24. The availability filter of [getAllEquipment].  "available" selects items
    with [available > 0], "unavailable" those with [available = 0] exactly,
    and any other value does not filter.  So no item is in both views, and
    when no item has a negative [available] the two views together count
    exactly the items the unfiltered query counts. *)
Theorem availability_views db query :
  let view a :=
    equipmentFilter regex_i (with_availability query a) in
  (∀ e, view (Some "available") e = true → EquipmentModel.available e > 0)
  ∧ (∀ e, view (Some "unavailable") e = true →
          EquipmentModel.available e = 0)
  ∧ (∀ a e, a ≠ Some "available" → a ≠ Some "unavailable" →
            view a e = view None e)
  ∧ ((∀ id e, equipments db !! id = Some e → 0 ≤ EquipmentModel.available e)
     → count_with (view (Some "available")) (equipments db)
       + count_with (view (Some "unavailable")) (equipments db)
       = count_with (view None) (equipments db)).
Proof.
  intros view. unfold view, equipmentFilter, with_availability. clear view.
  cbn [q_availability q_search q_category]. split_and!.
  - intros e. rewrite bool_decide_eq_true_2 by done.
    intros [_ Ha]%andb_true_iff. by apply bool_decide_eq_true in Ha.
  - intros e. rewrite bool_decide_eq_false_2 by done.
    rewrite bool_decide_eq_true_2 by done.
    intros [_ Ha]%andb_true_iff. by apply bool_decide_eq_true in Ha.
  - intros a e Ha Hu. by rewrite !bool_decide_eq_false_2 by done.
  - intros Hnonneg. unfold count_with. rewrite <-sum_with_plus.
    apply sum_with_ext. intros id e He. specialize (Hnonneg id e He).
    rewrite (bool_decide_eq_true_2 (Some "available" = Some "available"))
      by done.
    rewrite (bool_decide_eq_false_2 (Some "unavailable" = Some "available"))
      by done.
    rewrite (bool_decide_eq_true_2 (Some "unavailable" = Some "unavailable"))
      by done.
    rewrite !(bool_decide_eq_false_2 (None = Some _)) by done.
    destruct (if truthy (q_search query) then _ else _),
      (if truthy (q_category query) then _ else _); simpl; try done.
    repeat case_bool_decide; lia.
Qed.

End Filter.

(** X25. [daysRequested] is the number of days the range covers, a started day
    counting as a whole one:
    [(days - 1) * msPerDay < to - from ≤ days * msPerDay]; a range of [n]
    whole days gives [n], and a valid request has at least one day. *)
Theorem daysRequested_bounds r :
  let days := daysRequested r in
  let duration := RequestModel.borrowToDate r - RequestModel.borrowFromDate r in
  (days - 1) * millisecondsPerDay < duration ≤ days * millisecondsPerDay
  ∧ (∀ n, duration = n * millisecondsPerDay → days = n)
  ∧ (Spec.valid r → 1 ≤ days).
Proof.
  intros days duration. unfold days, daysRequested. fold duration. clear days.
  assert (Hday : 0 < millisecondsPerDay) by (by vm_compute).
  pose proof (ceil_div_bounds duration millisecondsPerDay Hday) as Hb.
  split; [done|]. split.
  - intros n Hn. nia.
  - intros (_&_&_&_&Hrange&_)%ValidationProps.valid_iff.
    fold duration in Hrange. nia.
Qed.

(** A request is overdue only while it is approved: no pending, rejected or
    returned request is, at any time; an approved one is from the first
    instant after its [borrowToDate]. *)
Lemma isOverdue_while_approved r t :
  (RequestModel.status r ≠ RequestModel.approved → isOverdue r t = false)
  ∧ (RequestModel.status r = RequestModel.approved →
     (isOverdue r t = true ↔ RequestModel.borrowToDate r < t)).
Proof.
  unfold isOverdue. split.
  - intros Hs. by rewrite bool_decide_eq_true_2.
  - intros Hs. rewrite bool_decide_eq_false_2 by (by intros ?).
    rewrite bool_decide_eq_true. lia.
Qed.

End ListingProps.

(** ** The middleware and the routers *)

Module AuthProps.
Import AuthMiddleware Routes.

Lemma split_free separator s :
  free_of separator s = true → split separator s = [s].
Proof.
  induction s as [|c s IH]; [done|]. simpl.
  intros [Hc Hs]%andb_true_iff. apply negb_true_iff in Hc.
  by rewrite Hc, (IH Hs).
Qed.

Lemma split_app separator s rest :
  free_of separator s = true →
  split separator (s +:+ String separator rest) = s :: split separator rest.
Proof.
  induction s as [|c s IH]; simpl.
  - intros _. by rewrite Ascii.eqb_refl.
  - intros [Hc Hs]%andb_true_iff. apply negb_true_iff in Hc.
    by rewrite Hc, (IH Hs).
Qed.

Lemma token_second_word scheme word u :
  free_of space scheme = true → free_of space word = true →
  token (mkReq (Some (scheme +:+ " " +:+ word)) u) = Some word.
Proof.
  intros Hscheme Hword. unfold token. simpl.
  change (scheme +:+ " " +:+ word) with (scheme +:+ String space word).
  by rewrite (split_app _ _ _ Hscheme), (split_free _ _ Hword).
Qed.

Section Verify.
Variable verify : string → Verified.

(** [authenticate] answers 401 or calls [next()] with the payload of the
    token as [req.user]. *)
Lemma authenticate_step req :
  match authenticate verify req with
  | respond res => code res = 401
  | next req' =>
    ∃ word' decoded,
      token req = Some word' ∧ word' ≠ ""
      ∧ verify word' = Decoded decoded
      ∧ req' = mkReq (authorization req) (Some decoded)
  end.
Proof.
  unfold authenticate.
  destruct (token req) as [word'|] eqn:Htoken; simpl; [|done].
  destruct (String.eqb_spec word' ""); simpl; [done|].
  destruct (verify word') eqn:Hverify; try done. by exists word', decoded.
Qed.

(** X26. [authenticate] takes the second word of the Authorization header for
    the token, whatever the first word is: with a header
    [scheme ++ " " ++ word] it answers 401 when [word] is empty and
    otherwise as [jwt.verify] decides on [word].  A header that is absent or
    has no blank is refused.  It never answers anything but 401, and when it
    calls [next()], [req.user] is the payload of the token, whatever it was
    before. *)
Theorem authenticate_token scheme word u :
  free_of space scheme = true → free_of space word = true →
  authenticate verify (mkReq (Some (scheme +:+ " " +:+ word)) u)
  = (if String.eqb word ""
     then respond (unauthorized "No token provided - Authentication required")
     else
       match verify word with
       | Decoded decoded =>
         next (mkReq (Some (scheme +:+ " " +:+ word)) (Some decoded))
       | TokenExpiredError => respond (unauthorized "Token has expired")
       | JsonWebTokenError => respond (unauthorized "Invalid token")
       end)
  ∧ decision (authenticate verify (mkReq None u)) = Some 401
  ∧ decision (authenticate verify (mkReq (Some scheme) u)) = Some 401
  ∧ (∀ req,
       match authenticate verify req with
       | respond res => code res = 401
       | next req' =>
         ∃ word' decoded,
           token req = Some word' ∧ word' ≠ ""
           ∧ verify word' = Decoded decoded
           ∧ req' = mkReq (authorization req) (Some decoded)
       end).
Proof.
  intros Hscheme Hword. split_and!.
  - unfold authenticate. rewrite (token_second_word _ _ _ Hscheme Hword).
    simpl. by destruct (String.eqb word "").
  - done.
  - unfold authenticate, token. simpl. by rewrite (split_free _ _ Hscheme).
  - apply authenticate_step.
Qed.

(** [optionalAuth] always calls [next()]; it leaves in [req.user] the user
    [authenticate] would, and none where [authenticate] refuses. *)
Lemma optionalAuth_authenticate req :
  optionalAuth verify req
  = match authenticate verify req with
    | next req' => next req'
    | respond _ => next (mkReq (authorization req) None)
    end.
Proof.
  unfold optionalAuth, authenticate.
  destruct (truthy (token req)); simpl; [|done].
  by destruct (verify _).
Qed.

End Verify.

(** X27. [adminOnly] decides as [authorize(['admin'])] and [studentOnly] as
    [authorize(['student', 'staff'])]: the same requests pass, the same get
    401 and the same 403.  [authorize] lets a request pass exactly when it
    has a user whose role is among the allowed ones, and leaves the request
    as it is; with its default, the empty list, nothing passes. *)
Theorem role_guards req :
  decision (adminOnly req) = decision (authorize ["admin"] req)
  ∧ decision (studentOnly req) = decision (authorize ["student"; "staff"] req)
  ∧ (∀ allowedRoles,
       match authorize allowedRoles req with
       | next req' =>
         req' = req ∧ ∃ u, user req = Some u ∧ role u ∈ allowedRoles
       | respond res =>
         match user req with
         | None => code res = 401
         | Some u => code res = 403 ∧ role u ∉ allowedRoles
         end
       end)
  ∧ decision (authorize [] req) ≠ None.
Proof.
  unfold adminOnly, studentOnly, authorize, decision.
  destruct (user req) as [u|]; [|by split_and!; try done].
  split_and!.
  - destruct (decide (role u = "admin")) as [Heq|Hne].
    + rewrite (bool_decide_eq_false_2 (role u ≠ "admin")) by (by intros ?).
      rewrite (bool_decide_eq_true_2 (role u ∈ ["admin"]))
        by (by apply list_elem_of_singleton).
      done.
    + rewrite (bool_decide_eq_true_2 (role u ≠ "admin")) by done.
      rewrite (bool_decide_eq_false_2 (role u ∈ ["admin"]))
        by (by rewrite list_elem_of_singleton).
      done.
  - by case_bool_decide.
  - intros allowedRoles. case_bool_decide; simpl; [|done].
    split; [done|]. by exists u.
  - rewrite bool_decide_eq_false_2; [done|]. apply not_elem_of_nil.
Qed.

Section Chains.
Variable verify : string → Verified.

(** The role a guard asks for. *)
Lemma guard_role g req :
  g ≠ Authenticate →
  match guard verify g req with
  | next req' =>
    req' = req
    ∧ ∃ u, user req = Some u
           ∧ (if decide (g = AdminOnly) then role u = "admin"
              else role u ∈ ["student"; "staff"])
  | respond res => code res = 401 ∨ code res = 403
  end.
Proof.
  destruct g; [done| |]; intros _; simpl.
  - unfold adminOnly. destruct (user req) as [u|]; [|by left].
    case_bool_decide as Hrole; [by right|]. split; [done|]. by exists u.
  - unfold studentOnly. destruct (user req) as [u|]; [|by left].
    case_bool_decide as Hrole; simpl; [|by right]. split; [done|]. by exists u.
Qed.

(** X28. Every route of the two routers that is not a GET runs [authenticate]
    and then [adminOnly], but for POST /api/requests/create, which runs
    [authenticate] and then [studentOnly].  So a request that is not a GET
    reaches its handler only when its token verifies, with the role admin,
    or, to create a borrow request, with the role student or staff; every
    other one is answered 401 or 403 by the guards and leaves the database
    as it was. *)
Theorem writes_need_role routes m path route handle req db :
  routes = equipmentRoutes ∨ routes = requestRoutes →
  dispatch routes m path = Some route →
  m ≠ GET →
  let answer := run verify (guards route) handle req db in
  (∃ word decoded,
     token req = Some word ∧ verify word = Decoded decoded
     ∧ (if decide (handler route = CreateRequest)
        then role decoded ∈ ["student"; "staff"]
        else role decoded = "admin")
     ∧ answer = handle (mkReq (authorization req) (Some decoded)) db)
  ∨ (answer.2 = db ∧ (code answer.1 = 401 ∨ code answer.1 = 403)).
Proof.
  intros Hroutes Hdispatch Hm answer.
  assert (Hguards :
    ∃ g, guards route = [Authenticate; g] ∧ g ≠ Authenticate
         ∧ (g = AdminOnly ↔ handler route ≠ CreateRequest)).
  { unfold dispatch in Hdispatch. apply find_some in Hdispatch.
    destruct Hdispatch as [Hin [Hmethod _]%andb_true_iff].
    apply bool_decide_eq_true in Hmethod. subst m.
    destruct Hroutes as [-> | ->]; simpl in Hin;
      repeat (destruct Hin as [<- | Hin]; [try done|]); try done;
      try (by exists AdminOnly); by exists StudentOnly. }
  destruct Hguards as (g & Hg & Hauth & Hadmin).
  unfold answer. rewrite Hg. simpl.
  pose proof (authenticate_step verify req) as Hstep. destruct (authenticate verify req) as [req'|res].
  - destruct Hstep as (word & decoded & Htoken & _ & Hverify & ->).
    pose proof (guard_role g (mkReq (authorization req) (Some decoded)) Hauth)
      as Hrole.
    destruct (guard verify g _) as [req''|res]; [|by right].
    destruct Hrole as (-> & u & [= <-] & Hrole).
    left. exists word, decoded. split_and!; try done.
    destruct (decide (g = AdminOnly)) as [Heq|Hne].
    + rewrite decide_False; [done|]. by apply Hadmin.
    + rewrite decide_True; [done|]. apply dec_stable. by rewrite <-Hadmin.
  - right. simpl. split; [done|]. by left.
Qed.

(** X29. POST /api/requests/:requestId/approve records the user of the token as
    the approver.  Whenever the chain [authenticate], [adminOnly],
    [approveRequest] answers 200, the token verified with the role admin,
    and the request is stored as approved by the token's [userId], under
    that user's name or "Admin"; nothing in the body names the approver. *)
Theorem approve_route_approver clock requestId approvalNotes' req db :
  let answer :=
    run verify [Authenticate; AdminOnly]
      (approveRequest_on clock requestId approvalNotes') req db in
  code answer.1 = 200 →
  ∃ word decoded r',
    token req = Some word
    ∧ verify word = Decoded decoded
    ∧ role decoded = "admin"
    ∧ requests answer.2 !! requestId = Some r'
    ∧ RequestModel.status r' = RequestModel.approved
    ∧ RequestModel.approvedBy r' = Some (userId decoded)
    ∧ RequestModel.approvedByName r'
      = Some (Answers.adminName_of db (userId decoded)).
Proof.
  intros answer. unfold answer. simpl. clear answer.
  pose proof (authenticate_step verify req) as Hstep.
  destruct (authenticate verify req) as [req'|res];
    [|simpl; intros Hcode; rewrite Hstep in Hcode; discriminate Hcode].
  destruct Hstep as (word & decoded & Htoken & _ & Hverify & ->).
  unfold adminOnly. simpl. case_bool_decide as Hrole; [done|].
  unfold approveRequest_on. simpl. intros Hcode.
  destruct (HandlerProps.approveRequest_200 _ _ _ _ _ Hcode)
    as (r & e & Hr & Hs & He & Hq & Hv & ->).
  simpl. eexists word, decoded, _.
  split_and!; [done|done|done|apply lookup_insert_eq|done..].
Qed.

End Chains.

(** X30. GET /api/equipment/stats never reaches [getEquipmentStats]: the route
    [/:id] is registered before [/stats] and matches every path [/stats]
    does, so no request at all is dispatched to [getEquipmentStats], and a
    GET of [/stats] goes to [getEquipmentById] behind [authenticate] alone.
    Every other route of the two routers serves some path. *)
Theorem stats_route_shadowed :
  (∀ m path route,
     dispatch equipmentRoutes m path = Some route →
     handler route ≠ GetEquipmentStats)
  ∧ dispatch equipmentRoutes GET ["stats"]
    = Some (mkRoute GET [Param "id"] [Authenticate] GetEquipmentById)
  ∧ (∀ route, route ∈ equipmentRoutes →
       handler route ≠ GetEquipmentStats →
       ∃ path, dispatch equipmentRoutes (method route) path = Some route)
  ∧ (∀ route, route ∈ requestRoutes →
       ∃ path, dispatch requestRoutes (method route) path = Some route).
Proof.
  split_and!.
  - intros m path route. unfold dispatch, equipmentRoutes.
    intros Hfound.
    destruct m, path as [|[|c s] [|s' path]];
      cbn [List.find method pattern path_matches segment_matches andb negb
           String.eqb] in Hfound;
      rewrite ?andb_false_r in Hfound;
      repeat (first [ rewrite bool_decide_eq_true_2 in Hfound by done
                    | rewrite bool_decide_eq_false_2 in Hfound by done ];
              cbn [andb] in Hfound);
      by simplify_eq.
  - done.
  - intros route Hin Hstats. unfold equipmentRoutes in Hin.
    repeat (apply elem_of_cons in Hin as [-> | Hin]);
      [by exists [] | by exists ["7"] | by exists [] | by exists ["7"]
      | by exists ["7"] | done | by apply elem_of_nil in Hin].
  - intros route Hin. unfold requestRoutes in Hin.
    repeat (apply elem_of_cons in Hin as [-> | Hin]);
      [by exists ["create"] | by exists ["user"; "7"]
      | by exists ["admin"; "stats"] | by exists []
      | by exists ["1"; "approve"] | by exists ["1"; "reject"]
      | by exists ["1"; "return"] | by apply elem_of_nil in Hin].
Qed.

End AuthProps.

Module StatsWitness.
Import Statistics Scenario Samples.

Lemma stock_ledger_ok q a :
  0 ≤ a ≤ q → Spec.ledger_ok (equipments (db_stock q a)).
Proof.
  intros Ha. apply LedgerProps.ledger_ok_singleton.
  unfold Spec.invariant. simpl. lia.
Qed.

Lemma getEquipmentStats_totals_witness :
  let stats := (getEquipmentStats (db_stock 5 3)).1.2 in
  0 ≤ s_totalAvailable stats ≤ s_totalQuantity stats
  ∧ 0 ≤ s_totalBorrowed stats.
Proof.
  destruct (StatsProps.getEquipmentStats_totals (db_stock 5 3))
    as (_ & _ & _ & _ & _ & Hbounds).
  apply Hbounds, stock_ledger_ok. lia.
Defined.

Lemma byCategory_adds_up_witness :
  is_Some ((getEquipmentStats (db_stock 5 3)).2 !! "Sports")
  ∧ sum_with row_available (getEquipmentStats (db_stock 5 3)).2
    = s_totalAvailable (getEquipmentStats (db_stock 5 3)).1.2.
Proof.
  destruct (StatsProps.byCategory_adds_up (db_stock 5 3))
    as (_ & _ & Havailable & Hrows).
  split; [|exact Havailable].
  apply Hrows. exists item, (basketballs 5 3).
  split; [|reflexivity]. apply lookup_singleton_Some. split; reflexivity.
Defined.

Lemma getAdminStats_adds_up_witness :
  let stats := (getAdminStats (db_with 5 5 3 RequestModel.pending)).2 in
  adminUsers stats + studentUsers stats + staffUsers stats = totalUsers stats.
Proof.
  destruct (StatsProps.getAdminStats_adds_up
              (db_with 5 5 3 RequestModel.pending))
    as (_ & _ & _ & _ & Husers).
  apply Husers. intros id u. simpl.
  intros [[_ <-]|[_ [_ <-]%lookup_singleton_Some]]%lookup_insert_Some;
    rewrite !elem_of_cons; auto.
Defined.

Lemma getAdminStats_after_approval_witness :
  let db := db_with 5 5 3 RequestModel.pending in
  let before := (getAdminStats db).2 in
  let after :=
    (getAdminStats
       (RequestController.approveRequest clock db requestA None admin).2).2 in
  ∃ r, requests db !! requestA = Some r
    ∧ requestBreakdown after
      = mkRequestCounts (n_pending (requestBreakdown before) - 1)
          (n_approved (requestBreakdown before) + 1)
          (n_rejected (requestBreakdown before))
          (n_returned (requestBreakdown before))
    ∧ availableEquipment after
      = availableEquipment before - RequestModel.quantity r
    ∧ borrowedEquipment after
      = borrowedEquipment before + RequestModel.quantity r
    ∧ totalEquipment after = totalEquipment before.
Proof.
  destruct (StatsProps.getAdminStats_after_approval clock
              (db_with 5 5 3 RequestModel.pending) requestA None admin None)
    as [Happrove _].
  apply Happrove. by vm_compute.
Defined.

End StatsWitness.

Module ListingWitness.
Import Listing RequestVirtuals Scenario Samples.


Lemma availability_views_witness :
  let view a :=
    equipmentFilter occurs_in (with_availability no_query a) in
  count_with (view (Some "available")) (equipments (db_stock 5 3))
  + count_with (view (Some "unavailable")) (equipments (db_stock 5 3))
  = count_with (view None) (equipments (db_stock 5 3)).
Proof.
  destruct (ListingProps.availability_views occurs_in (db_stock 5 3) no_query)
    as (_ & _ & _ & Hcount).
  apply Hcount. intros id e. simpl.
  intros [_ <-]%lookup_singleton_Some. simpl. lia.
Defined.

Lemma daysRequested_bounds_witness :
  Spec.valid (request_for 3 nov10 nov15 RequestModel.pending)
  ∧ daysRequested (request_for 3 nov10 nov15 RequestModel.pending) = 5.
Proof.
  assert (Hvalid : Spec.valid (request_for 3 nov10 nov15 RequestModel.pending))
    by (by vm_compute).
  split; [exact Hvalid|].
  destruct (ListingProps.daysRequested_bounds
              (request_for 3 nov10 nov15 RequestModel.pending))
    as (_ & Hwhole & _).
  apply Hwhole. by vm_compute.
Defined.

End ListingWitness.

Module AuthWitness.
Import AuthMiddleware Routes Scenario Samples.

Lemma authenticate_token_witness :
  authenticate verify (bearer "root-token")
  = next (mkReq (Some "Bearer root-token")
            (Some (mkPayload admin "head@school.org" "admin")))
  ∧ authenticate verify (mkReq (Some "Token ann-token") None)
    = next (mkReq (Some "Token ann-token")
              (Some (mkPayload student "ann@school.org" "student")))
  ∧ authenticate verify (bearer "")
    = respond (unauthorized "No token provided - Authentication required").
Proof.
  split_and!.
  - exact (proj1 (AuthProps.authenticate_token verify "Bearer" "root-token"
                    None eq_refl eq_refl)).
  - exact (proj1 (AuthProps.authenticate_token verify "Token" "ann-token"
                    None eq_refl eq_refl)).
  - exact (proj1 (AuthProps.authenticate_token verify "Bearer" "" None eq_refl
                    eq_refl)).
Defined.

Lemma writes_need_role_witness :
  let route :=
    mkRoute POST [Param "requestId"; Lit "approve"] [Authenticate; AdminOnly]
      ApproveRequest in
  let db := db_with 5 5 3 RequestModel.pending in
  let answer := run verify (guards route) approve_requestA (bearer "ann-token")
                  db in
  dispatch requestRoutes POST ["1"; "approve"] = Some route
  ∧ answer.2 = db ∧ (code answer.1 = 401 ∨ code answer.1 = 403).
Proof.
  intros route db answer.
  assert (Hroute : dispatch requestRoutes POST ["1"; "approve"] = Some route)
    by reflexivity.
  split; [exact Hroute|].
  destruct (AuthProps.writes_need_role verify requestRoutes POST
              ["1"; "approve"] route approve_requestA (bearer "ann-token") db)
    as [(word & decoded & Htoken & Hverify & Hrole & _)|Hrefused];
    [by right|exact Hroute|discriminate| |exact Hrefused].
  vm_compute in Htoken. injection Htoken as <-.
  vm_compute in Hverify. injection Hverify as <-.
  discriminate Hrole.
Defined.

Lemma approve_route_approver_witness :
  let answer :=
    run verify [Authenticate; AdminOnly] (approveRequest_on clock requestA None)
      (bearer "root-token") (db_with 5 5 3 RequestModel.pending) in
  ∃ word decoded r',
    token (bearer "root-token") = Some word
    ∧ verify word = Decoded decoded
    ∧ role decoded = "admin"
    ∧ requests answer.2 !! requestA = Some r'
    ∧ RequestModel.status r' = RequestModel.approved
    ∧ RequestModel.approvedBy r' = Some (userId decoded)
    ∧ RequestModel.approvedByName r'
      = Some (Answers.adminName_of (db_with 5 5 3 RequestModel.pending)
                (userId decoded)).
Proof.
  apply (AuthProps.approve_route_approver verify clock requestA None
           (bearer "root-token") (db_with 5 5 3 RequestModel.pending)).
  by vm_compute.
Defined.

End AuthWitness.
